(** * OPZ-Sample-Manager: browser-side sample manager, verified model

    A shallow embedding of the scripts under [static/js]:
    - [samplemanager.js], the first sample manager for the slot-based device;
    - [configeditor.js], which holds the configuration editor and the current
      sample manager for both devices.

    JavaScript numbers are IEEE 754 binary64 values, modelled with the
    executable specification of the Standard Library ([SpecFloat]); strings
    are byte strings holding UTF-8 text; the page is a finite map from element
    ids to elements; asynchronous handlers are programs over the effects they
    perform (requests, dialogs, timers, console), run against an environment
    that answers each effect. *)

From Stdlib Require Import ZArith List String Ascii Bool Lia DecimalString DecimalPos.
From Stdlib Require Import Floats.SpecFloat.
From Stdlib Require Import Sorting.Sorted Sorting.Permutation.
From stdpp Require Import base option gmap strings.
Import ListNotations.

Local Open Scope Z_scope.

(** ** Strings *)

Module JsString.

Local Open Scope string_scope.

(** The quotation mark, the line feed and the no-break space (U+00A0, bytes
    C2 A0 in UTF-8). *)
Definition dq : string := String (ascii_of_nat 34) EmptyString.
Definition nl : string := String (ascii_of_nat 10) EmptyString.
Definition nbsp : string :=
  String (ascii_of_nat 194) (String (ascii_of_nat 160) EmptyString).

(** [s.startsWith(p)] *)
Definition startsWith (s p : string) : bool := String.prefix p s.

(** [s.includes(p)] *)
Fixpoint includes (s p : string) : bool :=
  String.prefix p s ||
  match s with
  | EmptyString => false
  | String _ s' => includes s' p
  end.

(** Truthiness of a string: only the empty string is falsy. *)
Definition truthy (s : string) : bool :=
  match s with EmptyString => false | _ => true end.

(** [s.split(sep)] for a one-character separator: the pieces between the
    separators, from left to right; never empty. *)
Fixpoint split (sep : ascii) (s : string) : list string :=
  match s with
  | EmptyString => [EmptyString]
  | String c s' =>
      if Ascii.eqb c sep then EmptyString :: split sep s'
      else match split sep s' with
           | [] => [String c EmptyString]
           | piece :: pieces => String c piece :: pieces
           end
  end.

(** [a.pop()] on a non-empty array: its last element. *)
Definition pop (a : list string) : string := List.last a EmptyString.

(** [a.join(sep)] *)
Definition join (sep : string) (a : list string) : string :=
  String.concat sep a.

(** Decimal numeral of a natural number, as template literals print it. *)
Definition of_N (n : N) : string := NilZero.string_of_uint (N.to_uint n).
Definition of_nat (n : nat) : string := of_N (N.of_nat n).
Definition of_Z (z : Z) : string :=
  if (z <? 0)%Z then "-" ++ of_N (Z.abs_N z) else of_N (Z.abs_N z).

(** [s || d] for an optional string: [d] when [s] is missing or empty. *)
Definition or_else (s : option string) (d : string) : string :=
  match s with
  | Some v => if truthy v then v else d
  | None => d
  end.

End JsString.

(** ** Numbers *)

Module JsNumber.

Import JsString.
Local Open Scope string_scope.

Definition prec : Z := 53.
Definition emax : Z := 1024.

Definition number : Type := spec_float.

Definition div : number -> number -> number := SFdiv prec emax.
Definition mul : number -> number -> number := SFmul prec emax.
Definition sub : number -> number -> number := SFsub prec emax.
Definition add : number -> number -> number := SFadd prec emax.

(** [x >= y], [x === y]: false as soon as one side is NaN. *)
Definition geb (x y : number) : bool := SFleb y x.
Definition ltb (x y : number) : bool := SFltb x y.
Definition eqb (x y : number) : bool := SFeqb x y.

(** The binary64 value nearest to the fraction [p / q] (ties to even), with
    the given sign; [p >= 0] and [q > 0]. *)
Definition round_ratio (neg : bool) (p q : Z) : number :=
  match p with
  | Z0 => S754_zero neg
  | _ => let '(mz, ez, lz) := SFdiv_core_binary prec emax p 0 q 0 in
         binary_round_aux prec emax neg mz ez lz
  end.

(** The number denoted by an integer literal. *)
Definition of_Z (z : Z) : number := round_ratio (z <? 0)%Z (Z.abs z) 1.

(** Truthiness of a number: zero and NaN are falsy. *)
Definition truthy (x : number) : bool :=
  match x with
  | S754_zero _ | S754_nan => false
  | _ => true
  end.

(** *** Number.prototype.toFixed(1) *)

(** [m * 2^e >= 10^21] *)
Definition at_least_1e21 (m : positive) (e : Z) : bool :=
  match e with
  | Zneg k => (10 ^ 21 * 2 ^ Zpos k <=? Zpos m)%Z
  | _ => (10 ^ 21 <=? Zpos m * 2 ^ e)%Z
  end.

(** The integer [n] for which [n / 10] is nearest to [m * 2^e], the larger
    one when two are as near. *)
Definition tenths (m : positive) (e : Z) : Z :=
  match e with
  | Zneg k => (20 * Zpos m + 2 ^ Zpos k) / 2 ^ (Zpos k + 1)
  | _ => 10 * Zpos m * 2 ^ e
  end.

(** The digits of [n] with a point before the last one, padded with a
    leading zero when [n] has a single digit. *)
Definition fixed1_digits (n : Z) : string :=
  let m := of_N (Z.to_N n) in
  let m := if (String.length m <=? 1)%nat then "0" ++ m else m in
  let k := String.length m in
  substring 0 (k - 1) m ++ "." ++ substring (k - 1) 1 m.

(** Number::toString for an integer [x >= 10^21]: the shortest digit string
    that reads back as the same number, in exponent notation. *)
Definition strip_zeros (v : Z) : Z :=
  Z.iter 400 (fun v => if (v mod 10 =? 0)%Z then v / 10 else v) v.

Definition exponent_notation (v : Z) : string :=
  let all := of_N (Z.to_N v) in
  let sig := of_N (Z.to_N (strip_zeros v)) in
  let e := of_nat (String.length all - 1) in
  let k := String.length sig in
  (if (k <=? 1)%nat then sig
   else substring 0 1 sig ++ "." ++ substring 1 (k - 1) sig)
  ++ "e+" ++ e.

Definition number_eq (x y : number) : bool :=
  match x, y with
  | S754_finite s m e, S754_finite s' m' e' =>
      Bool.eqb s s' && Pos.eqb m m' && Z.eqb e e'
  | _, _ => false
  end.

Fixpoint shortest_from (fuel : nat) (k : Z) (x : Z) (n : Z) : Z :=
  match fuel with
  | O => x
  | S fuel' =>
      let unit := 10 ^ (n - k) in
      let lo := (x / unit) * unit in
      let hi := lo + unit in
      let ok v := number_eq (round_ratio false v 1) (round_ratio false x 1) in
      match ok lo, ok hi with
      | true, true => if (x - lo <? hi - x)%Z then lo
                      else if (hi - x <? x - lo)%Z then hi
                      else if Z.even (x / unit) then lo else hi
      | true, false => lo
      | false, true => hi
      | false, false => shortest_from fuel' (k + 1) x n
      end
  end.

Definition toString_large (m : positive) (e : Z) : string :=
  let x := Zpos m * 2 ^ e in
  let n := Z.of_nat (String.length (of_N (Z.to_N x))) in
  exponent_notation (shortest_from 17 1 x n).

(** [x.toFixed(1)]: the text of a number that is not finite; otherwise the
    sign, then the digits to one decimal place, or the exponent notation from
    [10^21] on.  The sign of a zero is not shown. *)
Definition toFixed1 (x : number) : string :=
  match x with
  | S754_nan => "NaN"
  | S754_infinity false => "Infinity"
  | S754_infinity true => "-Infinity"
  | S754_zero _ => "0.0"
  | S754_finite s m e =>
      (if s then "-" else EmptyString) ++
      (if at_least_1e21 m e then toString_large m e
       else fixed1_digits (tenths m e))
  end.

(** *** parseFloat *)

(** The white space of the ASCII range. *)
Definition is_space (c : ascii) : bool :=
  let n := nat_of_ascii c in
  ((9 <=? n) && (n <=? 13))%nat || (n =? 32)%nat.

Definition is_digit (c : ascii) : bool :=
  let n := nat_of_ascii c in ((48 <=? n) && (n <=? 57))%nat.

Fixpoint skip_spaces (s : string) : string :=
  match s with
  | String c s' => if is_space c then skip_spaces s' else s
  | EmptyString => s
  end.

(** The longest run of digits at the front of [s], read in base ten after
    the digits already in [acc]: the value, the number of digits read and
    the rest of the string. *)
Fixpoint read_digits (s : string) (acc : Z) (count : Z) : Z * Z * string :=
  match s with
  | String c s' =>
      if is_digit c
      then read_digits s' (10 * acc + (Z.of_nat (nat_of_ascii c) - 48)) (count + 1)
      else (acc, count, s)
  | EmptyString => (acc, count, s)
  end.

Definition read_sign (s : string) : bool * string :=
  match s with
  | String "-" s' => (true, s')
  | String "+" s' => (false, s')
  | _ => (false, s)
  end.

(** The exponent part [e], [e+] or [e-] followed by digits; zero when the
    text does not continue with a complete exponent part. *)
Definition read_exponent (s : string) : Z :=
  match s with
  | String c s' =>
      if Ascii.eqb c "e" || Ascii.eqb c "E" then
        let '(neg, s'') := read_sign s' in
        let '(v, count, _) := read_digits s'' 0 0 in
        if (count =? 0)%Z then 0 else if neg then - v else v
      else 0
  | EmptyString => 0
  end.

(** The number with decimal digits [m] scaled by [10^scale]. *)
Definition of_decimal (neg : bool) (m scale : Z) : number :=
  if (0 <=? scale)%Z then round_ratio neg (m * 10 ^ scale) 1
  else round_ratio neg m (10 ^ (- scale)).

Definition parseFloat (s : string) : number :=
  let '(neg, s) := read_sign (skip_spaces s) in
  if String.prefix "Infinity" s then S754_infinity neg
  else
    let '(ip, ni, s) := read_digits s 0 0 in
    let '(m, nf, s) :=
      match s with
      | String "." s' => read_digits s' ip 0
      | _ => (ip, 0, s)
      end in
    if (ni + nf =? 0)%Z then S754_nan
    else of_decimal neg m (read_exponent s - nf).

End JsNumber.

(** ** The device snapshot

    The JSON documents of the backend, as the scripts read them. *)

Module Data.

Import JsNumber.

(** [storage: {used, total}], both in KB. *)
Record Storage := { used : number; total : number }.

(** One slot of a category of the slot-based device. *)
Record Slot := {
  path : option string;
  filename : option string;
  filesize : option number
}.

(** The answer of [/read-samples]. *)
Record OpzData := {
  categories : list string;
  sampleData : list (list Slot);
  opz_storage : option Storage;
  opz_validation_error : option string
}.

(** One file of a subdirectory of the folder-based device. *)
Record File := {
  name : string;
  file_path : string;
  size : number;
  category : string
}.

Record Counts := { drum_samples : Z; synth_samples : Z; patches : Z }.

(** A JavaScript object used as a map from folder names to their files: the
    entries, in the order [Object.keys] lists them. *)
Definition Subdirectories : Type := list (string * list File).

(** The answer of [/read-op1-samples]. *)
Record Op1Data := {
  drum : Subdirectories;
  synth : Subdirectories;
  op1_storage : option Storage;
  counts : option Counts;
  op1_validation_error : option string
}.

(** Bodies with an optional [error] message, the report of a folder upload,
    and the answer of [/get-config-setting]. *)
Record ErrorJson := { error : option string }.
Record UploadJson := { upload_error : option string; errors : option (list string) }.
Record ConfigJson := { config_value : option string }.

(** A configuration document of [/get-config/general] or [/get-config/midi]:
    booleans, numbers, and arrays of booleans, numbers or arrays of
    numbers, under string keys; and the text of [/get-config/dmx]. *)
Inductive configItem :=
| ItemArray (vals : list number)
| ItemBool (b : bool)
| ItemNumber (x : number).

Inductive configValue :=
| ValueBool (b : bool)
| ValueNumber (x : number)
| ValueArray (items : list configItem)
| ValueOther.

Definition Config : Type := list (string * configValue).

Record DmxJson := { content : option string }.

End Data.

(** ** The page *)

Module Dom.

Local Open Scope string_scope.

(** A slot element built by [fetchOpzSamples]: its data attributes, the path
    its listeners captured, its label and its classes. *)
Record slotDiv := {
  slot_category : string;
  slot_index : nat;
  slot_path : option string;
  slot_text : string;
  slot_classes : list string
}.

(** A subdirectory element built by [renderOp1Section]: the markup assigned
    to its header and the markup of each entry of its content. *)
Record subdirDiv := {
  subdir_path : string;
  subdir_classes : list string;
  header_html : string;
  content_classes : list string;
  content_html : list string
}.

(** The inputs [createNumberInput] and [createCheckboxInput] build, and the
    item [buildConfigForm] appends for one key. *)
Inductive input :=
| NumberInput (name : string) (value : JsNumber.number) (index subindex : option nat)
| CheckboxInput (name : string) (checked : bool) (index : option nat).

Inductive widget :=
| Single (i : input)
| Rows (rows : list (list input))
| LabelOnly.

Inductive child :=
| Heading (text : string)
| SlotChild (d : slotDiv)
| SubdirChild (d : subdirDiv)
| ConfigItem (label : string) (w : widget)
| Markup (html : string).

(** An element of the page, with the properties the scripts write:
    [textContent] (for a text area, its [value]), [classList],
    [style.width], [hidden] and the children; and [dropZones], the number of
    times [setupOp1SectionDropZone] has added its listeners to the element
    (listeners are never removed). *)
Record element := {
  textContent : string;
  classList : list string;
  width : string;
  hidden : bool;
  children : list child;
  dropZones : nat
}.

Definition set_textContent (s : string) (e : element) : element :=
  {| textContent := s; classList := classList e; width := width e;
     hidden := hidden e; children := children e;
     dropZones := dropZones e |}.
Definition set_classList (c : list string) (e : element) : element :=
  {| textContent := textContent e; classList := c; width := width e;
     hidden := hidden e; children := children e;
     dropZones := dropZones e |}.
Definition set_width (w : string) (e : element) : element :=
  {| textContent := textContent e; classList := classList e; width := w;
     hidden := hidden e; children := children e;
     dropZones := dropZones e |}.
Definition set_hidden (h : bool) (e : element) : element :=
  {| textContent := textContent e; classList := classList e; width := width e;
     hidden := h; children := children e;
     dropZones := dropZones e |}.
Definition set_children (c : list child) (e : element) : element :=
  {| textContent := textContent e; classList := classList e; width := width e;
     hidden := hidden e; children := c;
     dropZones := dropZones e |}.

(** [element.addEventListener(...)] as [setupOp1SectionDropZone] calls it:
    one more set of listeners on the element. *)
Definition add_dropZone (e : element) : element :=
  {| textContent := textContent e; classList := classList e; width := width e;
     hidden := hidden e; children := children e;
     dropZones := Datatypes.S (dropZones e) |}.

(** [classList.remove(...)] and [classList.add(c)] on a token list. *)
Definition class_remove (tokens : list string) (l : list string) : list string :=
  List.filter (fun c => negb (List.existsb (String.eqb c) tokens)) l.
Definition class_add (c : string) (l : list string) : list string :=
  if List.existsb (String.eqb c) l then l else l ++ [c].

(** [container.querySelector("h3")]: the heading among the children. *)
Definition heading_of (l : list child) : option child :=
  List.find (fun c => match c with Heading _ => true | _ => false end) l.

End Dom.

(** ** Asynchronous functions

    An [async] function is a computation over the module's state, the record
    of what it asked of its surroundings, and an environment answering each
    request and each dialog from what happened before.  It returns or
    throws. *)

Module Async.

Import Data.

Inductive outcome (A : Type) :=
| Returned (a : A)
| Thrown (message : string).
Arguments Returned {A} a.
Arguments Thrown {A} message.

(** A file handed over by a drop. *)
Record file := { file_name : string }.

Inductive value := Text (s : string) | Blob (f : file).

(** [fetch(url, {method, body})]: the body as the fields of the form data or
    of the JSON object sent. *)
Record request := {
  url : string;
  method : string;
  fields : list (string * value)
}.

(** The shape a caller reads a response body as. *)
Inductive shape :=
| ShOpz | ShOp1 | ShError | ShUpload | ShConfig | ShForm | ShDmx | ShNone.

Definition body (sh : shape) : Type :=
  match sh with
  | ShOpz => OpzData
  | ShOp1 => Op1Data
  | ShError => ErrorJson
  | ShUpload => UploadJson
  | ShConfig => ConfigJson
  | ShForm => Config
  | ShDmx => DmxJson
  | ShNone => unit
  end.

(** A response: [response.json()] rejects when the body is not JSON. *)
Record response (sh : shape) := {
  ok : bool;
  statusText : string;
  json : outcome (body sh)
}.
Arguments ok {sh} r.
Arguments statusText {sh} r.
Arguments json {sh} r.

Inductive event :=
| Fetched (r : request)
| Confirmed (message : string) (answer : bool)
| Alerted (message : string)
| ConsoleError (label detail : string)
| ConsoleWarn (message : string)
| Waited (ms : Z).

(** The surroundings: the backend, whose [fetch] promise rejects on a
    transport failure; the user in front of a [confirm] dialog; and the
    order in which promises settle: [race h n] says which of [n] promises
    that reject, counted in the order of the array given to [Promise.all],
    rejects first in time. *)
Record environment := {
  network : list event -> forall sh, request -> outcome (response sh);
  dialog : list event -> string -> bool;
  race : list event -> nat -> nat
}.

Definition M (S A : Type) : Type :=
  environment -> S -> list event -> S * list event * outcome A.

Section Monad.
Context {S : Type}.

Definition ret {A} (a : A) : M S A := fun _ s h => (s, h, Returned a).

Definition throw {A} (message : string) : M S A :=
  fun _ s h => (s, h, Thrown message).

Definition bind {A B} (m : M S A) (k : A -> M S B) : M S B :=
  fun env s h =>
    match m env s h with
    | (s', h', Returned a) => k a env s' h'
    | (s', h', Thrown e) => (s', h', Thrown e)
    end.

(** [try { body } catch (err) { handler }] *)
Definition try_catch {A} (body : M S A) (handler : string -> M S A) : M S A :=
  fun env s h =>
    match body env s h with
    | (s', h', Thrown e) => handler e env s' h'
    | r => r
    end.

Definition get : M S S := fun _ s h => (s, h, Returned s).
Definition put (s : S) : M S unit := fun _ _ h => (s, h, Returned tt).
Definition modify (f : S -> S) : M S unit := fun _ s h => (f s, h, Returned tt).

(** Awaiting a value that may have been thrown. *)
Definition lift {A} (o : outcome A) : M S A := fun _ s h => (s, h, o).

Definition emit (e : event) : M S unit := fun _ s h => (s, h ++ [e], Returned tt).

Definition fetch (sh : shape) (r : request) : M S (response sh) :=
  fun env s h => (s, h ++ [Fetched r], network env h sh r).

Definition confirm (message : string) : M S bool :=
  fun env s h =>
    let answer := dialog env h message in
    (s, h ++ [Confirmed message answer], Returned answer).

Definition alert (message : string) : M S unit := emit (Alerted message).
Definition console_error (label detail : string) : M S unit :=
  emit (ConsoleError label detail).
Definition console_warn (message : string) : M S unit :=
  emit (ConsoleWarn message).

(** [await new Promise(r => setTimeout(r, delay))] *)
Definition sleep (ms : Z) : M S unit := emit (Waited ms).

(** The promises of [Promise.all([a(), b(), ...])], each run to the point
    where it settles: what they did to the page, what they left in the
    record, and the rejections among them in the order of the array. *)
Fixpoint settle (ms : list (M S unit)) : environment -> S -> list event
    -> S * list event * list string :=
  match ms with
  | [] => fun _ s h => (s, h, [])
  | m :: ms' =>
      fun env s h =>
        match m env s h with
        | (s', h', o) =>
            match settle ms' env s' h' with
            | (s'', h'', rejections) =>
                (s'', h'',
                 match o with
                 | Returned _ => rejections
                 | Thrown e => e :: rejections
                 end)
            end
        end
  end.

(** [await Promise.all([a(), b(), ...])] is fulfilled when every promise
    is, and rejected with the rejection that comes first in time, which the
    environment decides.  The calls are made in the order of the array; the
    promises that fulfil, or that handle their own failure, are taken to
    have done so by the time the first rejection arrives. *)
Definition all (ms : list (M S unit)) : M S unit :=
  fun env s h =>
    match settle ms env s h with
    | (s', h', []) => (s', h', Returned tt)
    | (s', h', e :: es) =>
        (s', h', Thrown (nth (race env h' (length (e :: es))) (e :: es) e))
    end.

(** [l.forEach(f)] and [for (const x of l)], with the index. *)
Fixpoint forEach_from {A} (i : nat) (l : list A) (f : A -> nat -> M S unit) : M S unit :=
  match l with
  | [] => ret tt
  | x :: l' => bind (f x i) (fun _ => forEach_from (Datatypes.S i) l' f)
  end.
Definition forEach {A} (l : list A) (f : A -> nat -> M S unit) : M S unit :=
  forEach_from 0 l f.

End Monad.

Module Notations.
Notation "'let*' x := m 'in' k" := (bind m (fun x => k))
  (at level 10, x name, m at level 100, k at level 200).
Notation "m ;; k" := (bind m (fun _ => k))
  (at level 100, k at level 200, right associativity).
End Notations.

(** Running a handler from an empty record. *)
Definition run {S A} (m : M S A) (env : environment) (s : S) : S * list event * outcome A :=
  m env s [].

Definition trace {S A} (r : S * list event * outcome A) : list event := snd (fst r).
Definition final {S A} (r : S * list event * outcome A) : S := fst (fst r).
Definition result {S A} (r : S * list event * outcome A) : outcome A := snd r.

Definition is_fetch (e : event) : bool :=
  match e with Fetched _ => true | _ => false end.

(** The requests sent to a given address, in order. *)
Definition requests_to (u : string) (h : list event) : list request :=
  List.flat_map (fun e => match e with
                          | Fetched r => if String.eqb (url r) u then [r] else []
                          | _ => []
                          end) h.

End Async.

(** ** What one slot shows

    The expressions both versions of [fetchOpzSamples] evaluate for a slot. *)

Module SlotView.

Import JsString JsNumber Data Dom Async.
Local Open Scope string_scope.

(** [slot.filename || "(empty)"] *)
Definition shown_filename (slot : Slot) : string :=
  or_else (filename slot) "(empty)".

(** [slot.filesize ? ` (${(slot.filesize / 1024).toFixed(1)} KB)` : ""] *)
Definition shown_filesize (slot : Slot) : string :=
  match filesize slot with
  | Some b => if JsNumber.truthy b
              then " (" ++ toFixed1 (div b (JsNumber.of_Z 1024)) ++ " KB)"
              else EmptyString
  | None => EmptyString
  end.

(** [typeof slot.filename === "string" && slot.filename !== "(empty)" &&
    !slot.filename.startsWith("~")] *)
Definition counted (slot : Slot) : bool :=
  match filename slot with
  | Some f => negb (String.eqb f "(empty)") && negb (startsWith f "~")
  | None => false
  end.

(** [`Slot ${slotIndex + 1}: ${filename}${filesize}`] *)
Definition label (slotIndex : nat) (slot : Slot) : string :=
  "Slot " ++ of_nat (slotIndex + 1) ++ ": " ++ shown_filename slot ++ shown_filesize slot.

Definition new_slotDiv (category : string) (slotIndex : nat) (slot : Slot) : slotDiv :=
  {| slot_category := category; slot_index := slotIndex;
     slot_path := path slot; slot_text := label slotIndex slot;
     slot_classes := ["sampleslot"] |}.

(** What a drop carries: the files dragged in from outside, and the
    [text/plain] item, which a [dragstart] listener of this page fills with
    the JSON text of [{category, slot, path}]. *)
Record droppedData := {
  from_category : string;
  from_slot : nat;
  from_path : option string
}.

Inductive textData :=
| NoText
| Json (d : droppedData)
| Malformed.

Record dataTransfer := {
  files : list file;
  text_plain : textData
}.

(** [slotDiv.classList.remove("drag-hover")] on the slot at a position of a
    container's children. *)
Definition unhover (category : string) (slotIndex : nat) (e : element) : element :=
  set_children
    (List.map (fun c =>
       match c with
       | SlotChild d =>
           if String.eqb (slot_category d) category && Nat.eqb (slot_index d) slotIndex
           then SlotChild {| slot_category := slot_category d;
                             slot_index := slot_index d;
                             slot_path := slot_path d;
                             slot_text := slot_text d;
                             slot_classes := class_remove ["drag-hover"] (slot_classes d) |}
           else c
       | _ => c
       end) (children e)) e.

(** The message of a [TypeError] is the host's. *)
Definition type_error : string := "TypeError".
Definition syntax_error : string := "SyntaxError".

End SlotView.

(** ** samplemanager.js *)

Module Legacy.

Import JsString JsNumber Data Dom Async Async.Notations SlotView.
Local Open Scope string_scope.

(** The variables of the script and the page it runs in.  [TOTAL_STORAGE]
    and [MAX_SAMPLES] are never assigned. *)
Record state := {
  elements : gmap string element;
  storageUsed : number;
  numSamples : Z
}.

Definition TOTAL_STORAGE : number := JsNumber.of_Z 32000.
Definition MAX_SAMPLES : Z := 40.

Definition with_elements (f : gmap string element -> gmap string element) (st : state) : state :=
  {| elements := f (elements st); storageUsed := storageUsed st; numSamples := numSamples st |}.

(** [document.getElementById(id).textContent = s], which throws when there
    is no such element. *)
Definition write_text (id s : string) : M state unit :=
  let* st := get in
  match elements st !! id with
  | Some _ => modify (with_elements (alter (set_textContent s) id))
  | None => throw type_error
  end.

Definition updateStorageDisplay : M state unit :=
  let* st := get in
  let percent := toFixed1 (mul (div (storageUsed st) TOTAL_STORAGE) (JsNumber.of_Z 100)) in
  write_text "storage-percent" (percent ++ "%") ;;
  write_text "storage-used"
    (toFixed1 (div (storageUsed st) (JsNumber.of_Z 1024)) ++ " KB") ;;
  let freeSpace := sub TOTAL_STORAGE (storageUsed st) in
  write_text "storage-free" (toFixed1 (div freeSpace (JsNumber.of_Z 1024)) ++ " KB") ;;
  let samplesPercent :=
    toFixed1 (mul (div (JsNumber.of_Z (numSamples st)) (JsNumber.of_Z MAX_SAMPLES))
                  (JsNumber.of_Z 100)) in
  write_text "samples-percent" (samplesPercent ++ "%") ;;
  write_text "samples-used" (JsString.of_Z (numSamples st)) ;;
  let freeSamples := MAX_SAMPLES - numSamples st in
  write_text "samples-free" (JsString.of_Z freeSamples).

(** The body of [data.sampleData[catIndex].forEach((slot, slotIndex) => ...)]. *)
Definition render_slot (category : string) (slot : Slot) (slotIndex : nat) : M state unit :=
  (if counted slot
   then modify (fun st => {| elements := elements st; storageUsed := storageUsed st;
                             numSamples := numSamples st + 1 |})
   else ret tt) ;;
  (match filesize slot with
   | Some b =>
       if JsNumber.truthy b
       then modify (fun st => {| elements := elements st;
                                 storageUsed := add (storageUsed st) (div b (JsNumber.of_Z 1024));
                                 numSamples := numSamples st |})
       else ret tt
   | None => ret tt
   end) ;;
  updateStorageDisplay ;;
  modify (with_elements
    (alter (fun e => set_children (children e ++ [SlotChild (new_slotDiv category slotIndex slot)]) e)
           category)).

(** The body of [data.categories.forEach((category, catIndex) => ...)]. *)
Definition render_category (data : OpzData) (category : string) (catIndex : nat) : M state unit :=
  let* st := get in
  match elements st !! category with
  | None => throw type_error
  | Some container =>
      let kept := match heading_of (children container) with
                  | Some h => [h]
                  | None => []
                  end in
      modify (with_elements (alter (set_children kept) category)) ;;
      match nth_error (sampleData data) catIndex with
      | None => throw type_error
      | Some slots => forEach slots (render_slot category)
      end
  end.

Definition fetchOpzSamples : M state unit :=
  try_catch
    (let* response := fetch ShOpz {| url := "http://localhost:5000/read-samples";
                                     method := "GET"; fields := [] |} in
     if negb (ok response)
     then throw ("Network response was not ok: " ++ statusText response)
     else
       let* data := lift (json response) in
       modify (fun st => {| elements := elements st; storageUsed := JsNumber.of_Z 0;
                            numSamples := 0 |}) ;;
       forEach (categories data) (render_category data))
    (fun error => console_error "Failed to fetch OP-Z samples:" error).

(** The [drop] listener of the slot at [slotIndex] of [category];
    [e.preventDefault()] only tells the browser not to open the dropped
    data and leaves no mark here. *)
Definition slot_drop (category : string) (slotIndex : nat) (e : dataTransfer) : M state unit :=
  modify (with_elements (alter (unhover category slotIndex) category)) ;;
  if (0 <? length (files e))%nat then ret tt
  else
    match text_plain e with
    | NoText => ret tt
    | Malformed => throw syntax_error
    | Json droppedData =>
        let fromPath := or_else (from_path droppedData) EmptyString in
        if negb (JsString.truthy fromPath)
           || (String.eqb (from_category droppedData) category
               && Nat.eqb (from_slot droppedData) slotIndex)
        then ret tt
        else
          try_catch
            (let* response :=
               fetch ShNone {| url := "http://localhost:5000/move-sample";
                               method := "POST";
                               fields := [("source_path", Text fromPath);
                                          ("target_category", Text category);
                                          ("target_slot", Text (of_nat slotIndex))] |} in
             if negb (ok response) then throw "Move failed"
             else fetchOpzSamples)
            (fun err =>
               console_error "Failed to move sample:" err ;;
               alert "Could not move sample.")
    end.

(** [for (let i = 0; i < retries; i++) { ... }] with [retries - i]
    iterations left, then the warning. *)
Fixpoint poll (left : nat) (delay : Z) : M state unit :=
  match left with
  | O => console_warn "Mount path not found after polling."
  | Datatypes.S left' =>
      let* mounted :=
        try_catch
          (let* res := fetch ShConfig
                         {| url := "/get-config-setting?config_option=OPZ_MOUNT_PATH";
                            method := "GET"; fields := [] |} in
           let* data := lift (json res) in
           if JsString.truthy (or_else (config_value data) EmptyString)
           then fetchOpzSamples ;; ret true
           else ret false)
          (fun err => console_error "Failed to check mount path:" err ;; ret false) in
      if (mounted : bool) then ret tt
      else sleep delay ;; poll left' delay
  end.

Definition pollForMount (retries : nat) (delay : Z) : M state unit := poll retries delay.

End Legacy.

(** ** configeditor.js: the configuration editor *)

Module ConfigEditor.

Import JsString JsNumber Data Dom Async Async.Notations SlotView.
Local Open Scope string_scope.

Record state := { elements : gmap string element }.

Definition createNumberInput (name : string) (value : number)
    (idx subIdx : option nat) : input :=
  NumberInput name value idx subIdx.

Definition createCheckboxInput (name : string) (checked : bool) (idx : option nat) : input :=
  CheckboxInput name checked idx.

(** The item [buildConfigForm] appends for one entry of the configuration. *)
Definition config_item (key : string) (value : configValue) : child :=
  ConfigItem key
    match value with
    | ValueBool b => Single (createCheckboxInput key b None)
    | ValueNumber x => Single (createNumberInput key x None None)
    | ValueArray items =>
        Rows (imap (fun idx item =>
                match item with
                | ItemArray vals =>
                    imap (fun subIdx val =>
                      createNumberInput key val (Some idx) (Some subIdx)) vals
                | ItemBool b => [createCheckboxInput key b (Some idx)]
                | ItemNumber x => [createNumberInput key x (Some idx) None]
                end) items)
    | ValueOther => LabelOnly
    end.

(** [buildConfigForm(config, document.getElementById(form))] *)
Definition buildConfigForm (config : Config) (form : string) : M state unit :=
  let* st := get in
  match elements st !! form with
  | None => throw type_error
  | Some _ =>
      put {| elements :=
               alter (set_children (List.map (fun kv => config_item (fst kv) (snd kv)) config))
                     form (elements st) |}
  end.

Definition loadGeneralConfig : M state unit :=
  let* res := fetch ShForm {| url := "/get-config/general"; method := "GET"; fields := [] |} in
  let* config := lift (json res) in
  buildConfigForm config "general-form".

Definition loadMidiConfig : M state unit :=
  let* res := fetch ShForm {| url := "/get-config/midi"; method := "GET"; fields := [] |} in
  let* config := lift (json res) in
  buildConfigForm config "midi-form".

(** [document.getElementById('dmx-textarea').value = s] *)
Definition write_textarea (s : string) : M state unit :=
  let* st := get in
  match elements st !! "dmx-textarea" with
  | None => throw type_error
  | Some _ => put {| elements := alter (set_textContent s) "dmx-textarea" (elements st) |}
  end.

Definition loadDmxConfig : M state unit :=
  try_catch
    (let* res := fetch ShDmx {| url := "/get-config/dmx"; method := "GET"; fields := [] |} in
     let* data := lift (json res) in
     write_textarea (or_else (content data) EmptyString))
    (fun err =>
       console_error "Error loading DMX config:" err ;;
       write_textarea "// Error loading DMX config").

Definition loadAllConfigs : M state unit :=
  all [loadGeneralConfig; loadMidiConfig; loadDmxConfig].

Fixpoint poll (left : nat) (delay : Z) : M state unit :=
  match left with
  | O => console_warn "Mount path not found after polling."
  | Datatypes.S left' =>
      let* mounted :=
        try_catch
          (let* res := fetch ShConfig
                         {| url := "/get-config-setting?config_option=OPZ_MOUNT_PATH";
                            method := "GET"; fields := [] |} in
           let* data := lift (json res) in
           if JsString.truthy (or_else (config_value data) EmptyString)
           then loadAllConfigs ;; ret true
           else ret false)
          (fun err => console_error "Failed to check mount path:" err ;; ret false) in
      if (mounted : bool) then ret tt
      else sleep delay ;; poll left' delay
  end.

Definition pollForMount (retries : nat) (delay : Z) : M state unit := poll retries delay.

End ConfigEditor.

(** ** configeditor.js: the sample manager for both devices *)

Module Manager.

Import JsString JsNumber Data Dom Async Async.Notations SlotView.
Local Open Scope string_scope.

(** The variables of the script and the page it runs in. *)
Record state := {
  elements : gmap string element;
  currentDevice : string;
  opzStorageUsed : number;
  OPZ_TOTAL_STORAGE : number;
  opzNumSamples : Z;
  op1Data : option Op1Data
}.

Definition OP1_TOTAL_STORAGE : number := JsNumber.of_Z 512000.
Definition OP1_DRUM_LIMIT : Z := 42.
Definition OP1_SYNTH_LIMIT : Z := 42.
Definition OP1_PATCH_LIMIT : Z := 100.

Definition with_elements (f : gmap string element -> gmap string element) (st : state) : state :=
  {| elements := f (elements st); currentDevice := currentDevice st;
     opzStorageUsed := opzStorageUsed st; OPZ_TOTAL_STORAGE := OPZ_TOTAL_STORAGE st;
     opzNumSamples := opzNumSamples st; op1Data := op1Data st |}.

Definition with_opzNumSamples (n : Z) (st : state) : state :=
  {| elements := elements st; currentDevice := currentDevice st;
     opzStorageUsed := opzStorageUsed st; OPZ_TOTAL_STORAGE := OPZ_TOTAL_STORAGE st;
     opzNumSamples := n; op1Data := op1Data st |}.

Definition with_opz_storage (u t : number) (st : state) : state :=
  {| elements := elements st; currentDevice := currentDevice st;
     opzStorageUsed := u; OPZ_TOTAL_STORAGE := t;
     opzNumSamples := opzNumSamples st; op1Data := op1Data st |}.

Definition with_op1Data (d : Op1Data) (st : state) : state :=
  {| elements := elements st; currentDevice := currentDevice st;
     opzStorageUsed := opzStorageUsed st; OPZ_TOTAL_STORAGE := OPZ_TOTAL_STORAGE st;
     opzNumSamples := opzNumSamples st; op1Data := Some d |}.

(** *** Shared functions *)

(** The optional third argument of [updateStorageDisplay]. *)
Record ExtraData := { extra_counts : option Counts; extra_numSamples : option Z }.

(** [((used / total) * 100).toFixed(1)] and [parseFloat(percent)] *)
Definition percent (storage : Storage) : string :=
  toFixed1 (mul (div (used storage) (total storage)) (JsNumber.of_Z 100)).

Definition percentNum (storage : Storage) : number := parseFloat (percent storage).

Definition colorClass (storage : Storage) : string :=
  if geb (percentNum storage) (JsNumber.of_Z 85) then "storage-high"
  else if geb (percentNum storage) (JsNumber.of_Z 60) then "storage-medium"
  else "storage-low".

Definition storage_classes : list string :=
  ["storage-low"; "storage-medium"; "storage-high"].

(** Every write is guarded by [if (elem)]: it happens when the element is on
    the page. *)
Definition updateStorageDisplay (device : string) (storage : Storage)
    (extraData : ExtraData) (doc : gmap string element) : gmap string element :=
  let prefix := if String.eqb device "op1" then "op1" else "opz" in
  let used := used storage in
  let total := total storage in
  let doc := alter (set_textContent (toFixed1 (div used (JsNumber.of_Z 1024)) ++ " MB"))
                   (prefix ++ "-storage-used") doc in
  let freeSpace := sub total used in
  let doc := alter (set_textContent (toFixed1 (div freeSpace (JsNumber.of_Z 1024)) ++ " MB"))
                   (prefix ++ "-storage-free") doc in
  let doc :=
    match String.eqb device "op1", extra_counts extraData with
    | true, Some counts =>
        let doc := alter (set_textContent
                            (JsString.of_Z (drum_samples counts) ++ " / " ++
                             JsString.of_Z OP1_DRUM_LIMIT)) "op1-drum-samples" doc in
        let doc := alter (set_textContent
                            (JsString.of_Z (synth_samples counts) ++ " / " ++
                             JsString.of_Z OP1_SYNTH_LIMIT)) "op1-synth-samples" doc in
        alter (set_textContent
                 (JsString.of_Z (patches counts) ++ " / " ++
                  JsString.of_Z OP1_PATCH_LIMIT)) "op1-patches" doc
    | _, _ =>
        match String.eqb device "opz", extra_numSamples extraData with
        | true, Some n => alter (set_textContent (JsString.of_Z n)) "opz-samples-used" doc
        | _, _ => doc
        end
    end in
  let doc := alter (fun e =>
                      set_classList
                        (class_add (colorClass storage)
                           (class_remove storage_classes (classList e)))
                        (set_width (percent storage ++ "%") e))
                   (prefix ++ "-storage-bar-fill") doc in
  let doc := alter (set_textContent ("Storage: " ++ percent storage ++ "%"))
                   (prefix ++ "-storage-bar-label") doc in
  alter (fun e =>
           set_classList
             (class_add (colorClass storage) (class_remove storage_classes (classList e))) e)
        (prefix ++ "-storage-free") doc.

(** [updateStorageDisplay(device, storage, extraData)] where [storage] may
    be [undefined]: reading [storage.used] then throws. *)
Definition call_updateStorageDisplay (device : string) (storage : option Storage)
    (extraData : ExtraData) : M state unit :=
  match storage with
  | Some s => modify (with_elements (updateStorageDisplay device s extraData))
  | None => throw type_error
  end.

Definition deleteSample (device path : string) (refreshCallback : option (M state unit))
    : M state unit :=
  let filename := pop (split "/" path) in
  let* confirmed := confirm ("Delete " ++ dq ++ filename ++ dq ++ "?") in
  if negb confirmed then ret tt
  else
    try_catch
      (let* response := fetch ShError {| url := "/delete-sample"; method := "DELETE";
                                         fields := [("path", Text path);
                                                    ("device", Text device)] |} in
       (if negb (ok response)
        then let* data := lift (json response) in
             throw (or_else (error data) "Failed to delete file")
        else ret tt) ;;
       match refreshCallback with
       | Some callback => callback
       | None => ret tt
       end)
      (fun err =>
         console_error "Failed to delete sample:" err ;;
         alert ("Failed to delete file: " ++ err)).

(** *** The slot-based device *)

(** [el.hidden = b] on an element that must exist, and on one that may not. *)
Definition hide_required (id : string) (b : bool) : M state unit :=
  let* st := get in
  match elements st !! id with
  | Some _ => modify (with_elements (alter (set_hidden b) id))
  | None => throw type_error
  end.

Definition hide_if_present (id : string) (b : bool) : M state unit :=
  modify (with_elements (alter (set_hidden b) id)).

Definition settings_link : string :=
  " <a href=" ++ dq ++ "/utilitysettings" ++ dq ++ " class=" ++ dq ++ "btn btn-danger" ++ dq
  ++ ">Go to Utility Settings</a>".

(** The validation error panel, shared by both devices. *)
Definition show_validation_error (message storageInfo fileList : string) : M state unit :=
  let* st := get in
  match elements st !! "validation-error-message" with
  | None => throw type_error
  | Some _ =>
      modify (with_elements
                (alter (set_children [Markup (message ++ settings_link)])
                       "validation-error-message")) ;;
      hide_required "validation-error-container" false ;;
      hide_if_present storageInfo true ;;
      hide_if_present fileList true
  end.

Definition hide_validation_error (storageInfo fileList : string) : M state unit :=
  hide_required "validation-error-container" true ;;
  hide_if_present storageInfo false ;;
  hide_if_present fileList false.

(** The body of [data.sampleData[catIndex].forEach((slot, slotIndex) => ...)]. *)
Definition render_slot (data : OpzData) (category : string) (slot : Slot) (slotIndex : nat)
    : M state unit :=
  (if counted slot
   then modify (fun st => with_opzNumSamples (opzNumSamples st + 1) st)
   else ret tt) ;;
  let* st := get in
  call_updateStorageDisplay "opz" (opz_storage data)
    {| extra_counts := None; extra_numSamples := Some (opzNumSamples st) |} ;;
  modify (with_elements
    (alter (fun e => set_children (children e ++ [SlotChild (new_slotDiv category slotIndex slot)]) e)
           category)).

(** The body of [data.categories.forEach((category, catIndex) => ...)]. *)
Definition render_category (data : OpzData) (category : string) (catIndex : nat) : M state unit :=
  let* st := get in
  match elements st !! category with
  | None => ret tt
  | Some container =>
      let kept := match heading_of (children container) with
                  | Some h => [h]
                  | None => []
                  end in
      modify (with_elements (alter (set_children kept) category)) ;;
      match nth_error (sampleData data) catIndex with
      | None => throw type_error
      | Some slots => forEach slots (render_slot data category)
      end
  end.

Definition fetchOpzSamples : M state unit :=
  try_catch
    (let* response := fetch ShOpz {| url := "/read-samples"; method := "GET"; fields := [] |} in
     if negb (ok response)
     then throw ("Network response was not ok: " ++ statusText response)
     else
       let* data := lift (json response) in
       if JsString.truthy (or_else (opz_validation_error data) EmptyString)
       then show_validation_error (or_else (opz_validation_error data) EmptyString)
              "opz-storage-info" "opz-file-list"
       else
         hide_validation_error "opz-storage-info" "opz-file-list" ;;
         modify (fun st =>
                   match opz_storage data with
                   | Some s => with_opz_storage (used s) (total s) st
                   | None => with_opz_storage (JsNumber.of_Z 0) (OPZ_TOTAL_STORAGE st) st
                   end) ;;
         modify (with_opzNumSamples 0) ;;
         forEach (categories data) (render_category data))
    (fun error => console_error "Failed to fetch OP-Z samples:" error).

(** The [drop] listener of the slot at [slotIndex] of [category];
    [e.preventDefault()] only tells the browser not to open the dropped
    data and leaves no mark here. *)
Definition slot_drop (category : string) (slotIndex : nat) (e : dataTransfer) : M state unit :=
  modify (with_elements (alter (unhover category slotIndex) category)) ;;
  if (0 <? length (files e))%nat then ret tt
  else
    match text_plain e with
    | NoText => ret tt
    | Malformed => throw syntax_error
    | Json droppedData =>
        let fromPath := or_else (from_path droppedData) EmptyString in
        if negb (JsString.truthy fromPath)
           || (String.eqb (from_category droppedData) category
               && Nat.eqb (from_slot droppedData) slotIndex)
        then ret tt
        else
          try_catch
            (let* response :=
               fetch ShNone {| url := "/move-sample"; method := "POST";
                               fields := [("source_path", Text fromPath);
                                          ("target_category", Text category);
                                          ("target_slot", Text (of_nat slotIndex))] |} in
             if negb (ok response) then throw "Move failed"
             else fetchOpzSamples)
            (fun err =>
               console_error "Failed to move sample:" err ;;
               alert "Could not move sample.")
    end.

(** [deleteBtn.onclick] of a slot. *)
Definition delete_click (slot : Slot) : M state unit :=
  let samplePath := or_else (path slot) EmptyString in
  if negb (JsString.truthy samplePath) then ret tt
  else deleteSample "opz" samplePath (Some fetchOpzSamples).

(** *** Utility functions *)

(** [escapeHtml(text)] writes [text] as the text of a fresh element and
    reads the element's markup back: the serialization of a text node
    replaces the ampersand, the no-break space and the angle brackets. *)
Fixpoint escapeHtml (text : string) : string :=
  match text with
  | EmptyString => EmptyString
  | String c rest =>
      if Ascii.eqb c "&" then "&amp;" ++ escapeHtml rest
      else if Ascii.eqb c "<" then "&lt;" ++ escapeHtml rest
      else if Ascii.eqb c ">" then "&gt;" ++ escapeHtml rest
      else if Ascii.eqb c (ascii_of_nat 194) then
        match rest with
        | String d rest' =>
            if Ascii.eqb d (ascii_of_nat 160) then "&nbsp;" ++ escapeHtml rest'
            else String c (escapeHtml rest)
        | EmptyString => String c EmptyString
        end
      else String c (escapeHtml rest)
  end.

(** *** The folder-based device *)

(** [subdirectories[subdirName]] *)
Definition files_of (subdirectories : Subdirectories) (subdirName : string) : list File :=
  match List.find (fun kv => String.eqb (fst kv) subdirName) subdirectories with
  | Some kv => snd kv
  | None => []
  end.

Definition Object_keys (subdirectories : Subdirectories) : list string :=
  List.map fst subdirectories.

Definition spaces (n : nat) : string := String.concat EmptyString (List.repeat " " n).

(** A line of a template literal: the line feed, the indentation, the text. *)
Definition line (indent : nat) (text : string) : string := nl ++ spaces indent ++ text.

Definition q (s : string) : string := dq ++ s ++ dq.

(** The count shown next to a folder name. *)
Definition countText (parentFolder : string) (files : list File) : string :=
  let sampleCount := length (List.filter (fun f => negb (String.eqb (category f) "patch")) files) in
  let patchCount := length (List.filter (fun f => String.eqb (category f) "patch") files) in
  if String.eqb parentFolder "drum" then "(" ++ of_nat (length files) ++ " files)"
  else
    let parts :=
      List.app
        (if (0 <? sampleCount)%nat
         then [of_nat sampleCount ++ " sample" ++ (if Nat.eqb sampleCount 1 then EmptyString else "s")]
         else [])
        (if (0 <? patchCount)%nat
         then [of_nat patchCount ++ " patch" ++ (if Nat.eqb patchCount 1 then EmptyString else "es")]
         else []) in
    if (0 <? length parts)%nat then "(" ++ join ", " parts ++ ")" else "(empty)".

(** The template assigned to [header.innerHTML]. *)
Definition header_markup (parentFolder subdirName : string) (files : list File) : string :=
  let isReadOnly := String.eqb subdirName "user" in
  line 12 ("<span class=" ++ q "expand-icon" ++ ">▶</span>") ++
  line 12 ("<span class=" ++ q "subdirectory-name" ++ ">" ++ escapeHtml subdirName ++ "</span>") ++
  line 12 ("<span class=" ++ q "sample-count" ++ ">" ++ countText parentFolder files ++ "</span>") ++
  line 12 (if isReadOnly
           then "<span class=" ++ q "read-only-badge" ++ ">Read-only</span>"
           else
             line 16 ("<div class=" ++ q "subdirectory-actions" ++ ">") ++
             line 20 ("<button class=" ++ q "btn btn-small btn-secondary" ++ " onclick=" ++
                      q ("event.stopPropagation(); renameOp1Subdirectory('" ++
                         parentFolder ++ "/" ++ subdirName ++ "')") ++ ">Rename</button>") ++
             line 20 ("<button class=" ++ q "btn btn-small btn-danger" ++ " onclick=" ++
                      q ("event.stopPropagation(); deleteOp1Subdirectory('" ++
                         parentFolder ++ "/" ++ subdirName ++ "')") ++ ">Delete</button>") ++
             line 16 "</div>" ++
             line 12 EmptyString) ++
  line 8 EmptyString.

(** The template assigned to [fileDiv.innerHTML]. *)
Definition file_markup (isReadOnly : bool) (file : File) : string :=
  let sizeKB := toFixed1 (div (size file) (JsNumber.of_Z 1024)) in
  let isPatch := String.eqb (category file) "patch" in
  let badgeClass := if isPatch then "patch" else "sample" in
  let badgeText := if isPatch then "patch" else "sample" in
  line 20 ("<span class=" ++ q "sample-name" ++ ">" ++ escapeHtml (name file) ++ "</span>") ++
  line 20 ("<span class=" ++ q "sample-size" ++ ">" ++ sizeKB ++ " KB</span>") ++
  line 20 ("<span class=" ++ q ("sample-type-badge " ++ badgeClass) ++ ">" ++ badgeText ++ "</span>") ++
  line 20 (if negb isReadOnly
           then "<button class=" ++ q "delete-btn" ++ " onclick=" ++
                q ("deleteSample('op1', '" ++ escapeHtml (file_path file) ++ "', fetchOp1Samples)")
                ++ ">✕</button>"
           else EmptyString) ++
  line 16 EmptyString.

(** The element built for one folder. *)
Definition render_subdir (parentFolder : string) (subdirectories : Subdirectories)
    (subdirName : string) : subdirDiv :=
  let files := files_of subdirectories subdirName in
  let isReadOnly := String.eqb subdirName "user" in
  {| subdir_path := parentFolder ++ "/" ++ subdirName;
     subdir_classes := "op1-subdirectory" :: (if isReadOnly then ["read-only"] else []);
     header_html := header_markup parentFolder subdirName files;
     content_classes := ["subdirectory-content"; "collapsed"];
     content_html :=
       if Nat.eqb (length files) 0
       then ["<p class=" ++ q "empty-subdirectory" ++ ">No files in this folder</p>"]
       else List.map (file_markup isReadOnly) files |}.

#[local] Set Warnings "-register-all".

(** An entry of the file system handed over by a drop: a file, or a
    directory whose reader delivers its entries in batches, one batch per
    call of [readEntries]. *)
Inductive entry :=
| FileEntry (f : file)
| DirectoryEntry (entry_name : string) (batches : list (list entry)).

Definition isFile (e : entry) : bool :=
  match e with FileEntry _ => true | DirectoryEntry _ _ => false end.

Definition isDirectory (e : entry) : bool := negb (isFile e).



Section Collation.

(** [a.localeCompare(b)] is the host's collation of the two strings:
    negative, zero or positive. *)
Variable localeCompare : string -> string -> Z.

(** The comparison function given to [sort]. *)
Definition compareSubdirs (a b : string) : Z :=
  if String.eqb a "user" then 1
  else if String.eqb b "user" then -1
  else localeCompare a b.

(** [Array.prototype.sort(compare)]: a stable sort, here by insertion;
    whenever the comparison is consistent on the array, every conforming
    sort gives the same result. *)
Fixpoint insert (compare : string -> string -> Z) (x : string) (l : list string) : list string :=
  match l with
  | [] => [x]
  | y :: l' => if (0 <? compare x y)%Z then y :: insert compare x l' else x :: l
  end.

Definition sort (compare : string -> string -> Z) (l : list string) : list string :=
  List.fold_right (insert compare) [] l.

Definition sortedSubdirs (subdirectories : Subdirectories) : list string :=
  sort compareSubdirs (Object_keys subdirectories).

(** The children [renderOp1Section] gives the container. *)
Definition section_children (parentFolder : string) (subdirectories : Subdirectories)
    : list child :=
  match sortedSubdirs subdirectories with
  | [] => [Markup ("<p class=" ++ q "empty-subdirectory" ++ ">No folders yet. Click " ++
                   q "+ Add Folder" ++ " to create one.</p>")]
  | names => List.map (fun subdirName =>
                         SubdirChild (render_subdir parentFolder subdirectories subdirName))
                      names
  end.

(** [setupOp1SectionDropZone(parentFolder)]: when the page has the section,
    its three listeners are added to it, once more at every call. *)
Definition setupOp1SectionDropZone (parentFolder : string) (doc : gmap string element)
    : gmap string element :=
  alter add_dropZone ("op1-" ++ parentFolder ++ "-section") doc.

(** [renderOp1Section(parentFolder, subdirectories)]: nothing without the
    container; the message alone when there is no folder; otherwise the
    folders, and one more drop zone on the section. *)
Definition renderOp1Section (parentFolder : string) (subdirectories : Subdirectories)
    (doc : gmap string element) : gmap string element :=
  match doc !! ("op1-" ++ parentFolder ++ "-subdirectories") with
  | None => doc
  | Some _ =>
      let shown := alter (set_children (section_children parentFolder subdirectories))
                         ("op1-" ++ parentFolder ++ "-subdirectories") doc in
      match sortedSubdirs subdirectories with
      | [] => shown
      | _ => setupOp1SectionDropZone parentFolder shown
      end
  end.

Definition fetchOp1Samples : M state unit :=
  try_catch
    (let* response := fetch ShOp1 {| url := "/read-op1-samples"; method := "GET";
                                     fields := [] |} in
     if negb (ok response)
     then throw ("Network response was not ok: " ++ statusText response)
     else
       let* data := lift (json response) in
       modify (with_op1Data data) ;;
       if JsString.truthy (or_else (op1_validation_error data) EmptyString)
       then show_validation_error (or_else (op1_validation_error data) EmptyString)
              "op1-storage-info" "op1-file-list"
       else
         hide_validation_error "op1-storage-info" "op1-file-list" ;;
         modify (with_elements (renderOp1Section "drum" (drum data))) ;;
         modify (with_elements (renderOp1Section "synth" (synth data))) ;;
         call_updateStorageDisplay "op1" (op1_storage data)
           {| extra_counts := counts data; extra_numSamples := None |})
    (fun error => console_error "Failed to fetch OP-1 samples:" error).



End Collation.

End Manager.

(** ** samplemanager.js: the other listeners *)

Module LegacyListeners.

Import JsString JsNumber Data Dom Async Async.Notations SlotView Legacy.
Local Open Scope string_scope.

(** The slot elements a container shows, and the one of a position of a
    category. *)
Definition slots_of (e : element) : list slotDiv :=
  List.flat_map (fun c => match c with SlotChild d => [d] | _ => [] end) (children e).

Definition slot_at (category : string) (slotIndex : nat) (doc : gmap string element)
    : option slotDiv :=
  match doc !! category with
  | Some container =>
      List.find (fun d => String.eqb (slot_category d) category
                          && Nat.eqb (slot_index d) slotIndex) (slots_of container)
  | None => None
  end.

(** The [dragstart] listener of a slot fills the [text/plain] item with the
    JSON text of [{category, slot: slotIndex, path: slot.path}]; the drop
    reads that text back. *)
Definition dragstart (d : slotDiv) : dataTransfer :=
  {| files := [];
     text_plain := Json {| from_category := slot_category d;
                           from_slot := slot_index d;
                           from_path := slot_path d |} |}.

(** [slot.path = null; text.textContent = `Slot ${slotIndex + 1}: (empty)`]
    on the slot at a position of a container's children. *)
Definition clear_slot (category : string) (slotIndex : nat) (e : element) : element :=
  set_children
    (List.map (fun c =>
       match c with
       | SlotChild d =>
           if String.eqb (slot_category d) category && Nat.eqb (slot_index d) slotIndex
           then SlotChild {| slot_category := slot_category d;
                             slot_index := slot_index d;
                             slot_path := None;
                             slot_text := "Slot " ++ of_nat (slotIndex + 1) ++ ": (empty)";
                             slot_classes := slot_classes d |}
           else c
       | _ => c
       end) (children e)) e.

(** [deleteBtn.onclick] of the slot at [slotIndex] of [category]; the
    listener reads the path of the slot as it is when the button is
    pressed. *)
Definition delete_click (category : string) (slotIndex : nat) : M state unit :=
  let* st := get in
  match slot_at category slotIndex (elements st) with
  | None => ret tt
  | Some d =>
      let samplePath := or_else (slot_path d) EmptyString in
      if negb (JsString.truthy samplePath) then ret tt
      else
        let* confirmed := confirm ("Delete sample?" ++ nl ++ samplePath) in
        if negb confirmed then ret tt
        else
          try_catch
            (let* res := fetch ShNone {| url := "http://localhost:5000/delete-sample";
                                         method := "DELETE";
                                         fields := [("path", Text samplePath)] |} in
             if negb (ok res) then throw "Delete failed"
             else modify (with_elements (alter (clear_slot category slotIndex) category)))
            (fun err =>
               console_error "Failed to delete sample:" err ;;
               alert "Could not delete sample.")
  end.

(** The [drop] listener of the box of [category]; [slotElement] is the slot
    under the pointer, if there is one. *)
Definition box_drop (category : string) (e : dataTransfer) (slotElement : option slotDiv)
    : M state unit :=
  match files e with
  | [] => ret tt
  | file :: _ =>
      match slotElement with
      | None => ret tt
      | Some d =>
          let slot := of_nat (slot_index d) in
          try_catch
            (let* response :=
               fetch ShNone {| url := "http://localhost:5000/upload-sample";
                               method := "POST";
                               fields := [("file", Blob file);
                                          ("category", Text category);
                                          ("slot", Text slot)] |} in
             if negb (ok response) then throw "Upload failed"
             else
               lift (json response) ;;
               fetchOpzSamples)
            (fun err =>
               console_error "Failed to upload file:" err ;;
               alert "Upload failed.")
      end
  end.

End LegacyListeners.

(** ** configeditor.js: uploads, folders and device tabs *)

Module Uploads.

Import JsString JsNumber Data Dom Async Async.Notations SlotView Manager.
Local Open Scope string_scope.

(** The [dragstart] listener of a slot. *)
Definition dragstart (d : slotDiv) : dataTransfer :=
  {| files := [];
     text_plain := Json {| from_category := slot_category d;
                           from_slot := slot_index d;
                           from_path := slot_path d |} |}.

(** The [drop] listener of the box of [category]; [slotElement] is the slot
    under the pointer, if there is one. *)
Definition box_drop (category : string) (e : dataTransfer) (slotElement : option slotDiv)
    : M state unit :=
  match files e with
  | [] => ret tt
  | file :: _ =>
      match slotElement with
      | None => ret tt
      | Some d =>
          let slot := of_nat (slot_index d) in
          try_catch
            (let* response :=
               fetch ShNone {| url := "/upload-sample"; method := "POST";
                               fields := [("file", Blob file);
                                          ("category", Text category);
                                          ("slot", Text slot)] |} in
             if negb (ok response) then throw "Upload failed"
             else
               lift (json response) ;;
               fetchOpzSamples)
            (fun err =>
               console_error "Failed to upload file:" err ;;
               alert "Upload failed.")
      end
  end.

(** [subdirDiv.classList.remove('drag-hover')] on the folder of a path among
    a container's children. *)
Definition unhover_subdir (path : string) (e : element) : element :=
  set_children
    (List.map (fun c =>
       match c with
       | SubdirChild d =>
           if String.eqb (subdir_path d) path
           then SubdirChild {| subdir_path := subdir_path d;
                               subdir_classes := class_remove ["drag-hover"] (subdir_classes d);
                               header_html := header_html d;
                               content_classes := content_classes d;
                               content_html := content_html d |}
           else c
       | _ => c
       end) (children e)) e.

(** The body of [for (const file of files)] in the drop listener of a
    folder. *)
Definition upload_file (parentFolder subdirName : string) (file : file) : M state unit :=
  try_catch
    (let* response :=
       fetch ShError {| url := "/upload-sample"; method := "POST";
                        fields := [("file", Blob file);
                                   ("device", Text "op1");
                                   ("target_path", Text (parentFolder ++ "/" ++ subdirName))] |} in
     if negb (ok response)
     then let* data := lift (json response) in
          throw (or_else (error data) "Upload failed")
     else ret tt)
    (fun err =>
       console_error "Failed to upload file:" err ;;
       alert ("Failed to upload " ++ file_name file ++ ": " ++ err)).

Section Collation.

Variable localeCompare : string -> string -> Z.

(** The [drop] listener [setupOp1SubdirectoryDropZone] puts on a folder. *)
Definition subdir_drop (parentFolder subdirName : string) (e : dataTransfer) : M state unit :=
  modify (with_elements
            (alter (unhover_subdir (parentFolder ++ "/" ++ subdirName))
                   ("op1-" ++ parentFolder ++ "-subdirectories"))) ;;
  if Nat.eqb (length (files e)) 0 then ret tt
  else
    forEach (files e) (fun file _ => upload_file parentFolder subdirName file) ;;
    fetchOp1Samples localeCompare.

(** The user in front of a [prompt] dialog: the text entered, or nothing
    when the dialog is dismissed.  The answer may depend on what happened
    before, on the message and on the text offered. *)
Variable user : list event -> string -> option string -> option string.

Definition prompt (message : string) (offered : option string) : M state (option string) :=
  fun _ s h => (s, h, Returned (user h message offered)).

(** [`${name}`] for a value that may be [undefined]. *)
Definition shown (s : option string) : string :=
  match s with Some v => v | None => "undefined" end.

(** The request of the three folder operations: it throws the message of
    the backend when the status is an error, and refreshes otherwise. *)
Definition createOp1Subdirectory (parentFolder : string) : M state unit :=
  let* name := prompt ("Enter name for new " ++ parentFolder ++ " folder:") None in
  match name with
  | None => ret tt
  | Some name =>
      if negb (JsString.truthy name) then ret tt
      else
        try_catch
          (let* response :=
             fetch ShError {| url := "/create-op1-subdirectory"; method := "POST";
                              fields := [("parent", Text parentFolder);
                                         ("name", Text name)] |} in
           (if negb (ok response)
            then let* data := lift (json response) in
                 throw (or_else (error data) "Failed to create folder")
            else ret tt) ;;
           fetchOp1Samples localeCompare)
          (fun err =>
             console_error "Failed to create subdirectory:" err ;;
             alert ("Failed to create folder: " ++ err))
  end.

Definition renameOp1Subdirectory (path : string) : M state unit :=
  let parts := split "/" path in
  let currentName := nth_error parts 1 in
  let* newName := prompt ("Enter new name for " ++ dq ++ shown currentName ++ dq ++ ":")
                         currentName in
  match newName with
  | None => ret tt
  | Some newName =>
      if negb (JsString.truthy newName)
         || match currentName with
            | Some c => String.eqb newName c
            | None => false
            end
      then ret tt
      else
        try_catch
          (let* response :=
             fetch ShError {| url := "/rename-op1-subdirectory"; method := "POST";
                              fields := [("old_path", Text path);
                                         ("new_name", Text newName)] |} in
           (if negb (ok response)
            then let* data := lift (json response) in
                 throw (or_else (error data) "Failed to rename folder")
            else ret tt) ;;
           fetchOp1Samples localeCompare)
          (fun err =>
             console_error "Failed to rename subdirectory:" err ;;
             alert ("Failed to rename folder: " ++ err))
  end.

Definition deleteOp1Subdirectory (path : string) : M state unit :=
  let parts := split "/" path in
  let name := nth_error parts 1 in
  let* confirmed := confirm ("Delete folder " ++ dq ++ shown name ++ dq ++
                             " and all its contents?") in
  if negb confirmed then ret tt
  else
    try_catch
      (let* response :=
         fetch ShError {| url := "/delete-op1-subdirectory"; method := "DELETE";
                          fields := [("path", Text path)] |} in
       (if negb (ok response)
        then let* data := lift (json response) in
             throw (or_else (error data) "Failed to delete folder")
        else ret tt) ;;
       fetchOp1Samples localeCompare)
      (fun err =>
         console_error "Failed to delete subdirectory:" err ;;
         alert ("Failed to delete folder: " ++ err)).

End Collation.

End Uploads.

Module Tabs.

Import JsString JsNumber Data Dom Async Async.Notations SlotView Manager.
Local Open Scope string_scope.

(** An element of class [device-tab]: its [data-device] attribute and its
    classes. *)
Record tab := { tab_device : string; tab_classes : list string }.

(** The page with its device tabs. *)
Record state := { manager : Manager.state; tabs : list tab }.

(** A function of the sample manager, run on the page with tabs. *)
Definition on_manager {A} (m : M Manager.state A) : M state A :=
  fun env s h =>
    match m env (manager s) h with
    | (s', h', o) => ({| manager := s'; tabs := tabs s |}, h', o)
    end.

(** Calling an [async] function without awaiting it: what it does happens,
    and a rejection goes unhandled. *)
Definition unawaited {S A} (m : M S A) : M S unit :=
  fun env s h =>
    match m env s h with
    | (s', h', _) => (s', h', Returned tt)
    end.

(** [classList.toggle(token, force)] *)
Definition class_toggle (token : string) (force : bool) (l : list string) : list string :=
  if force then class_add token l else class_remove [token] l.

Definition with_currentDevice (device : string) (st : Manager.state) : Manager.state :=
  {| elements := elements st; currentDevice := device;
     opzStorageUsed := opzStorageUsed st; OPZ_TOTAL_STORAGE := OPZ_TOTAL_STORAGE st;
     opzNumSamples := opzNumSamples st; op1Data := op1Data st |}.

Section Collation.

Variable localeCompare : string -> string -> Z.

Definition switchDevice (device : string) : M state unit :=
  modify (fun s => {| manager := with_currentDevice device (manager s);
                      tabs := List.map (fun t =>
                                {| tab_device := tab_device t;
                                   tab_classes :=
                                     class_toggle "active" (String.eqb (tab_device t) device)
                                                  (tab_classes t) |}) (tabs s) |}) ;;
  (if String.eqb device "opz"
   then on_manager (hide_required "opz-container" false ;;
                    hide_required "op1-container" true ;;
                    fetchOpzSamples)
   else on_manager (hide_required "opz-container" true ;;
                    hide_required "op1-container" false ;;
                    fetchOp1Samples localeCompare)) ;;
  try_catch
    (fetch ShNone {| url := "/set-config-setting"; method := "POST";
                     fields := [("config_option", Text "SELECTED_DEVICE");
                                ("config_value", Text device)] |} ;;
     ret tt)
    (fun err => console_error "Failed to save device setting:" err).

Definition initDeviceTabs : M state unit :=
  try_catch
    (let* res := fetch ShConfig {| url := "/get-config-setting?config_option=SELECTED_DEVICE";
                                   method := "GET"; fields := [] |} in
     let* data := lift (json res) in
     let value := or_else (config_value data) EmptyString in
     if JsString.truthy value && (String.eqb value "opz" || String.eqb value "op1")
     then modify (fun s => {| manager := with_currentDevice value (manager s);
                              tabs := tabs s |})
     else ret tt)
    (fun err => console_error "Failed to load device setting:" err) ;;
  let* s := get in
  unawaited (switchDevice (currentDevice (manager s))).

End Collation.

End Tabs.

(** ** Numbers as text *)

Module NumberText.

Import JsString JsNumber.
Local Open Scope string_scope.

(** *** Number::toString *)

(** The positive number [m * 2^e] as a fraction. *)
Definition fraction (m : positive) (e : Z) : Z * Z :=
  match e with
  | Zneg k => (Zpos m, 2 ^ Zpos k)
  | _ => (Zpos m * 2 ^ e, 1)
  end.

(** The least [j], from [j] on, with [p * 10^j >= q]. *)
Fixpoint scale_up (fuel : nat) (j p q : Z) : Z :=
  match fuel with
  | O => j
  | S fuel' => if (q <=? p * 10 ^ j)%Z then j else scale_up fuel' (j + 1) p q
  end.

(** The [n] with [10^(n-1) <= p/q < 10^n]. *)
Definition magnitude (p q : Z) : Z :=
  if (q <=? p)%Z then Z.of_nat (String.length (of_N (Z.to_N (p / q))))
  else 1 - scale_up 400 1 p q.

(** [s * 10^t] as a fraction, the fraction [p/q] counted in units of [10^t],
    and the number of such units that fit in it. *)
Definition scaled (s t : Z) : Z * Z :=
  if (0 <=? t)%Z then (s * 10 ^ t, 1) else (s, 10 ^ (- t)).

Definition in_units (p q t : Z) : Z * Z :=
  if (0 <=? t)%Z then (p, q * 10 ^ t) else (p * 10 ^ (- t), q).

Definition units (p q t : Z) : Z :=
  let '(up, uq) := in_units p q t in up / uq.

(** The decimal [s * 10^t] reads back as the number nearest to [p/q]. *)
Definition reads_as (p q s t : Z) : bool :=
  let '(vp, vq) := scaled s t in
  number_eq (round_ratio false vp vq) (round_ratio false p q).

(** The shortest decimal that reads back as [p/q], with [k] digits or more:
    of the two decimals of [k] digits around [p/q], the one that reads back,
    the nearer one when both do, the even one when they are as near.  The
    search ends at the latest when the decimal is [p/q] itself. *)
Fixpoint shortest (fuel : nat) (k p q n : Z) : Z * Z :=
  match fuel with
  | O => (p * 5 ^ Z.log2 q, - Z.log2 q)
  | S fuel' =>
      let t := n - k in
      let lo := units p q t in
      let hi := lo + 1 in
      let '(up, uq) := in_units p q t in
      let below := up - lo * uq in
      let above := hi * uq - up in
      match reads_as p q lo t, reads_as p q hi t with
      | true, true => if (below <? above)%Z then (lo, t)
                      else if (above <? below)%Z then (hi, t)
                      else if Z.even lo then (lo, t) else (hi, t)
      | true, false => (lo, t)
      | false, true => (hi, t)
      | false, false => shortest fuel' (k + 1) p q n
      end
  end.

Definition zeros (n : Z) : string := String.concat EmptyString (List.repeat "0" (Z.to_nat n)).

(** The digits [ds] of a decimal whose point stands after the first [n]
    of them: plain notation when [-6 < n <= 21], exponent notation
    otherwise. *)
Definition notation (ds : string) (n : Z) : string :=
  let k := Z.of_nat (String.length ds) in
  if (k <=? n)%Z && (n <=? 21)%Z then ds ++ zeros (n - k)
  else if (0 <? n)%Z && (n <=? 21)%Z
  then substring 0 (Z.to_nat n) ds ++ "." ++ substring (Z.to_nat n) (Z.to_nat (k - n)) ds
  else if (-6 <? n)%Z && (n <=? 0)%Z then "0." ++ zeros (- n) ++ ds
  else
    let e := n - 1 in
    (if (k =? 1)%Z then ds
     else substring 0 1 ds ++ "." ++ substring 1 (Z.to_nat (k - 1)) ds)
    ++ "e" ++ (if (e <? 0)%Z then "-" else "+") ++ of_N (Z.abs_N e).

(** The digits without the zeros at their end. *)
Fixpoint significant (ds : string) : string :=
  match ds with
  | EmptyString => EmptyString
  | String c ds' =>
      match significant ds' with
      | EmptyString => if Ascii.eqb c "0" then EmptyString else String c EmptyString
      | r => String c r
      end
  end.

Definition toString_finite (m : positive) (e : Z) : string :=
  let '(p, q) := fraction m e in
  let '(s, t) := shortest 800 1 p q (magnitude p q) in
  let all := of_N (Z.to_N s) in
  notation (significant all) (t + Z.of_nat (String.length all)).

(** [String(x)], as a template literal or the assignment to [input.value]
    converts a number. *)
Definition toString (x : number) : string :=
  match x with
  | S754_nan => "NaN"
  | S754_zero _ => "0"
  | S754_infinity false => "Infinity"
  | S754_infinity true => "-Infinity"
  | S754_finite s m e => (if s then "-" else EmptyString) ++ toString_finite m e
  end.

(** *** The value of a number input *)

(** A valid floating-point number of HTML: an optional minus sign, digits
    with an optional fraction or a fraction alone, an optional exponent. *)
Definition valid_floating_point_number (s : string) : bool :=
  let s := match s with String "-" s' => s' | _ => s end in
  let '(_, ni, s) := read_digits s 0 0 in
  let '(mantissa, s) :=
    match s with
    | String "." s' => let '(_, nf, s'') := read_digits s' 0 0 in ((0 <? nf)%Z, s'')
    | _ => ((0 <? ni)%Z, s)
    end in
  mantissa &&
  match s with
  | EmptyString => true
  | String c s' =>
      (Ascii.eqb c "e" || Ascii.eqb c "E") &&
      let s'' := match s' with
                 | String "-" r => r
                 | String "+" r => r
                 | _ => s'
                 end in
      let '(_, ne, r) := read_digits s'' 0 0 in
      (0 <? ne)%Z && negb (JsString.truthy r)
  end.

(** [input.value] after [input.value = x] on an input of type [number]:
    the text of the number, or nothing when that text is not a valid
    floating-point number. *)
Definition input_value (x : number) : string :=
  let s := toString x in
  if valid_floating_point_number s then s else EmptyString.

(** *** parseInt *)

Definition hex_digit (c : ascii) : option Z :=
  let n := nat_of_ascii c in
  if ((48 <=? n) && (n <=? 57))%nat then Some (Z.of_nat n - 48)
  else if ((97 <=? n) && (n <=? 102))%nat then Some (Z.of_nat n - 87)
  else if ((65 <=? n) && (n <=? 70))%nat then Some (Z.of_nat n - 55)
  else None.

Fixpoint read_hex (s : string) (acc : Z) (count : Z) : Z * Z :=
  match s with
  | String c s' =>
      match hex_digit c with
      | Some d => read_hex s' (16 * acc + d) (count + 1)
      | None => (acc, count)
      end
  | EmptyString => (acc, count)
  end.

(** [parseInt(s)]: white space (of the ASCII range) and a sign are skipped,
    [0x] announces base sixteen, the digits that follow are read, and
    without a digit the result is NaN. *)
Definition parseInt (s : string) : number :=
  let '(neg, s) := read_sign (skip_spaces s) in
  let decimal :=
    let '(v, count, _) := read_digits s 0 0 in
    if (count =? 0)%Z then S754_nan else round_ratio neg v 1 in
  match s with
  | String "0" (String x s') =>
      if Ascii.eqb x "x" || Ascii.eqb x "X"
      then let '(v, count) := read_hex s' 0 0 in
           if (count =? 0)%Z then S754_nan else round_ratio neg v 1
      else decimal
  | _ => decimal
  end.

End NumberText.

(** ** The configuration form read back: [parseFormConfig] and the save button *)

Module ConfigForm.

Import JsString JsNumber NumberText Data Dom Async Async.Notations SlotView.
Local Open Scope string_scope.

(** *** Values, arrays and the object under construction *)

(** The values [parseFormConfig] stores: booleans, numbers, and arrays of
    them; an array may have holes. *)
#[warnings="-register-all"]
Inductive jsvalue :=
| JBool (b : bool)
| JNumber (x : number)
| JArray (elems : list (option jsvalue)).

Abbreviation array := (list (option jsvalue)).

(** [a[i]], undefined for a hole and beyond the end. *)
Definition get_index (a : array) (i : nat) : option jsvalue := mjoin (a !! i).

(** [a[i] = v]: beyond the end the array grows, leaving holes. *)
Definition set_index (i : nat) (v : jsvalue) (a : array) : array :=
  if (i <? length a)%nat then <[i := Some v]> a
  else (a ++ replicate (i - length a) None ++ [Some v])%list.

(** [const config = {}]: the own properties in the order of their creation,
    and the prototype, which is [Object.prototype] until an array is
    assigned to [config.__proto__]. *)
Record object := {
  own : list (string * jsvalue);
  proto : option array
}.

Definition empty_object : object := {| own := []; proto := None |}.

Fixpoint lookup_own (key : string) (l : list (string * jsvalue)) : option jsvalue :=
  match l with
  | [] => None
  | (k, v) :: l' => if String.eqb k key then Some v else lookup_own key l'
  end.

(** The own property [key] written: in its place when it exists, at the end
    otherwise. *)
Fixpoint write_own (key : string) (v : jsvalue) (l : list (string * jsvalue))
    : list (string * jsvalue) :=
  match l with
  | [] => [(key, v)]
  | (k, w) :: l' =>
      if String.eqb k key then (k, v) :: l' else (k, w) :: write_own key v l'
  end.

(** The array index a property key denotes: the canonical decimal text of an
    integer below [2^32 - 1]. *)
Definition index_of (key : string) : option nat :=
  let '(v, count, rest) := read_digits key 0 0 in
  if (0 <? count)%Z && negb (JsString.truthy rest)
     && String.eqb (of_N (Z.to_N v)) key && (v <? 2 ^ 32 - 1)%Z
  then Some (Z.to_nat v) else None.

(** [config[key]] when [Array.isArray] holds of it: an own property; for
    [__proto__], the prototype; otherwise an element of the prototype.  (What
    else is inherited, from [Array.prototype] or [Object.prototype], is a
    function or a number.) *)
Definition array_at (config : object) (key : string) : option array :=
  match lookup_own key (own config) with
  | Some (JArray a) => Some a
  | Some _ => None
  | None =>
      if String.eqb key "__proto__" then proto config
      else match proto config, index_of key with
           | Some p, Some i =>
               match get_index p i with
               | Some (JArray a) => Some a
               | _ => None
               end
           | _, _ => None
           end
  end.

(** [config[key] = v].  The setter of [__proto__] installs an array as the
    prototype and ignores a boolean or a number; any other key becomes an own
    property. *)
Definition assign (config : object) (key : string) (v : jsvalue) : object :=
  match lookup_own key (own config) with
  | None =>
      if String.eqb key "__proto__"
      then match v with
           | JArray a => {| own := own config; proto := Some a |}
           | _ => config
           end
      else {| own := (own config ++ [(key, v)])%list; proto := proto config |}
  | Some _ => {| own := write_own key v (own config); proto := proto config |}
  end.

(** The array [config[key]] changed in place, where [array_at] found it. *)
Definition change_array (config : object) (key : string) (f : array -> array) : object :=
  match lookup_own key (own config) with
  | Some (JArray a) =>
      {| own := write_own key (JArray (f a)) (own config); proto := proto config |}
  | Some _ => config
  | None =>
      if String.eqb key "__proto__"
      then {| own := own config; proto := f <$> proto config |}
      else match proto config, index_of key with
           | Some p, Some i =>
               match get_index p i with
               | Some (JArray a) =>
                   {| own := own config; proto := Some (<[i := Some (JArray (f a))]> p) |}
               | _ => config
               end
           | _, _ => config
           end
  end.

(** [if (!Array.isArray(config[key])) config[key] = [];] *)
Definition ensure_array (config : object) (key : string) : object :=
  match array_at config key with
  | Some _ => config
  | None => assign config key (JArray [])
  end.

(** [a[idx] = a[idx] ?? []; a[idx][subIdx] = num;] — the second assignment
    does nothing when [a[idx]] is a boolean or a number (the script is not in
    strict mode). *)
Definition set_in_row (idx subIdx : nat) (num : number) (a : array) : array :=
  match get_index a idx with
  | None => set_index idx (JArray (set_index subIdx (JNumber num) [])) a
  | Some (JArray row) => set_index idx (JArray (set_index subIdx (JNumber num) row)) a
  | Some _ => a
  end.

(** *** parseFormConfig *)

(** [formElement.querySelectorAll('input')]: the inputs of the items, in
    document order.  The indices [dataset.index] and [dataset.subindex] are
    those [buildConfigForm] wrote, positions in an array; the value of a
    number input is the one the script wrote. *)
Definition inputs_of (c : child) : list input :=
  match c with
  | ConfigItem _ (Single i) => [i]
  | ConfigItem _ (Rows rows) => concat rows
  | _ => []
  end.

Definition querySelectorAll_input (formElement : element) : list input :=
  flat_map inputs_of (children formElement).

(** The body of the [forEach] callback. *)
Definition parse_input (config : object) (i : input) : object :=
  match i with
  | CheckboxInput key checked idx =>
      match idx with
      | Some idx =>
          change_array (ensure_array config key) key (set_index idx (JBool checked))
      | None => assign config key (JBool checked)
      end
  | NumberInput key value idx subIdx =>
      let num := parseInt (input_value value) in
      match idx with
      | Some idx =>
          let config := ensure_array config key in
          match subIdx with
          | Some subIdx => change_array config key (set_in_row idx subIdx num)
          | None => change_array config key (set_index idx (JNumber num))
          end
      | None => assign config key (JNumber num)
      end
  end.

Definition parseFormConfig (formElement : element) : object :=
  fold_left parse_input (querySelectorAll_input formElement) empty_object.

(** *** JSON.stringify *)

Definition is_finite (x : number) : bool :=
  match x with
  | S754_zero _ | S754_finite _ _ _ => true
  | _ => false
  end.

(** The JSON text of a value: a number that is not finite and a hole are
    written [null]. *)
Fixpoint JSON_stringify (v : jsvalue) : string :=
  match v with
  | JBool b => if b then "true" else "false"
  | JNumber x => if is_finite x then toString x else "null"
  | JArray elems =>
      "[" ++ join ","
               (List.map (fun e => match e with
                                   | Some v => JSON_stringify v
                                   | None => "null"
                                   end) elems)
          ++ "]"
  end.

(** The own properties in the order [JSON.stringify] visits them: the array
    indices in ascending order, then the other keys in the order of their
    creation. *)
Fixpoint insert_index (e : nat * (string * jsvalue)) (l : list (nat * (string * jsvalue)))
    : list (nat * (string * jsvalue)) :=
  match l with
  | [] => [e]
  | e' :: l' => if (fst e <? fst e')%nat then e :: l else e' :: insert_index e l'
  end.

Definition own_entries (config : object) : list (string * jsvalue) :=
  let indexed :=
    omap (fun kv => (fun i => (i, kv)) <$> index_of (fst kv)) (own config) in
  let named :=
    List.filter (fun kv => match index_of (fst kv) with
                           | Some _ => false
                           | None => true
                           end) (own config) in
  (List.map snd (foldr insert_index [] indexed) ++ named)%list.

(** The body [JSON.stringify(config)] as the fields of the JSON object sent,
    each value as its JSON text. *)
Definition body_fields (config : object) : list (string * value) :=
  List.map (fun kv => (fst kv, Text (JSON_stringify (snd kv)))) (own_entries config).

(** *** The save button *)

Definition save_request (name : string) (fields : list (string * value)) : request :=
  {| url := "/save-config/" ++ name; method := "POST"; fields := fields |}.

(** [parseFormConfig(document.getElementById(id))] *)
Definition parse_form (id : string) : M ConfigEditor.state object :=
  let* st := get in
  match ConfigEditor.elements st !! id with
  | None => throw type_error
  | Some form => ret (parseFormConfig form)
  end.

(** The click listener of [save-button]. *)
Definition save_click : M ConfigEditor.state unit :=
  try_catch
    (let* generalConfig := parse_form "general-form" in
     fetch ShNone (save_request "general" (body_fields generalConfig)) ;;
     let* midiConfig := parse_form "midi-form" in
     fetch ShNone (save_request "midi" (body_fields midiConfig)) ;;
     let* st := get in
     match ConfigEditor.elements st !! "dmx-textarea" with
     | None => throw type_error
     | Some textarea =>
         fetch ShNone (save_request "dmx" [("content", Text (textContent textarea))]) ;;
         alert "All configurations saved successfully!"
     end)
    (fun err =>
       console_error "Error saving configs:" err ;;
       alert "Error saving configurations. Check console for details.").

End ConfigForm.

(** * Properties of the scripts *)

Import JsString JsNumber Data Dom Async SlotView.
Local Open Scope string_scope.

(** ** Vocabulary of the statements *)

(** *** The record of a computation *)

(** A computation only adds to the record of what happened; [emits P m] says
    that everything [m] adds satisfies [P]. *)
Definition emits {S A} (P : event -> Prop) (m : M S A) : Prop :=
  forall env s h, exists r, snd (fst (m env s h)) = (h ++ r)%list /\ Forall P r.

(** No restriction. *)
Definition anything (e : event) : Prop := True.

(** The event is not a request to the backend. *)
Definition no_request (e : event) : Prop := is_fetch e = false.

(** *** Drops on a slot *)

(** The payload names the slot it is dropped on. *)
Definition same_slot (d : droppedData) (category : string) (slotIndex : nat) : Prop :=
  from_category d = category /\ from_slot d = slotIndex.

(** The payload has no path, or an empty one. *)
Definition no_source_path (d : droppedData) : Prop :=
  from_path d = None \/ from_path d = Some EmptyString.

(** The request of a refresh. *)
Definition read_samples (u : string) : request :=
  {| url := u; method := "GET"; fields := [] |}.

(** The request of a move into a slot. *)
Definition move_request (u fromPath category : string) (slotIndex : nat) : request :=
  {| url := u; method := "POST";
     fields := [("source_path", Text fromPath);
                ("target_category", Text category);
                ("target_slot", Text (of_nat slotIndex))] |}.

(** The record of a move that failed with [msg]. *)
Definition move_failed (u fromPath category : string) (slotIndex : nat) (msg : string)
    : list event :=
  [Fetched (move_request u fromPath category slotIndex);
   ConsoleError "Failed to move sample:" msg;
   Alerted "Could not move sample."].

(** *** Deleting a sample *)

(** The request [deleteSample] sends, the dialog it opens, what makes the
    request a failure, and what a failure adds to the record. *)
Definition delete_request (path device : string) : request :=
  {| url := "/delete-sample"; method := "DELETE";
     fields := [("path", Text path); ("device", Text device)] |}.

Definition delete_question (path : string) : string :=
  "Delete " ++ dq ++ pop (split "/" path) ++ dq ++ "?".

Definition delete_failure (answer : outcome (response ShError)) : option string :=
  match answer with
  | Thrown msg => Some msg
  | Returned response =>
      if ok response then None
      else match json response with
           | Returned data => Some (or_else (error data) "Failed to delete file")
           | Thrown msg => Some msg
           end
  end.

Definition delete_failed (msg : string) : list event :=
  [ConsoleError "Failed to delete sample:" msg; Alerted ("Failed to delete file: " ++ msg)].

(** The [catch] clause of [deleteSample]. *)
Definition delete_handler (err : string) : M Manager.state unit :=
  bind (console_error "Failed to delete sample:" err)
       (fun _ => alert ("Failed to delete file: " ++ err)).

(** *** Waiting for the device *)

(** The request of one polling attempt, what an attempt observes (whether the
    mount path it reads is non-empty; nothing when the request or its body
    fails), and the record after [k] attempts that each ended in a wait. *)
Definition mount_query : request :=
  {| url := "/get-config-setting?config_option=OPZ_MOUNT_PATH"; method := "GET";
     fields := [] |}.

Definition observed (env : environment) (h : list event) : option bool :=
  match network env h ShConfig mount_query with
  | Returned res =>
      match json res with
      | Returned data => Some (JsString.truthy (or_else (config_value data) EmptyString))
      | Thrown _ => None
      end
  | Thrown _ => None
  end.

Fixpoint waiting (k : nat) (delay : Z) : list event :=
  match k with
  | O => []
  | Datatypes.S k' => (waiting k' delay ++ [Fetched mount_query; Waited delay])%list
  end.

Definition mount_warning : event := ConsoleWarn "Mount path not found after polling.".

(** The requests of [loadAllConfigs]. *)
Definition config_request (name : string) : request :=
  {| url := "/get-config/" ++ name; method := "GET"; fields := [] |}.

(** *** The storage display *)



(** *** Folders *)






(** [c] occurs in [s]. *)
Fixpoint has_byte (c : ascii) (s : string) : bool :=
  match s with
  | EmptyString => false
  | String d s' => Ascii.eqb d c || has_byte c s'
  end.

(** ** Pages, backends and drops used as examples *)

Definition blank : element :=
  {| textContent := EmptyString; classList := []; width := EmptyString;
     hidden := false; children := []; dropZones := 0 |}.

(** A page of the slot-based device with one category box and the storage
    display. *)
Definition opz_page : gmap string element :=
  list_to_map
    [("kick", set_children [Heading "Kick"] blank);
     ("opz-storage-used", blank); ("opz-storage-free", blank);
     ("opz-samples-used", blank);
     ("opz-storage-bar-fill", set_classList ["storage-bar-fill"; "storage-high"] blank);
     ("opz-storage-bar-label", blank);
     ("validation-error-container", blank); ("validation-error-message", blank)].

(** The slot manager on that page, nothing rendered yet. *)
Definition opz_state : Manager.state :=
  {| Manager.elements := opz_page; Manager.currentDevice := "opz";
     Manager.opzStorageUsed := JsNumber.of_Z 0;
     Manager.OPZ_TOTAL_STORAGE := JsNumber.of_Z 24000;
     Manager.opzNumSamples := 0; Manager.op1Data := None |}.

(** The page of the earlier script, and its state. *)
Definition legacy_page : gmap string element :=
  list_to_map
    [("kick", set_children [Heading "Kick"] blank);
     ("storage-percent", blank); ("storage-used", blank); ("storage-free", blank);
     ("samples-percent", blank); ("samples-used", blank); ("samples-free", blank)].

Definition legacy_state : Legacy.state :=
  {| Legacy.elements := legacy_page; Legacy.storageUsed := JsNumber.of_Z 0;
     Legacy.numSamples := 0 |}.

(** The page of the configuration editor. *)
Definition editor_state : ConfigEditor.state :=
  {| ConfigEditor.elements :=
       list_to_map [("general-form", blank); ("midi-form", blank); ("dmx-textarea", blank)] |}.


(** A response with a JSON body. *)
Definition reply {sh} (success : bool) (b : body sh) : outcome (response sh) :=
  Returned {| ok := success; statusText := if success then "OK" else "Internal Server Error";
              json := Returned b |}.

(** A backend that answers every request with the given status; snapshots
    come from [opz]. *)
Definition backend (success : bool) (opz : OpzData) : environment :=
  {| network := fun _ sh _ =>
       match sh return outcome (response sh) with
       | ShOpz => reply success (opz : body ShOpz)
       | ShError => reply success ({| error := None |} : body ShError)
       | ShNone => reply success (tt : body ShNone)
       | _ => Thrown "Failed to fetch"
       end;
     dialog := fun _ _ => true;
     race := fun _ _ => 0%nat |}.

(** A backend that stores whatever is uploaded and has no snapshot to give. *)
Definition storing_backend : environment :=
  {| network := fun _ sh _ =>
       match sh return outcome (response sh) with
       | ShUpload => reply true ({| upload_error := None; errors := None |} : body ShUpload)
       | _ => Thrown "Failed to fetch"
       end;
     dialog := fun _ _ => true;
     race := fun _ _ => 0%nat |}.

(** A slot as the backend describes it. *)
Definition slot_of (p f : option string) (b : option Z) : Slot :=
  {| path := p; filename := f; filesize := option_map JsNumber.of_Z b |}.

(** One category with an empty slot and a sample of 2048 bytes. *)
Definition kick_snapshot : OpzData :=
  {| categories := ["kick"];
     sampleData := [[slot_of None (Some "(empty)") None;
                     slot_of (Some "kick/02.wav") (Some "snare.wav") (Some 2048)]];
     opz_storage := Some {| used := JsNumber.of_Z 2; total := JsNumber.of_Z 32000 |};
     opz_validation_error := None |}.

(** A category whose only slot has the empty string as file name. *)
Definition nameless_slot : Slot := slot_of None (Some EmptyString) None.

Definition nameless_snapshot : OpzData :=
  {| categories := ["kick"];
     sampleData := [[nameless_slot]];
     opz_storage := Some {| used := JsNumber.of_Z 2; total := JsNumber.of_Z 32000 |};
     opz_validation_error := None |}.

(** Dragging the sample of slot 2 of [kick]. *)
Definition dragged_snare : dataTransfer :=
  {| files := [];
     text_plain := Json {| from_category := "kick"; from_slot := 1;
                           from_path := Some "kick/02.wav" |} |}.

(** The number of waits in a record. *)
Definition waits_in (h : list event) : nat :=
  List.length (List.filter (fun e => match e with Waited _ => true | _ => false end) h).

(** A device that is mounted from the fourth attempt on, behind a backend
    whose configuration documents cannot be fetched. *)
Definition mounted_after_three : environment :=
  {| network := fun h sh _ =>
       match sh return outcome (response sh) with
       | ShConfig =>
           reply true ({| config_value := if (3 <=? waits_in h)%nat
                                          then Some "/Volumes/OP-Z" else None |}
                       : body ShConfig)
       | ShOpz => reply true (kick_snapshot : body ShOpz)
       | _ => Thrown "Failed to fetch"
       end;
     dialog := fun _ _ => true;
     race := fun _ _ => 0%nat |}.

(** The order of the code units, as a collation. *)
Definition codeUnitCompare (a b : string) : Z :=
  match String.compare a b with Lt => -1 | Eq => 0 | Gt => 1 end.




(** A folder name that closes the [onclick] attribute and opens an element. *)
Definition hostile_name : string := "x')" ++ dq ++ "><img src=1>".

(** ** Vocabulary of the further statements *)

(** *** What a computation leaves as it is *)

(** [keeps R m]: the state [m] ends in is related by [R] to the state it
    started from. *)
Definition keeps {S A} (R : S -> S -> Prop) (m : M S A) : Prop :=
  forall env s h, R s (fst (fst (m env s h))).

(** No event at all. *)
Definition nothing (e : event) : Prop := False.

(** The requests of a record, in order. *)
Definition requests (h : list event) : list request :=
  List.flat_map (fun e => match e with Fetched r => [r] | _ => [] end) h.

(** The alerts of a record, in order. *)
Definition alerts (h : list event) : list string :=
  List.flat_map (fun e => match e with Alerted m => [m] | _ => [] end) h.

(** What a refresh adds to the record: its request, and the failure it
    logged if it met one. *)
Definition refreshed (r : request) (label : string) (added : list event) : Prop :=
  added = [Fetched r] \/ exists msg, added = [Fetched r; ConsoleError label msg].

(** *** Uploads *)

(** The request that uploads a file into a slot. *)
Definition slot_upload_request (u : string) (f : file) (category : string) (slotIndex : nat)
    : request :=
  {| url := u; method := "POST";
     fields := [("file", Blob f); ("category", Text category);
                ("slot", Text (of_nat slotIndex))] |}.

(** The request that uploads a file into a folder. *)
Definition folder_upload_request (parentFolder subdirName : string) (f : file) : request :=
  {| url := "/upload-sample"; method := "POST";
     fields := [("file", Blob f); ("device", Text "op1");
                ("target_path", Text (parentFolder ++ "/" ++ subdirName))] |}.

(** An upload into a slot went through when the request was answered with a
    success status and a JSON body. *)
Definition accepted (answer : outcome (response ShNone)) : bool :=
  match answer with
  | Returned response =>
      ok response && match json response with Returned _ => true | Thrown _ => false end
  | Thrown _ => false
  end.

(** What makes a request with an [error] body a failure: the message of the
    rejection, of the body that could not be read, or of the backend, with
    [dflt] when the backend gives none. *)
Definition failure (dflt : string) (answer : outcome (response ShError)) : option string :=
  match answer with
  | Thrown msg => Some msg
  | Returned response =>
      if ok response then None
      else match json response with
           | Returned data => Some (or_else (error data) dflt)
           | Thrown msg => Some msg
           end
  end.

(** A drop that carries a file from outside as well as a move payload. *)
Definition dragged_file_and_snare : dataTransfer :=
  {| files := [{| file_name := "clap.wav" |}];
     text_plain := Json {| from_category := "kick"; from_slot := 1;
                           from_path := Some "kick/02.wav" |} |}.

(** *** Folders *)

Definition create_request (parentFolder name : string) : request :=
  {| url := "/create-op1-subdirectory"; method := "POST";
     fields := [("parent", Text parentFolder); ("name", Text name)] |}.

Definition rename_request (path newName : string) : request :=
  {| url := "/rename-op1-subdirectory"; method := "POST";
     fields := [("old_path", Text path); ("new_name", Text newName)] |}.

Definition delete_folder_request (path : string) : request :=
  {| url := "/delete-op1-subdirectory"; method := "DELETE";
     fields := [("path", Text path)] |}.

(** The name a folder path shows: its second component. *)
Definition folder_name (path : string) : option string := nth_error (split "/" path) 1.

(** *** Devices *)

(** Outside [ids], every element is as visible as it was, and the device
    selected is the same. *)
Definition same_visibility (ids : list string) (s s' : Manager.state) : Prop :=
  Manager.currentDevice s' = Manager.currentDevice s
  /\ forall id, ~ In id ids ->
       hidden <$> (Manager.elements s' !! id) = hidden <$> (Manager.elements s !! id).

(** The elements the validation panel of a device shows and hides. *)
Definition panel (device : string) : list string :=
  ["validation-error-container"; device ++ "-storage-info"; device ++ "-file-list"].

Definition device_query : request :=
  {| url := "/get-config-setting?config_option=SELECTED_DEVICE"; method := "GET";
     fields := [] |}.

Definition save_device_request (device : string) : request :=
  {| url := "/set-config-setting"; method := "POST";
     fields := [("config_option", Text "SELECTED_DEVICE"); ("config_value", Text device)] |}.

(** The device the backend has stored, when it can be read. *)
Definition stored_device (env : environment) : option string :=
  match network env [] ShConfig device_query with
  | Returned res =>
      match json res with
      | Returned data => config_value data
      | Thrown _ => None
      end
  | Thrown _ => None
  end.

(** The request that reads the samples of a device. *)
Definition refresh_request (device : string) : request :=
  read_samples (if String.eqb device "opz" then "/read-samples" else "/read-op1-samples").

(** A page with both device containers, the first one shown, and two tabs. *)
Definition tabbed_page : Tabs.state :=
  {| Tabs.manager :=
       {| Manager.elements :=
            list_to_map [("opz-container", blank); ("op1-container", set_hidden true blank)];
          Manager.currentDevice := "opz";
          Manager.opzStorageUsed := JsNumber.of_Z 0;
          Manager.OPZ_TOTAL_STORAGE := JsNumber.of_Z 24000;
          Manager.opzNumSamples := 0; Manager.op1Data := None |};
     Tabs.tabs := [{| Tabs.tab_device := "opz"; Tabs.tab_classes := ["device-tab"; "active"] |};
                   {| Tabs.tab_device := "op1"; Tabs.tab_classes := ["device-tab"] |}] |}.

(** The device the page starts with: the stored one when it is one of the
    two devices, the current one otherwise. *)
Definition chosen_device (env : environment) (current : string) : string :=
  match stored_device env with
  | Some d => if String.eqb d "opz" || String.eqb d "op1" then d else current
  | None => current
  end.

(** *** The delete button of samplemanager.js *)

Definition legacy_delete_request (path : string) : request :=
  {| url := "http://localhost:5000/delete-sample"; method := "DELETE";
     fields := [("path", Text path)] |}.

(** The request was answered with a success status. *)
Definition granted (answer : outcome (response ShNone)) : bool :=
  match answer with
  | Returned response => ok response
  | Thrown _ => false
  end.

(** The slot element after [slot.path = null] and the new label. *)
Definition cleared (d : slotDiv) : slotDiv :=
  {| slot_category := slot_category d; slot_index := slot_index d;
     slot_path := None;
     slot_text := "Slot " ++ of_nat (slot_index d + 1) ++ ": (empty)";
     slot_classes := slot_classes d |}.

(** The page of the earlier script after it rendered [kick_snapshot]. *)
Definition legacy_rendered : Legacy.state :=
  final (run Legacy.fetchOpzSamples (backend true kick_snapshot) legacy_state).

(** *** Rendering the slots *)

(** The children of the element with a given id, when it is on the page. *)
Definition kids (doc : gmap string element) (id : string) : option (list child) :=
  children <$> doc !! id.

(** What a container keeps when it is rendered again: its heading. *)
Definition kept_heading (l : list child) : list child :=
  match heading_of l with
  | Some h => [h]
  | None => []
  end.

(** The slot elements of a category, in the order of the snapshot. *)
Definition slot_children_from (i : nat) (category : string) (slots : list Slot) : list child :=
  imap (fun j slot => SlotChild (new_slotDiv category (i + j) slot)) slots.

Definition slot_children (category : string) (slots : list Slot) : list child :=
  slot_children_from 0 category slots.

(** The number of slots of a row that count as samples, and the number over
    the categories that have a container on the page. *)
Definition counted_in (slots : list Slot) : Z :=
  Z.of_nat (length (List.filter counted slots)).

Fixpoint counted_on (doc : gmap string element) (cats : list string) (rows : list (list Slot))
    : Z :=
  match cats, rows with
  | c :: cats', row :: rows' =>
      (match doc !! c with Some _ => counted_in row | None => 0 end)
      + counted_on doc cats' rows'
  | _, _ => 0
  end.

(** The element that shows the number of samples agrees with the counter. *)
Definition shown_count (st : Manager.state) : Prop :=
  forall e, Manager.elements st !! "opz-samples-used" = Some e ->
            textContent e = JsString.of_Z (Manager.opzNumSamples st).

(** *** Escaping *)

(** The first piece [escapeHtml] writes for a text and the text it goes on
    with. *)
Inductive piece : string -> string -> string -> Prop :=
| piece_amp rest : piece (String "&" rest) "&amp;" rest
| piece_lt rest : piece (String "<" rest) "&lt;" rest
| piece_gt rest : piece (String ">" rest) "&gt;" rest
| piece_nbsp rest : piece (nbsp ++ rest) "&nbsp;" rest
| piece_plain c rest :
    c <> "&"%char -> c <> "<"%char -> c <> ">"%char ->
    (c = ascii_of_nat 194 -> forall rest', rest <> String (ascii_of_nat 160) rest') ->
    piece (String c rest) (String c EmptyString) rest.

(** The two quotation marks. *)
Definition apostrophe : ascii := ascii_of_nat 39.
Definition quotation_mark : ascii := ascii_of_nat 34.

(** *** The configuration editor *)

(** What the text area shows for an answer to the request of the DMX
    configuration: its [content], nothing when the body has none, and a
    comment when the request or its body failed. *)
Definition dmx_shown (answer : outcome (response ShDmx)) : string :=
  match answer with
  | Returned res =>
      match json res with
      | Returned data => or_else (content data) EmptyString
      | Thrown _ => "// Error loading DMX config"
      end
  | Thrown _ => "// Error loading DMX config"
  end.

(** The request or its body failed. *)
Definition unreadable {sh} (answer : outcome (response sh)) : bool :=
  match answer with
  | Returned res => match json res with Returned _ => false | Thrown _ => true end
  | Thrown _ => true
  end.

(** *** The configuration form read back *)

Import NumberText ConfigForm.

(** The number a number input gives back for the number written to it. *)
Definition reparse_number (x : number) : number := parseInt (input_value x).

(** What an item of an array comes back as: a row without inputs leaves a
    hole. *)
Definition reparse_item (item : configItem) : option jsvalue :=
  match item with
  | ItemArray [] => None
  | ItemArray vals =>
      Some (JArray (List.map (fun x => Some (JNumber (reparse_number x))) vals))
  | ItemBool b => Some (JBool b)
  | ItemNumber x => Some (JNumber (reparse_number x))
  end.

Fixpoint drop_trailing_holes (a : array) : array :=
  match a with
  | [] => []
  | x :: a' =>
      match x, drop_trailing_holes a' with
      | None, [] => []
      | _, r => x :: r
      end
  end.

(** What a value comes back as, if it comes back at all. *)
Definition reparse (v : configValue) : option jsvalue :=
  match v with
  | ValueBool b => Some (JBool b)
  | ValueNumber x => Some (JNumber (reparse_number x))
  | ValueArray items =>
      match drop_trailing_holes (List.map reparse_item items) with
      | [] => None
      | a => Some (JArray a)
      end
  | ValueOther => None
  end.

Definition reparsed (c : Config) : list (string * jsvalue) :=
  omap (fun kv => (fun v => (fst kv, v)) <$> reparse (snd kv)) c.

(** The values of a configuration as JavaScript values; a value that is
    neither a boolean, a number nor an array has none here. *)
Definition encode_item (item : configItem) : jsvalue :=
  match item with
  | ItemArray vals => JArray (List.map (fun x => Some (JNumber x)) vals)
  | ItemBool b => JBool b
  | ItemNumber x => JNumber x
  end.

Definition encode (v : configValue) : option jsvalue :=
  match v with
  | ValueBool b => Some (JBool b)
  | ValueNumber x => Some (JNumber x)
  | ValueArray items => Some (JArray (List.map (fun i => Some (encode_item i)) items))
  | ValueOther => None
  end.

(** The own properties of [o] are the entries of [c], in order and with
    their values. *)
Definition holds (o : object) (c : Config) : Prop :=
  List.map (fun kv => (fst kv, Some (snd kv))) (own o)
  = List.map (fun kv => (fst kv, encode (snd kv))) c.

(** The same number, bit for bit. *)
Definition same_number (x y : number) : bool :=
  match x, y with
  | S754_zero s, S754_zero s' => Bool.eqb s s'
  | S754_infinity s, S754_infinity s' => Bool.eqb s s'
  | S754_nan, S754_nan => true
  | S754_finite s m e, S754_finite s' m' e' => Bool.eqb s s' && Pos.eqb m m' && Z.eqb e e'
  | _, _ => false
  end.

(** A number survives the form when the input gives it back. *)
Definition survives (x : number) : bool := same_number (reparse_number x) x.

Definition nonempty {A} (l : list A) : bool :=
  match l with
  | [] => false
  | _ => true
  end.

Definition storable_item (item : configItem) : bool :=
  match item with
  | ItemArray vals => nonempty vals && forallb survives vals
  | ItemBool _ => true
  | ItemNumber x => survives x
  end.

(** A value the form can hold: a boolean, a number that survives, or an
    array that is not empty of booleans, such numbers and rows of such
    numbers that are not empty. *)
Definition storable (v : configValue) : bool :=
  match v with
  | ValueBool _ => true
  | ValueNumber x => survives x
  | ValueArray items => nonempty items && forallb storable_item items
  | ValueOther => false
  end.

(** The form [buildConfigForm] leaves in an element. *)
Definition built (c : Config) (e : element) : element :=
  set_children (List.map (fun kv => ConfigEditor.config_item (fst kv) (snd kv)) c) e.

Definition keys (c : Config) : list string := List.map fst c.

(** **** States of the object while one key is read *)

(** The object with the array [a] under [key], after the properties of [o]. *)
Definition with_array (o : object) (key : string) (a : array) : object :=
  {| own := (own o ++ [(key, JArray a)])%list; proto := None |}.

(** The same, but an empty array is not there yet. *)
Definition with_stored (o : object) (key : string) (a : array) : object :=
  match a with
  | [] => {| own := own o; proto := None |}
  | _ => with_array o key a
  end.

Definition option_entry (key : string) (v : option jsvalue) : list (string * jsvalue) :=
  match v with
  | Some v => [(key, v)]
  | None => []
  end.


(** **** Saving *)

Definition saved_alert : string := "All configurations saved successfully!".
Definition not_saved_alert : string :=
  "Error saving configurations. Check console for details.".

(** The requests a click on the save button can send from a page: one for
    each part, up to the first part the page lacks. *)
Definition save_requests (st : ConfigEditor.state) : list request :=
  match ConfigEditor.elements st !! "general-form" with
  | None => []
  | Some general =>
      save_request "general" (body_fields (parseFormConfig general)) ::
      match ConfigEditor.elements st !! "midi-form" with
      | None => []
      | Some midi =>
          save_request "midi" (body_fields (parseFormConfig midi)) ::
          match ConfigEditor.elements st !! "dmx-textarea" with
          | None => []
          | Some textarea =>
              [save_request "dmx" [("content", Text (textContent textarea))]]
          end
      end
  end.

(** Every request of the list is answered, with whatever status, when sent
    in turn after the record [h]. *)
Fixpoint all_answered (env : environment) (h : list event) (reqs : list request) : bool :=
  match reqs with
  | [] => true
  | r :: rest =>
      match network env h ShNone r with
      | Returned _ => all_answered env (h ++ [Fetched r])%list rest
      | Thrown _ => false
      end
  end.

(** A backend that answers every request with the status 500. *)
Definition failing_backend : environment :=
  {| network := fun _ sh _ =>
       Returned {| ok := false; statusText := "INTERNAL SERVER ERROR";
                   json := Thrown syntax_error |};
     dialog := fun _ _ => false;
     race := fun _ _ => 0%nat |}.

(** [input.name] *)
Definition input_name (i : input) : string :=
  match i with
  | NumberInput name _ _ _ => name
  | CheckboxInput name _ _ => name
  end.

(** The names of the fields of a body. *)
Definition field_names (fields : list (string * value)) : list string := List.map fst fields.

(** **** Numbers *)

(** The [n] integers from [lo] on. *)
Definition integers (lo : Z) (n : nat) : list Z :=
  List.map (fun i => lo + Z.of_nat i) (seq 0 n).

(** **** Loading *)





(** *** The first script on a page that lacks a container *)

(** [m] fails with no other message than [e]. *)
Definition fails_only_with {S A} (e : string) (m : M S A) : Prop :=
  forall env s h,
    match snd (m env s h) with
    | Thrown e' => e' = e
    | Returned _ => True
    end.

(** The page has the same elements, and outside [ids] they have the same
    children. *)
Definition same_children (ids : list string) (s s' : Legacy.state) : Prop :=
  (forall id, Legacy.elements s' !! id = None <-> Legacy.elements s !! id = None)
  /\ forall id, ~ In id ids ->
       kids (Legacy.elements s') id = kids (Legacy.elements s) id.

(** A snapshot whose first category has no container on [legacy_page]. *)
Definition snare_kick_snapshot : OpzData :=
  {| categories := ["snare"; "kick"];
     sampleData := [[slot_of (Some "snare/01.wav") (Some "rim.wav") (Some 1024)];
                    [slot_of (Some "kick/01.wav") (Some "boom.wav") (Some 2048)]];
     opz_storage := Some {| used := JsNumber.of_Z 3; total := JsNumber.of_Z 32000 |};
     opz_validation_error := None |}.

(** A configuration with a value of each kind. *)
Definition sample_config : Config :=
  [("midi_echo", ValueBool true);
   ("channel", ValueNumber (JsNumber.of_Z 16));
   ("name", ValueOther);
   ("track_enable", ValueArray [ItemBool true; ItemBool false]);
   ("parameter_cc_out", ValueArray [ItemArray [JsNumber.of_Z 1; JsNumber.of_Z 2];
                                    ItemArray [];
                                    ItemNumber (JsNumber.of_Z 7)]);
   ("unused", ValueArray [])].

(** *** What the first script renders *)

(** The elements [updateStorageDisplay] of the first script writes. *)
Definition legacy_display : list string :=
  ["storage-percent"; "storage-used"; "storage-free";
   "samples-percent"; "samples-used"; "samples-free"].

(** The sizes of the slots, each divided by 1024, added to [acc] in the
    order of the slots; a slot without a size or with the size zero adds
    nothing. *)
Definition add_sizes (slots : list Slot) (acc : number) : number :=
  fold_left (fun acc slot =>
               match filesize slot with
               | Some b => if JsNumber.truthy b then add acc (div b (JsNumber.of_Z 1024)) else acc
               | None => acc
               end) slots acc.

(** The text of an element. *)
Definition text_at (doc : gmap string element) (id : string) : option string :=
  textContent <$> doc !! id.

(** The two sample counters shown agree with [numSamples]. *)
Definition legacy_shown (st : Legacy.state) : Prop :=
  text_at (Legacy.elements st) "samples-used" = Some (JsString.of_Z (Legacy.numSamples st))
  /\ text_at (Legacy.elements st) "samples-free"
     = Some (JsString.of_Z (Legacy.MAX_SAMPLES - Legacy.numSamples st)).

(** The display elements are on the page. *)
Definition has_display (st : Legacy.state) : Prop :=
  forall id, In id legacy_display -> Legacy.elements st !! id <> None.

(** *** The sections of the folder-based device *)






(** *** What a refresh leaves in the record *)

(** What a refresh adds to the record for the [answer] to its request [req]:
    the request itself, followed by one console error under [label] when the
    request was refused (the reason given by the network), when the status
    was an error (the status text after "Network response was not ok: "),
    when the body could not be read (the reason given by the parser), or
    when the [rendering] of the snapshot threw (what it threw). *)
Definition refresh_record {sh} (req : request) (label : string)
    (answer : outcome (response sh)) (rendering : outcome unit) : list event :=
  Fetched req ::
  match answer with
  | Thrown reason => [ConsoleError label reason]
  | Returned response =>
      if ok response then
        match json response with
        | Thrown reason => [ConsoleError label reason]
        | Returned _ =>
            match rendering with
            | Thrown thrown => [ConsoleError label thrown]
            | Returned _ => []
            end
        end
      else [ConsoleError label ("Network response was not ok: " ++ statusText response)]
  end.

(** The snapshot that an answer delivered, if it did. *)
Definition snapshot_of {sh} (answer : outcome (response sh)) : option (body sh) :=
  match answer with
  | Returned response =>
      if ok response then
        match json response with
        | Returned data => Some data
        | Thrown _ => None
        end
      else None
  | Thrown _ => None
  end.

(** The record [trace] continues [h] by what a refresh adds for [answer],
    where the rendering of the snapshot either ends or throws a TypeError,
    and throws it whenever the snapshot [breaks] the rendering. *)
Definition logs_its_failure {sh} (req : request) (label : string)
    (answer : outcome (response sh)) (breaks : body sh -> Prop)
    (h trace : list event) : Prop :=
  exists rendering,
    (rendering = Returned tt \/ rendering = Thrown type_error)
    /\ trace = (h ++ refresh_record req label answer rendering)%list
    /\ forall data, snapshot_of answer = Some data -> breaks data ->
         rendering = Thrown type_error.

(** *** A snapshot that lost its storage *)

(** Three categories: [lead] has a slot, [snare] has none, [kick] has one. *)
Definition storage_less_snapshot : OpzData :=
  {| categories := ["lead"; "snare"; "kick"];
     sampleData := [[slot_of (Some "lead/01.wav") (Some "saw.wav") (Some 512)];
                    [];
                    [slot_of None (Some "snare.wav") None]];
     opz_storage := None;
     opz_validation_error := None |}.

(** The page of the slot manager with a second container, which shows a slot
    of an earlier rendering; there is no container for [lead]. *)
Definition two_containers_state : Manager.state :=
  {| Manager.elements :=
       <["snare" := set_children
                      [Heading "Snare";
                       SlotChild (new_slotDiv "snare" 0
                                    (slot_of (Some "snare/01.wav") (Some "rim.wav")
                                       (Some 1024)))] blank]> opz_page;
     Manager.currentDevice := "opz";
     Manager.opzStorageUsed := JsNumber.of_Z 7;
     Manager.OPZ_TOTAL_STORAGE := JsNumber.of_Z 24000;
     Manager.opzNumSamples := 3; Manager.op1Data := None |}.

(** *** Polling for the mount path *)

(** What the record shows as logged to the console under [label], in order. *)
Definition logged (label : string) (h : list event) : list string :=
  List.flat_map (fun e => match e with
                          | ConsoleError l detail => if String.eqb l label then [detail] else []
                          | _ => []
                          end) h.

(** ** Proofs *)

(** *** The record of a computation *)

Ltac unfold_async :=
  unfold run, trace, final, result, bind, try_catch, ret, throw, get, put, modify, lift,
    alert, console_error, console_warn, sleep, emit, fetch, confirm in *.

Section Emits.
Context {S : Type} (P : event -> Prop).

Lemma emits_silent {A} (m : M S A) :
  (forall env s h, snd (fst (m env s h)) = h) -> emits P m.
Proof.
  intros H env s h. exists []. rewrite H, List.app_nil_r. split; [reflexivity | constructor].
Qed.

Lemma emits_ret {A} (a : A) : emits P (ret (S := S) a).
Proof. now apply emits_silent. Qed.

Lemma emits_throw {A} e : emits P (throw (S := S) (A := A) e).
Proof. now apply emits_silent. Qed.

Lemma emits_lift {A} (o : outcome A) : emits P (lift (S := S) o).
Proof. now apply emits_silent. Qed.

Lemma emits_get : emits P (get (S := S)).
Proof. now apply emits_silent. Qed.

Lemma emits_put s : emits P (put (S := S) s).
Proof. now apply emits_silent. Qed.

Lemma emits_modify f : emits P (modify (S := S) f).
Proof. now apply emits_silent. Qed.

Lemma emits_emit e : P e -> emits P (emit (S := S) e).
Proof. intros He env s h. exists [e]. split; [reflexivity | now constructor]. Qed.

Lemma emits_fetch sh r : P (Fetched r) -> emits P (fetch (S := S) sh r).
Proof. intros He env s h. exists [Fetched r]. split; [reflexivity | now constructor]. Qed.

Lemma emits_confirm msg : (forall b, P (Confirmed msg b)) -> emits P (confirm (S := S) msg).
Proof. intros He env s h. eexists [_]. split; [reflexivity | now constructor]. Qed.

Lemma emits_bind {A B} (m : M S A) (k : A -> M S B) :
  emits P m -> (forall a, emits P (k a)) -> emits P (bind m k).
Proof.
  intros Hm Hk env s h. unfold bind.
  destruct (Hm env s h) as (r & Hr & HP).
  destruct (m env s h) as [[s' h'] [a | e]]; cbn in *; subst h'.
  - destruct (Hk a env s' (h ++ r)%list) as (r' & Hr' & HP'). exists (r ++ r')%list.
    rewrite Hr', List.app_assoc. split; [reflexivity | now apply Forall_app].
  - now exists r.
Qed.

Lemma emits_try_catch {A} (m : M S A) (k : string -> M S A) :
  emits P m -> (forall e, emits P (k e)) -> emits P (try_catch m k).
Proof.
  intros Hm Hk env s h. unfold try_catch.
  destruct (Hm env s h) as (r & Hr & HP).
  destruct (m env s h) as [[s' h'] [a | e]]; cbn in *; subst h'.
  - now exists r.
  - destruct (Hk e env s' (h ++ r)%list) as (r' & Hr' & HP'). exists (r ++ r')%list.
    rewrite Hr', List.app_assoc. split; [reflexivity | now apply Forall_app].
Qed.

Lemma emits_forEach_from {A} (l : list A) (f : A -> nat -> M S unit) i :
  (forall x j, emits P (f x j)) -> emits P (forEach_from i l f).
Proof.
  intros Hf. revert i. induction l as [| x l IH]; intros i; cbn.
  - apply emits_ret.
  - apply emits_bind; [apply Hf | intros _; apply IH].
Qed.

Lemma emits_forEach {A} (l : list A) (f : A -> nat -> M S unit) :
  (forall x j, emits P (f x j)) -> emits P (forEach l f).
Proof. apply emits_forEach_from. Qed.

Lemma emits_settle (ms : list (M S unit)) :
  Forall (emits P) ms ->
  forall env s h, exists r, snd (fst (settle ms env s h)) = (h ++ r)%list /\ Forall P r.
Proof.
  induction 1 as [| m ms Hm _ IH]; intros env s h; cbn.
  - exists []. split; [now rewrite List.app_nil_r | constructor].
  - destruct (Hm env s h) as (r & Hr & HP).
    destruct (m env s h) as [[s' h'] o]; cbn in Hr; subst h'.
    destruct (IH env s' (h ++ r)%list) as (r' & Hr' & HP').
    destruct (settle ms env s' (h ++ r)%list) as [[s'' h''] rejections]; cbn in *; subst h''.
    exists (r ++ r')%list. rewrite List.app_assoc. split; [reflexivity | now apply Forall_app].
Qed.

Lemma emits_all (ms : list (M S unit)) :
  Forall (emits P) ms -> emits P (all ms).
Proof.
  intros Hms env s h. destruct (emits_settle ms Hms env s h) as (r & Hr & HP).
  exists r. split; [| exact HP]. unfold all.
  destruct (settle ms env s h) as [[s' h'] [| e es]]; exact Hr.
Qed.

End Emits.

Create HintDb emits discriminated.

Ltac emits_step :=
  first
    [ solve [auto with emits nocore]
    | apply emits_ret | apply emits_throw | apply emits_lift | apply emits_get
    | apply emits_put | apply emits_modify
    | apply emits_emit; reflexivity
    | apply emits_fetch; reflexivity
    | apply emits_confirm; reflexivity
    | apply emits_bind; [| intros ?]
    | apply emits_try_catch; [| intros ?]
    | apply emits_forEach; intros ? ?
    | match goal with
      | |- emits _ (if ?b then _ else _) => destruct b
      | |- emits _ (match ?x with _ => _ end) => destruct x
      end ].

Ltac emits_auto :=
  unfold alert, console_error, console_warn, sleep; repeat emits_step.

(** A function that begins with a request, inside a [try], shows the request
    first; what follows is what its continuation and its handler add. *)
Lemma try_fetch_asks {S A} P sh r (k : response sh -> M S A) handler env (s : S) h :
  (forall a, emits P (k a)) -> (forall e, emits P (handler e)) ->
  exists rest,
    snd (fst (try_catch (bind (fetch sh r) k) handler env s h)) = (h ++ Fetched r :: rest)%list
    /\ Forall P rest.
Proof.
  intros Hk Hh.
  assert (Hcons : forall l, ((h ++ [Fetched r]) ++ l = h ++ Fetched r :: l)%list).
  { intros l. now rewrite <- List.app_assoc. }
  unfold try_catch, bind, fetch.
  destruct (network env h sh r) as [a | e].
  - destruct (Hk a env s (h ++ [Fetched r])%list) as (r1 & H1 & HP1).
    destruct (k a env s (h ++ [Fetched r])%list) as [[s' h'] [b | e]]; cbn in H1; subst h'.
    + exists r1. cbn. split; [apply Hcons | exact HP1].
    + destruct (Hh e env s' ((h ++ [Fetched r]) ++ r1)%list) as (r2 & H2 & HP2).
      rewrite H2. exists (r1 ++ r2)%list. rewrite <- List.app_assoc.
      split; [apply Hcons | now apply Forall_app].
  - destruct (Hh e env s (h ++ [Fetched r])%list) as (r2 & H2 & HP2).
    rewrite H2. exists r2. split; [apply Hcons | exact HP2].
Qed.

(** A function that begins with a request and is not inside a [try]. *)
Lemma fetch_asks {S A} P sh r (k : response sh -> M S A) env (s : S) h :
  (forall a, emits P (k a)) ->
  exists rest,
    snd (fst (bind (fetch sh r) k env s h)) = (h ++ Fetched r :: rest)%list /\ Forall P rest.
Proof.
  intros Hk.
  assert (Hcons : forall l, ((h ++ [Fetched r]) ++ l = h ++ Fetched r :: l)%list).
  { intros l. now rewrite <- List.app_assoc. }
  unfold bind, fetch.
  destruct (network env h sh r) as [a | e].
  - destruct (Hk a env s (h ++ [Fetched r])%list) as (r1 & H1 & HP1).
    rewrite H1. exists r1. split; [apply Hcons | exact HP1].
  - exists []. split; [reflexivity | constructor].
Qed.

Lemma bind_modify {S B} (f : S -> S) (k : unit -> M S B) env s h :
  bind (modify f) k env s h = k tt env (f s) h.
Proof. reflexivity. Qed.

Lemma get_bind_run {S B} (k : S -> M S B) env (s : S) h :
  bind get k env s h = k s env s h.
Proof. reflexivity. Qed.


(** *** Refreshing the slots *)

(** [fetchOpzSamples] catches whatever its body throws. *)
Lemma Manager_fetchOpzSamples_returns env st h :
  snd (Manager.fetchOpzSamples env st h) = Returned tt.
Proof.
  unfold Manager.fetchOpzSamples, try_catch.
  match goal with |- context [match ?b with _ => _ end] => destruct b as [[s' h'] [[]|msg]] end;
    reflexivity.
Qed.

Lemma Legacy_fetchOpzSamples_returns env st h :
  snd (Legacy.fetchOpzSamples env st h) = Returned tt.
Proof.
  unfold Legacy.fetchOpzSamples, try_catch.
  match goal with |- context [match ?b with _ => _ end] => destruct b as [[s' h'] [[]|msg]] end;
    reflexivity.
Qed.

Lemma emits_Manager_call_updateStorageDisplay P device storage extraData :
  emits P (Manager.call_updateStorageDisplay device storage extraData).
Proof. unfold Manager.call_updateStorageDisplay. emits_auto. Qed.
#[local] Hint Resolve emits_Manager_call_updateStorageDisplay : emits.

Lemma emits_Manager_render_category P data category catIndex :
  emits P (Manager.render_category data category catIndex).
Proof. unfold Manager.render_category, Manager.render_slot. emits_auto. Qed.
#[local] Hint Resolve emits_Manager_render_category : emits.

Lemma emits_Manager_validation P :
  (forall a b c, emits P (Manager.show_validation_error a b c))
  /\ (forall a b, emits P (Manager.hide_validation_error a b)).
Proof.
  split; intros;
    unfold Manager.show_validation_error, Manager.hide_validation_error,
      Manager.hide_required, Manager.hide_if_present; emits_auto.
Qed.

Lemma Manager_fetchOpzSamples_asks env st h :
  exists rest,
    snd (fst (Manager.fetchOpzSamples env st h)) =
      (h ++ Fetched (read_samples "/read-samples") :: rest)%list
    /\ Forall no_request rest.
Proof.
  unfold Manager.fetchOpzSamples. apply try_fetch_asks.
  - intros a. destruct (emits_Manager_validation no_request) as [Hshow Hhide]. emits_auto.
  - intros e. emits_auto.
Qed.

Lemma emits_Legacy_updateStorageDisplay P : emits P Legacy.updateStorageDisplay.
Proof. unfold Legacy.updateStorageDisplay, Legacy.write_text. emits_auto. Qed.
#[local] Hint Resolve emits_Legacy_updateStorageDisplay : emits.

Lemma emits_Legacy_render_category P data category catIndex :
  emits P (Legacy.render_category data category catIndex).
Proof. unfold Legacy.render_category, Legacy.render_slot. emits_auto. Qed.
#[local] Hint Resolve emits_Legacy_render_category : emits.

Lemma Legacy_fetchOpzSamples_asks env st h :
  exists rest,
    snd (fst (Legacy.fetchOpzSamples env st h)) =
      (h ++ Fetched (read_samples "http://localhost:5000/read-samples") :: rest)%list
    /\ Forall no_request rest.
Proof.
  unfold Legacy.fetchOpzSamples. apply try_fetch_asks.
  - intros a. emits_auto.
  - intros e. emits_auto.
Qed.

(** *** Counting the samples *)

(** The test [fetchOpzSamples] makes before counting a slot. *)
Lemma counted_spec slot :
  counted slot = true <->
  exists f, filename slot = Some f /\ f <> "(empty)" /\ startsWith f "~" = false.
Proof.
  unfold counted. destruct (filename slot) as [f |].
  - rewrite andb_true_iff, !negb_true_iff. split.
    + intros [Hne Hpre]. exists f. repeat split; [| exact Hpre].
      now apply String.eqb_neq.
    + intros (f' & Hf & Hne & Hpre). injection Hf as <-. split; [| exact Hpre].
      now apply String.eqb_neq.
  - split; [discriminate | intros (f & Hf & _); discriminate].
Qed.

Lemma Manager_render_slot_counts env data category slot slotIndex st h :
  Manager.opzNumSamples (fst (fst (Manager.render_slot data category slot slotIndex env st h))) =
    Manager.opzNumSamples st + (if counted slot then 1 else 0).
Proof.
  unfold Manager.render_slot, Manager.call_updateStorageDisplay.
  unfold bind, modify, get, ret, throw.
  destruct (counted slot); destruct (opz_storage data); cbn; lia.
Qed.

Lemma Legacy_write_text_keeps id s env st h :
  Legacy.numSamples (fst (fst (Legacy.write_text id s env st h))) = Legacy.numSamples st
  /\ Legacy.storageUsed (fst (fst (Legacy.write_text id s env st h))) = Legacy.storageUsed st.
Proof.
  unfold Legacy.write_text, bind, get, modify, throw.
  destruct (Legacy.elements st !! id); split; reflexivity.
Qed.

Lemma Legacy_updateStorageDisplay_keeps env st h :
  Legacy.numSamples (fst (fst (Legacy.updateStorageDisplay env st h))) = Legacy.numSamples st.
Proof.
  unfold Legacy.updateStorageDisplay.
  unfold bind at 1, get at 1.
  repeat match goal with
  | |- context [bind (Legacy.write_text ?id ?s) ?k ?env ?st0 ?h0] =>
      let H := fresh "H" in
      destruct (Legacy_write_text_keeps id s env st0 h0) as [H _];
      unfold bind at 1;
      destruct (Legacy.write_text id s env st0 h0) as [[? ?] [[] | ?]]; cbn [fst snd] in H |- *;
      [rewrite <- H; clear H | exact H]
  end.
  apply (Legacy_write_text_keeps _ _ env _ _).
Qed.

Lemma Legacy_render_slot_counts env category slot slotIndex st h :
  Legacy.numSamples (fst (fst (Legacy.render_slot category slot slotIndex env st h))) =
    Legacy.numSamples st + (if counted slot then 1 else 0).
Proof.
  unfold Legacy.render_slot.
  set (m1 := if counted slot then modify _ else ret tt).
  set (m2 := match filesize slot with Some _ => _ | None => _ end).
  assert (H1 : forall h0, exists st1,
            m1 env st h0 = (st1, h0, Returned tt)
            /\ Legacy.numSamples st1 = Legacy.numSamples st + (if counted slot then 1 else 0)).
  { intros h0. subst m1. destruct (counted slot); eexists; split; try reflexivity; cbn; lia. }
  assert (H2 : forall st1 h0, exists st2,
            m2 env st1 h0 = (st2, h0, Returned tt)
            /\ Legacy.numSamples st2 = Legacy.numSamples st1).
  { intros st1 h0. subst m2. destruct (filesize slot) as [b |];
      [destruct (JsNumber.truthy b) |]; eexists; split; reflexivity. }
  destruct (H1 h) as (st1 & E1 & N1). unfold bind at 1. rewrite E1.
  destruct (H2 st1 h) as (st2 & E2 & N2). unfold bind at 1. rewrite E2.
  pose proof (Legacy_updateStorageDisplay_keeps env st2 h) as N3.
  unfold bind at 1.
  destruct (Legacy.updateStorageDisplay env st2 h) as [[st3 h3] [[] | e]]; cbn [fst snd] in *;
    cbn; lia.
Qed.

(** C1, on the code: a slot is counted exactly when its file name is a
    string, is not ["(empty)"] and does not start with a tilde, whatever else
    happens while the slot is shown; so a slot whose file name is the empty
    string is counted, by both versions, while its label reads ["(empty)"]. *)
Theorem C1_empty_filename_is_counted :
  (forall slot,
     counted slot = true <->
     exists f, filename slot = Some f /\ f <> "(empty)" /\ startsWith f "~" = false)
  /\ (forall env data category slot slotIndex st h,
        Manager.opzNumSamples
          (fst (fst (Manager.render_slot data category slot slotIndex env st h))) =
          Manager.opzNumSamples st + (if counted slot then 1 else 0))
  /\ (forall env category slot slotIndex st h,
        Legacy.numSamples (fst (fst (Legacy.render_slot category slot slotIndex env st h))) =
          Legacy.numSamples st + (if counted slot then 1 else 0))
  /\ counted nameless_slot = true
  /\ label 0 nameless_slot = "Slot 1: (empty)"
  /\ Manager.opzNumSamples
       (final (run Manager.fetchOpzSamples (backend true nameless_snapshot) opz_state)) = 1
  /\ Legacy.numSamples
       (final (run Legacy.fetchOpzSamples (backend true nameless_snapshot) legacy_state)) = 1.
Proof.
  split; [exact counted_spec |].
  split; [exact Manager_render_slot_counts |].
  split; [exact Legacy_render_slot_counts |].
  vm_compute. repeat split; reflexivity.
Qed.

(** *** Numbers *)






(** *** The storage display *)

Lemma class_add_In c l : In c (class_add c l).
Proof.
  unfold class_add. destruct (existsb (String.eqb c) l) eqn:E.
  - apply existsb_exists in E. destruct E as (x & Hx & Heq).
    apply String.eqb_eq in Heq. now subst x.
  - apply in_or_app. right. now left.
Qed.


(** *** Decimal numerals *)

Lemma string_append_assoc (a b c : string) : (a ++ b) ++ c = a ++ b ++ c.
Proof.
  induction a as [| x a IH]; [reflexivity |].
  change (String x ((a ++ b) ++ c) = String x (a ++ b ++ c)). now rewrite IH.
Qed.


Lemma revapp_not_Nil a b : b <> Decimal.Nil -> Decimal.revapp a b <> Decimal.Nil.
Proof.
  revert b. induction a; intros b Hb; cbn [Decimal.revapp]; try exact Hb;
    apply IHa; discriminate.
Qed.



















(** 84.96 percent is shown as 85.0 and painted high; 60 of 100 is shown as
    60.0 and painted medium. *)
Lemma percent_examples :
  let s1 := {| used := JsNumber.of_Z 8496; total := JsNumber.of_Z 10000 |} in
  let s2 := {| used := JsNumber.of_Z 60; total := JsNumber.of_Z 100 |} in
  let s3 := {| used := JsNumber.of_Z 3; total := JsNumber.of_Z 2000 |} in
  (Manager.percent s1 = "85.0" /\ Manager.colorClass s1 = "storage-high")
  /\ (Manager.percent s2 = "60.0" /\ Manager.colorClass s2 = "storage-medium")
  /\ (Manager.percent s3 = "0.1" /\ Manager.colorClass s3 = "storage-low").
Proof. vm_compute. repeat split; reflexivity. Qed.

(** C3 as stated fails: with a total of zero nothing guards the division; the
    label reads NaN for nothing used and Infinity otherwise, never 0. *)
Lemma C3_zero_total_shows_NaN :
  let nothing := {| used := JsNumber.of_Z 0; total := JsNumber.of_Z 0 |} in
  let something := {| used := JsNumber.of_Z 5; total := JsNumber.of_Z 0 |} in
  Manager.percent nothing = "NaN"
  /\ Manager.percent something = "Infinity"
  /\ textContent <$>
       (Manager.updateStorageDisplay "opz" nothing
          {| Manager.extra_counts := None; Manager.extra_numSamples := Some 0 |} opz_page
          !! "opz-storage-bar-label") = Some "Storage: NaN%"
  /\ width <$>
       (Manager.updateStorageDisplay "opz" something
          {| Manager.extra_counts := None; Manager.extra_numSamples := Some 0 |} opz_page
          !! "opz-storage-bar-fill") = Some "Infinity%".
Proof. vm_compute. repeat split; reflexivity. Qed.

(** C3, amended: [updateStorageDisplay] divides without a guard.  With a total
    of zero the percent reads NaN when [used] is zero or NaN, and Infinity
    with the sign of the quotient otherwise; the class is then low for NaN
    and -Infinity and high for Infinity.  The first version of the display
    always divides by 32000. *)
Theorem C3_zero_total_is_not_guarded :
  forall (u : number) (negative_zero : bool),
    let storage := {| used := u; total := S754_zero negative_zero |} in
    Manager.percent storage =
      match u with
      | S754_zero _ | S754_nan => "NaN"
      | S754_infinity s | S754_finite s _ _ =>
          if xorb s negative_zero then "-Infinity" else "Infinity"
      end
    /\ Manager.colorClass storage =
         match u with
         | S754_zero _ | S754_nan => "storage-low"
         | S754_infinity s | S754_finite s _ _ =>
             if xorb s negative_zero then "storage-low" else "storage-high"
         end
    /\ Legacy.TOTAL_STORAGE = JsNumber.of_Z 32000
    /\ JsNumber.truthy Legacy.TOTAL_STORAGE = true.
Proof.
  intros u negative_zero storage. subst storage.
  destruct u as [s | s | | s m e]; destruct negative_zero; try destruct s;
    vm_compute; repeat split; reflexivity.
Qed.

(** *** Drops on a slot *)

Lemma no_source_path_falsy d :
  no_source_path d -> JsString.truthy (or_else (from_path d) EmptyString) = false.
Proof. intros [H | H]; rewrite H; reflexivity. Qed.

Lemma Manager_slot_drop_same env st category slotIndex e d :
  text_plain e = Json d ->
  no_source_path d \/ same_slot d category slotIndex ->
  run (Manager.slot_drop category slotIndex e) env st =
    (Manager.with_elements (alter (unhover category slotIndex) category) st, [], Returned tt).
Proof.
  intros Htext Hsame.
  unfold Manager.slot_drop. unfold_async.
  destruct (0 <? length (files e))%nat; [reflexivity|].
  rewrite Htext.
  destruct Hsame as [Hno | [Hc Hs]].
  - rewrite (no_source_path_falsy _ Hno). reflexivity.
  - rewrite Hc, Hs, String.eqb_refl, Nat.eqb_refl, orb_true_r. reflexivity.
Qed.

Lemma Legacy_slot_drop_same env st category slotIndex e d :
  text_plain e = Json d ->
  no_source_path d \/ same_slot d category slotIndex ->
  run (Legacy.slot_drop category slotIndex e) env st =
    (Legacy.with_elements (alter (unhover category slotIndex) category) st, [], Returned tt).
Proof.
  intros Htext Hsame.
  unfold Legacy.slot_drop. unfold_async.
  destruct (0 <? length (files e))%nat; [reflexivity|].
  rewrite Htext.
  destruct Hsame as [Hno | [Hc Hs]].
  - rewrite (no_source_path_falsy _ Hno). reflexivity.
  - rewrite Hc, Hs, String.eqb_refl, Nat.eqb_refl, orb_true_r. reflexivity.
Qed.

Lemma truthy_nonempty p : p <> EmptyString -> JsString.truthy p = true.
Proof. destruct p; [congruence | reflexivity]. Qed.

Lemma or_else_nonempty p dflt : p <> EmptyString -> or_else (Some p) dflt = p.
Proof. intros H. unfold or_else. now rewrite (truthy_nonempty _ H). Qed.

Lemma not_same_slot d category slotIndex :
  ~ same_slot d category slotIndex ->
  String.eqb (from_category d) category && Nat.eqb (from_slot d) slotIndex = false.
Proof.
  intros H. apply andb_false_iff.
  destruct (String.eqb_spec (from_category d) category) as [Hc | Hc]; [| now left].
  right. apply Nat.eqb_neq. intros Hs. apply H. now split.
Qed.

Lemma Manager_slot_drop_moves env st category slotIndex e d p :
  files e = [] -> text_plain e = Json d ->
  from_path d = Some p -> p <> EmptyString ->
  ~ same_slot d category slotIndex ->
  let st' := Manager.with_elements (alter (unhover category slotIndex) category) st in
  let request := move_request "/move-sample" p category slotIndex in
  run (Manager.slot_drop category slotIndex e) env st =
    match network env [] ShNone request with
    | Returned response =>
        if ok response then Manager.fetchOpzSamples env st' [Fetched request]
        else (st', move_failed "/move-sample" p category slotIndex "Move failed", Returned tt)
    | Thrown msg => (st', move_failed "/move-sample" p category slotIndex msg, Returned tt)
    end.
Proof.
  intros Hfiles Htext Hpath Hp Hdiff st' request.
  unfold Manager.slot_drop. unfold_async.
  rewrite Hfiles, Htext, Hpath, (or_else_nonempty _ _ Hp). cbn [length Nat.ltb Nat.leb].
  rewrite (truthy_nonempty _ Hp), (not_same_slot _ _ _ Hdiff). cbn [negb orb app].
  fold (move_request "/move-sample" p category slotIndex). fold request. fold st'.
  destruct (network env [] ShNone request) as [response | msg]; [| reflexivity].
  destruct (ok response); cbn [negb]; [| reflexivity].
  pose proof (Manager_fetchOpzSamples_returns env st' [Fetched request]) as Hret.
  destruct (Manager.fetchOpzSamples env st' [Fetched request]) as [[s1 h1] o]; cbn in Hret.
  subst o. reflexivity.
Qed.

Lemma Legacy_slot_drop_moves env st category slotIndex e d p :
  files e = [] -> text_plain e = Json d ->
  from_path d = Some p -> p <> EmptyString ->
  ~ same_slot d category slotIndex ->
  let st' := Legacy.with_elements (alter (unhover category slotIndex) category) st in
  let request := move_request "http://localhost:5000/move-sample" p category slotIndex in
  run (Legacy.slot_drop category slotIndex e) env st =
    match network env [] ShNone request with
    | Returned response =>
        if ok response then Legacy.fetchOpzSamples env st' [Fetched request]
        else (st', move_failed "http://localhost:5000/move-sample" p category slotIndex
                     "Move failed", Returned tt)
    | Thrown msg =>
        (st', move_failed "http://localhost:5000/move-sample" p category slotIndex msg,
         Returned tt)
    end.
Proof.
  intros Hfiles Htext Hpath Hp Hdiff st' request.
  unfold Legacy.slot_drop. unfold_async.
  rewrite Hfiles, Htext, Hpath, (or_else_nonempty _ _ Hp). cbn [length Nat.ltb Nat.leb].
  rewrite (truthy_nonempty _ Hp), (not_same_slot _ _ _ Hdiff). cbn [negb orb app].
  fold (move_request "http://localhost:5000/move-sample" p category slotIndex).
  fold request. fold st'.
  destruct (network env [] ShNone request) as [response | msg]; [| reflexivity].
  destruct (ok response); cbn [negb]; [| reflexivity].
  pose proof (Legacy_fetchOpzSamples_returns env st' [Fetched request]) as Hret.
  destruct (Legacy.fetchOpzSamples env st' [Fetched request]) as [[s1 h1] o]; cbn in Hret.
  subst o. reflexivity.
Qed.

(** C4 as stated fails: when the backend refuses the move, the drop on slot 1
    sends the move request and nothing else; no snapshot is fetched. *)
Lemma C4_refused_move_is_not_refreshed :
  let r := run (Manager.slot_drop "kick" 0 dragged_snare) (backend false kick_snapshot) opz_state in
  let r' := run (Legacy.slot_drop "kick" 0 dragged_snare) (backend false kick_snapshot) legacy_state in
  (List.length (requests_to "/move-sample" (trace r)) = 1%nat /\
   requests_to "/read-samples" (trace r) = [] /\
   List.Exists (eq (Alerted "Could not move sample.")) (trace r)) /\
  (List.length (requests_to "http://localhost:5000/move-sample" (trace r')) = 1%nat /\
   requests_to "http://localhost:5000/read-samples" (trace r') = []).
Proof.
  vm_compute. repeat split; try reflexivity.
  apply Exists_cons_tl, Exists_cons_tl, Exists_cons_hd. reflexivity.
Qed.

(** C4, amended: a drop of a sample of the page on another slot sends the move
    request; when the backend accepts it, [fetchOpzSamples] runs next and
    starts by fetching the snapshot; when the request fails or is refused, the
    failure is logged, an alert is shown, and nothing else happens. *)
Theorem C4_move_then_refresh_on_success :
  forall env category slotIndex e d p,
    files e = [] -> text_plain e = Json d ->
    from_path d = Some p -> p <> EmptyString ->
    ~ same_slot d category slotIndex ->
    (forall st,
       let st' := Manager.with_elements (alter (unhover category slotIndex) category) st in
       let request := move_request "/move-sample" p category slotIndex in
       match network env [] ShNone request with
       | Returned response =>
           if ok response
           then run (Manager.slot_drop category slotIndex e) env st =
                  Manager.fetchOpzSamples env st' [Fetched request]
                /\ exists rest,
                     trace (run (Manager.slot_drop category slotIndex e) env st) =
                       Fetched request :: Fetched (read_samples "/read-samples") :: rest
                     /\ Forall no_request rest
           else run (Manager.slot_drop category slotIndex e) env st =
                  (st', move_failed "/move-sample" p category slotIndex "Move failed",
                   Returned tt)
       | Thrown msg =>
           run (Manager.slot_drop category slotIndex e) env st =
             (st', move_failed "/move-sample" p category slotIndex msg, Returned tt)
       end)
    /\
    (forall st,
       let st' := Legacy.with_elements (alter (unhover category slotIndex) category) st in
       let request := move_request "http://localhost:5000/move-sample" p category slotIndex in
       match network env [] ShNone request with
       | Returned response =>
           if ok response
           then run (Legacy.slot_drop category slotIndex e) env st =
                  Legacy.fetchOpzSamples env st' [Fetched request]
                /\ exists rest,
                     trace (run (Legacy.slot_drop category slotIndex e) env st) =
                       Fetched request
                       :: Fetched (read_samples "http://localhost:5000/read-samples") :: rest
                     /\ Forall no_request rest
           else run (Legacy.slot_drop category slotIndex e) env st =
                  (st', move_failed "http://localhost:5000/move-sample" p category slotIndex
                          "Move failed", Returned tt)
       | Thrown msg =>
           run (Legacy.slot_drop category slotIndex e) env st =
             (st', move_failed "http://localhost:5000/move-sample" p category slotIndex msg,
              Returned tt)
       end).
Proof.
  intros env category slotIndex e d p Hfiles Htext Hpath Hp Hdiff. split; intros st st' request.
  - pose proof (Manager_slot_drop_moves env st category slotIndex e d p
                  Hfiles Htext Hpath Hp Hdiff) as H.
    cbv zeta in H. fold st' request in H.
    destruct (network env [] ShNone request) as [response | msg]; [| exact H].
    destruct (ok response); [| exact H].
    split; [exact H |].
    rewrite H. exact (Manager_fetchOpzSamples_asks env st' [Fetched request]).
  - pose proof (Legacy_slot_drop_moves env st category slotIndex e d p
                  Hfiles Htext Hpath Hp Hdiff) as H.
    cbv zeta in H. fold st' request in H.
    destruct (network env [] ShNone request) as [response | msg]; [| exact H].
    destruct (ok response); [| exact H].
    split; [exact H |].
    rewrite H. exact (Legacy_fetchOpzSamples_asks env st' [Fetched request]).
Qed.

(** Dropping the dragged sample on the first slot of a backend that accepts
    the move: the move request, then the snapshot request. *)
Lemma C4_move_then_refresh_witness :
  trace (run (Manager.slot_drop "kick" 0 dragged_snare) (backend true kick_snapshot) opz_state) =
    [Fetched (move_request "/move-sample" "kick/02.wav" "kick" 0);
     Fetched (read_samples "/read-samples")]
  /\ Manager.opzNumSamples
       (final (run (Manager.slot_drop "kick" 0 dragged_snare) (backend true kick_snapshot)
                 opz_state)) = 1.
Proof.
  destruct (C4_move_then_refresh_on_success (backend true kick_snapshot) "kick" 0%nat
              dragged_snare
              {| from_category := "kick"; from_slot := 1; from_path := Some "kick/02.wav" |}
              "kick/02.wav" eq_refl eq_refl eq_refl
              ltac:(discriminate) ltac:(intros [_ H]; discriminate H)) as [HM _].
  assert (E : run (Manager.slot_drop "kick" 0 dragged_snare) (backend true kick_snapshot)
                opz_state =
              Manager.fetchOpzSamples (backend true kick_snapshot)
                (Manager.with_elements (alter (unhover "kick" 0) "kick") opz_state)
                [Fetched (move_request "/move-sample" "kick/02.wav" "kick" 0)])
    by exact (proj1 (HM opz_state)).
  rewrite E. vm_compute. split; reflexivity.
Defined.

(** C5: a drop whose payload names the slot it lands on, or no source path,
    asks nothing of the backend and fetches no snapshot: the record of the
    handler stays empty and only the hover class of the slot is cleared. *)
Theorem C5_drop_on_source_slot_is_silent :
  forall env category slotIndex e d,
    text_plain e = Json d ->
    no_source_path d \/ same_slot d category slotIndex ->
    (forall st,
       run (Manager.slot_drop category slotIndex e) env st =
         (Manager.with_elements (alter (unhover category slotIndex) category) st, [],
          Returned tt))
    /\
    (forall st,
       run (Legacy.slot_drop category slotIndex e) env st =
         (Legacy.with_elements (alter (unhover category slotIndex) category) st, [],
          Returned tt)).
Proof.
  intros env category slotIndex e d Htext Hsame. split; intros st.
  - now apply Manager_slot_drop_same with (d := d).
  - now apply Legacy_slot_drop_same with (d := d).
Qed.

(** Dropping the dragged sample back on its own slot. *)
Lemma C5_drop_on_source_slot_witness :
  trace (run (Manager.slot_drop "kick" 1 dragged_snare) (backend true kick_snapshot) opz_state) = []
  /\ trace (run (Legacy.slot_drop "kick" 1 dragged_snare) (backend true kick_snapshot) legacy_state) = [].
Proof.
  destruct (C5_drop_on_source_slot_is_silent (backend true kick_snapshot) "kick" 1%nat
              dragged_snare
              {| from_category := "kick"; from_slot := 1; from_path := Some "kick/02.wav" |}
              eq_refl (or_intror (conj eq_refl eq_refl))) as [HM HL].
  split; [rewrite HM | rewrite HL]; reflexivity.
Defined.

(** *** Sorting the folders *)

Section Sorting.
Variable compare : string -> string -> Z.





End Sorting.

Section Folders.
Variable localeCompare : string -> string -> Z.







End Folders.


(** A change of an element that keeps one of its properties. *)
Lemma lookup_alter_proj {A} (proj : element -> A) f id (doc : gmap string element) id' :
  (forall e, proj (f e) = proj e) ->
  proj <$> (alter f id doc !! id') = proj <$> (doc !! id').
Proof.
  intros Hf. destruct (decide (id = id')) as [<- | Hne].
  - rewrite lookup_alter_eq. destruct (doc !! id); cbn; [now rewrite Hf | reflexivity].
  - now rewrite lookup_alter_ne.
Qed.





(** *** Dropping a folder *)

Lemma emits_Manager_fetchOp1_body P localeCompare (response : response ShOp1) :
  emits P
    (if negb (ok response)
     then throw ("Network response was not ok: " ++ statusText response)
     else
       bind (lift (json response)) (fun data =>
       bind (modify (Manager.with_op1Data data)) (fun _ =>
         if JsString.truthy (or_else (op1_validation_error data) EmptyString)
         then Manager.show_validation_error (or_else (op1_validation_error data) EmptyString)
                "op1-storage-info" "op1-file-list"
         else
           bind (Manager.hide_validation_error "op1-storage-info" "op1-file-list") (fun _ =>
           bind (modify (Manager.with_elements
                           (Manager.renderOp1Section localeCompare "drum" (drum data)))) (fun _ =>
           bind (modify (Manager.with_elements
                           (Manager.renderOp1Section localeCompare "synth" (synth data))))
                (fun _ =>
           Manager.call_updateStorageDisplay "op1" (op1_storage data)
             {| Manager.extra_counts := counts data;
                Manager.extra_numSamples := None |})))))).
Proof.
  destruct (emits_Manager_validation P) as [Hshow Hhide]. emits_auto.
Qed.

Lemma Manager_fetchOp1Samples_asks localeCompare env st h :
  exists rest,
    snd (fst (Manager.fetchOp1Samples localeCompare env st h)) =
      (h ++ Fetched (read_samples "/read-op1-samples") :: rest)%list
    /\ Forall no_request rest.
Proof.
  unfold Manager.fetchOp1Samples. apply try_fetch_asks.
  - intros a. apply emits_Manager_fetchOp1_body.
  - intros e. emits_auto.
Qed.











(** *** Deleting a sample *)

(** C8: [deleteSample] opens the confirmation dialog before anything else.
    On a refusal nothing more happens: no request, the page as it was.  On an
    agreement the delete request is sent; if it fails (rejected, or answered
    with an error status) the failure is logged and shown and the callback
    does not run; if it succeeds the callback runs next, under the same
    [catch]. *)
Theorem C8_delete_confirms_then_refreshes :
  forall env device path refreshCallback st,
    let asked := Confirmed (delete_question path) (dialog env [] (delete_question path)) in
    run (Manager.deleteSample device path refreshCallback) env st =
      if dialog env [] (delete_question path)
      then match delete_failure (network env [asked] ShError (delete_request path device)) with
           | Some msg =>
               (st, asked :: Fetched (delete_request path device) :: delete_failed msg,
                Returned tt)
           | None =>
               match refreshCallback with
               | Some callback =>
                   try_catch callback delete_handler env st
                     [asked; Fetched (delete_request path device)]
               | None => (st, [asked; Fetched (delete_request path device)], Returned tt)
               end
           end
      else (st, [asked], Returned tt).
Proof.
  intros env device path refreshCallback st asked.
  unfold Manager.deleteSample, run, bind, confirm, try_catch, fetch, ret, throw, lift.
  fold (delete_question path). fold (delete_request path device).
  cbn [app]. fold asked.
  destruct (dialog env [] (delete_question path)) eqn:Hd; cbn [negb]; [| reflexivity].
  unfold delete_failure.
  destruct (network env [asked] ShError (delete_request path device)) as [response | msg];
    [| reflexivity].
  destruct (ok response); cbn [negb].
  - destruct refreshCallback as [callback |]; reflexivity.
  - destruct (json response) as [data | msg]; reflexivity.
Qed.

(** *** Waiting for the device *)

Lemma waiting_next k delay :
  waiting (Datatypes.S k) delay = (waiting k delay ++ [Fetched mount_query; Waited delay])%list.
Proof. reflexivity. Qed.

Lemma Legacy_poll_exhausts env st delay left :
  forall k,
    (forall i, (i < left)%nat -> observed env (waiting (k + i) delay) = Some false) ->
    Legacy.poll left delay env st (waiting k delay) =
      (st, (waiting (k + left) delay ++ [mount_warning])%list, Returned tt).
Proof.
  induction left as [| left IH]; intros k Hobs.
  - rewrite Nat.add_0_r. reflexivity.
  - specialize (Hobs 0%nat ltac:(lia)) as H0. rewrite Nat.add_0_r in H0.
    unfold observed in H0. cbn [Legacy.poll].
    unfold bind at 1. unfold try_catch at 1. unfold bind at 1. unfold fetch at 1.
    fold mount_query.
    destruct (network env (waiting k delay) ShConfig mount_query) as [res |]; [| discriminate].
    unfold bind at 1, lift at 1.
    destruct (json res) as [data |]; [| discriminate].
    injection H0 as H0. rewrite H0. unfold ret at 1. cbn beta iota.
    unfold bind at 1, sleep at 1, emit at 1.
    rewrite <- List.app_assoc. cbn [app]. rewrite <- waiting_next.
    rewrite (IH (Datatypes.S k)).
    + now rewrite Nat.add_succ_r.
    + intros i Hi. specialize (Hobs (Datatypes.S i) ltac:(lia)).
      now rewrite Nat.add_succ_r in Hobs.
Qed.

Lemma Legacy_poll_mounts env st delay n :
  forall left k,
    (n < left)%nat ->
    (forall i, (i < n)%nat -> observed env (waiting (k + i) delay) = Some false) ->
    observed env (waiting (k + n) delay) = Some true ->
    Legacy.poll left delay env st (waiting k delay) =
      Legacy.fetchOpzSamples env st (waiting (k + n) delay ++ [Fetched mount_query])%list.
Proof.
  induction n as [| n IH]; intros left k Hlt Hobs Hlast.
  - destruct left as [| left]; [lia |]. rewrite Nat.add_0_r in *.
    unfold observed in Hlast. cbn [Legacy.poll].
    unfold bind at 1. unfold try_catch at 1. unfold bind at 1. unfold fetch at 1.
    fold mount_query.
    destruct (network env (waiting k delay) ShConfig mount_query) as [res |]; [| discriminate].
    unfold bind at 1, lift at 1.
    destruct (json res) as [data |]; [| discriminate].
    injection Hlast as Hlast. rewrite Hlast. unfold bind at 1.
    pose proof (Legacy_fetchOpzSamples_returns env st
                  (waiting k delay ++ [Fetched mount_query])%list) as Hret.
    destruct (Legacy.fetchOpzSamples env st (waiting k delay ++ [Fetched mount_query])%list)
      as [[s1 h1] o]; cbn in Hret; subst o. reflexivity.
  - destruct left as [| left]; [lia |].
    specialize (Hobs 0%nat ltac:(lia)) as H0. rewrite Nat.add_0_r in H0.
    unfold observed in H0. cbn [Legacy.poll].
    unfold bind at 1. unfold try_catch at 1. unfold bind at 1. unfold fetch at 1.
    fold mount_query.
    destruct (network env (waiting k delay) ShConfig mount_query) as [res |]; [| discriminate].
    unfold bind at 1, lift at 1.
    destruct (json res) as [data |]; [| discriminate].
    injection H0 as H0. rewrite H0. unfold ret at 1. cbn beta iota.
    unfold bind at 1, sleep at 1, emit at 1.
    rewrite <- List.app_assoc. cbn [app]. rewrite <- waiting_next.
    rewrite (IH left (Datatypes.S k)).
    + now rewrite Nat.add_succ_r.
    + lia.
    + intros i Hi. specialize (Hobs (Datatypes.S i) ltac:(lia)).
      now rewrite Nat.add_succ_r in Hobs.
    + now rewrite Nat.add_succ_r in Hlast.
Qed.

Lemma ConfigEditor_poll_exhausts env st delay left :
  forall k,
    (forall i, (i < left)%nat -> observed env (waiting (k + i) delay) = Some false) ->
    ConfigEditor.poll left delay env st (waiting k delay) =
      (st, (waiting (k + left) delay ++ [mount_warning])%list, Returned tt).
Proof.
  induction left as [| left IH]; intros k Hobs.
  - rewrite Nat.add_0_r. reflexivity.
  - specialize (Hobs 0%nat ltac:(lia)) as H0. rewrite Nat.add_0_r in H0.
    unfold observed in H0. cbn [ConfigEditor.poll].
    unfold bind at 1. unfold try_catch at 1. unfold bind at 1. unfold fetch at 1.
    fold mount_query.
    destruct (network env (waiting k delay) ShConfig mount_query) as [res |]; [| discriminate].
    unfold bind at 1, lift at 1.
    destruct (json res) as [data |]; [| discriminate].
    injection H0 as H0. rewrite H0. unfold ret at 1. cbn beta iota.
    unfold bind at 1, sleep at 1, emit at 1.
    rewrite <- List.app_assoc. cbn [app]. rewrite <- waiting_next.
    rewrite (IH (Datatypes.S k)).
    + now rewrite Nat.add_succ_r.
    + intros i Hi. specialize (Hobs (Datatypes.S i) ltac:(lia)).
      now rewrite Nat.add_succ_r in Hobs.
Qed.

Lemma ConfigEditor_poll_mounts env st delay n :
  forall left k,
    (n < left)%nat ->
    (forall i, (i < n)%nat -> observed env (waiting (k + i) delay) = Some false) ->
    observed env (waiting (k + n) delay) = Some true ->
    snd (ConfigEditor.loadAllConfigs env st (waiting (k + n) delay ++ [Fetched mount_query])%list)
      = Returned tt ->
    ConfigEditor.poll left delay env st (waiting k delay) =
      ConfigEditor.loadAllConfigs env st (waiting (k + n) delay ++ [Fetched mount_query])%list.
Proof.
  induction n as [| n IH]; intros left k Hlt Hobs Hlast Hret.
  - destruct left as [| left]; [lia |]. rewrite Nat.add_0_r in *.
    unfold observed in Hlast. cbn [ConfigEditor.poll].
    unfold bind at 1. unfold try_catch at 1. unfold bind at 1. unfold fetch at 1.
    fold mount_query.
    destruct (network env (waiting k delay) ShConfig mount_query) as [res |]; [| discriminate].
    unfold bind at 1, lift at 1.
    destruct (json res) as [data |]; [| discriminate].
    injection Hlast as Hlast. rewrite Hlast. unfold bind at 1.
    destruct (ConfigEditor.loadAllConfigs env st (waiting k delay ++ [Fetched mount_query])%list)
      as [[s1 h1] o]; cbn in Hret; subst o. reflexivity.
  - destruct left as [| left]; [lia |].
    specialize (Hobs 0%nat ltac:(lia)) as H0. rewrite Nat.add_0_r in H0.
    unfold observed in H0. cbn [ConfigEditor.poll].
    unfold bind at 1. unfold try_catch at 1. unfold bind at 1. unfold fetch at 1.
    fold mount_query.
    destruct (network env (waiting k delay) ShConfig mount_query) as [res |]; [| discriminate].
    unfold bind at 1, lift at 1.
    destruct (json res) as [data |]; [| discriminate].
    injection H0 as H0. rewrite H0. unfold ret at 1. cbn beta iota.
    unfold bind at 1, sleep at 1, emit at 1.
    rewrite <- List.app_assoc. cbn [app]. rewrite <- waiting_next.
    rewrite (IH left (Datatypes.S k)).
    + now rewrite Nat.add_succ_r.
    + lia.
    + intros i Hi. specialize (Hobs (Datatypes.S i) ltac:(lia)).
      now rewrite Nat.add_succ_r in Hobs.
    + now rewrite Nat.add_succ_r in Hlast.
    + now rewrite Nat.add_succ_r in Hret.
Qed.

Lemma emits_buildConfigForm P config form : emits P (ConfigEditor.buildConfigForm config form).
Proof. unfold ConfigEditor.buildConfigForm. emits_auto. Qed.
#[local] Hint Resolve emits_buildConfigForm : emits.

Lemma emits_write_textarea P s : emits P (ConfigEditor.write_textarea s).
Proof. unfold ConfigEditor.write_textarea. emits_auto. Qed.
#[local] Hint Resolve emits_write_textarea : emits.

(** [loadAllConfigs] asks for the three configuration documents and for nothing
    else. *)
Lemma ConfigEditor_loadAllConfigs_asks env st h :
  exists r1 r2 r3,
    snd (fst (ConfigEditor.loadAllConfigs env st h)) =
      (h ++ Fetched (config_request "general") :: r1
         ++ Fetched (config_request "midi") :: r2
         ++ Fetched (config_request "dmx") :: r3)%list
    /\ Forall no_request (r1 ++ r2 ++ r3).
Proof.
  assert (Hall : forall (a b c : M ConfigEditor.state unit) env st h,
            snd (fst (all [a; b; c] env st h)) =
              snd (fst (c env (fst (fst (b env (fst (fst (a env st h))) (snd (fst (a env st h))))))
                         (snd (fst (b env (fst (fst (a env st h))) (snd (fst (a env st h))))))))).
  { intros a b c env0 st0 h0. unfold all. cbn [settle].
    destruct (a env0 st0 h0) as [[s1 h1] [[] | e1]]; cbn [fst snd];
      destruct (b env0 s1 h1) as [[s2 h2] [[] | e2]]; cbn [fst snd];
      destruct (c env0 s2 h2) as [[s3 h3] [[] | e3]]; reflexivity. }
  unfold ConfigEditor.loadAllConfigs. rewrite Hall.
  destruct (fetch_asks no_request ShForm (config_request "general")
              (fun res => bind (lift (json res))
                            (fun config => ConfigEditor.buildConfigForm config "general-form"))
              env st h) as (r1 & H1 & P1); [intros; emits_auto |].
  change (snd (fst (ConfigEditor.loadGeneralConfig env st h)) =
            (h ++ Fetched (config_request "general") :: r1)%list) in H1.
  set (s1 := fst (fst (ConfigEditor.loadGeneralConfig env st h))).
  rewrite H1.
  destruct (fetch_asks no_request ShForm (config_request "midi")
              (fun res => bind (lift (json res))
                            (fun config => ConfigEditor.buildConfigForm config "midi-form"))
              env s1 (h ++ Fetched (config_request "general") :: r1)%list)
    as (r2 & H2 & P2); [intros; emits_auto |].
  change (snd (fst (ConfigEditor.loadMidiConfig env s1
                      (h ++ Fetched (config_request "general") :: r1)%list)) =
            ((h ++ Fetched (config_request "general") :: r1)
               ++ Fetched (config_request "midi") :: r2)%list) in H2.
  set (s2 := fst (fst (ConfigEditor.loadMidiConfig env s1
                         (h ++ Fetched (config_request "general") :: r1)%list))).
  rewrite H2.
  destruct (try_fetch_asks no_request ShDmx (config_request "dmx")
              (fun res => bind (lift (json res))
                            (fun data => ConfigEditor.write_textarea
                                           (or_else (content data) EmptyString)))
              (fun err => bind (console_error "Error loading DMX config:" err)
                            (fun _ => ConfigEditor.write_textarea "// Error loading DMX config"))
              env s2 ((h ++ Fetched (config_request "general") :: r1)
                        ++ Fetched (config_request "midi") :: r2)%list)
    as (r3 & H3 & P3); [intros; emits_auto | intros; emits_auto |].
  change (snd (fst (ConfigEditor.loadDmxConfig env s2
                      ((h ++ Fetched (config_request "general") :: r1)
                         ++ Fetched (config_request "midi") :: r2)%list)) =
            (((h ++ Fetched (config_request "general") :: r1)
                ++ Fetched (config_request "midi") :: r2)
               ++ Fetched (config_request "dmx") :: r3)%list) in H3.
  rewrite H3. exists r1, r2, r3. split.
  - rewrite <- !List.app_assoc. cbn [app]. rewrite <- ?List.app_assoc. reflexivity.
  - apply Forall_app. split; [exact P1 |]. apply Forall_app. split; assumption.
Qed.

(** C9: the device is mounted from the fourth attempt on.  The first script
    does what the claim says: it waits three times, asks a fourth time,
    fetches the snapshot once and stops.  The configuration editor does not
    when the configuration documents cannot be fetched: [loadAllConfigs]
    rejects inside the [try] that guards the mount path check, the rejection
    is logged as a failure to check the mount path, the [return] is not
    reached, and the loop goes on: all 60 attempts are made, the load is
    started on each of the last 57, each of them is logged, and the run ends
    with the warning that the mount path was not found. *)
Theorem C9_failed_load_keeps_polling :
  (observed mounted_after_three (waiting 0 2000) = Some false /\
   observed mounted_after_three (waiting 1 2000) = Some false /\
   observed mounted_after_three (waiting 2 2000) = Some false /\
   observed mounted_after_three (waiting 3 2000) = Some true) /\
  trace (run (Legacy.pollForMount 60 2000) mounted_after_three legacy_state)
  = [Fetched mount_query; Waited 2000; Fetched mount_query; Waited 2000;
     Fetched mount_query; Waited 2000; Fetched mount_query;
     Fetched (read_samples "http://localhost:5000/read-samples")] /\
  List.length (requests_to (url mount_query)
                 (trace (run (ConfigEditor.pollForMount 60 2000) mounted_after_three
                           editor_state))) = 60%nat /\
  List.length (requests_to (url (config_request "general"))
                 (trace (run (ConfigEditor.pollForMount 60 2000) mounted_after_three
                           editor_state))) = 57%nat /\
  logged "Failed to check mount path:"
    (trace (run (ConfigEditor.pollForMount 60 2000) mounted_after_three editor_state))
  = List.repeat "Failed to fetch" 57 /\
  List.last (trace (run (ConfigEditor.pollForMount 60 2000) mounted_after_three
                      editor_state)) mount_warning = mount_warning.
Proof. vm_compute. repeat split; reflexivity. Qed.

(** Where the polling does what C9 describes.  With an empty mount path on
    the first three attempts and a non-empty one on the fourth,
    [pollForMount(60, 2000)] waits three times, asks a fourth time and starts
    the load; in samplemanager.js that is the whole run: one snapshot request
    and no request after it; in configeditor.js it is the whole run whenever
    [loadAllConfigs] does not reject: the three configuration requests and no
    request after them.  With an empty mount path on all 60 attempts, both
    versions wait 60 times, log the warning and start no load. *)
Theorem C9_poll_until_mounted :
  forall env,
    ((forall i, (i < 3)%nat -> observed env (waiting i 2000) = Some false) ->
     observed env (waiting 3 2000) = Some true ->
     (forall st,
        run (Legacy.pollForMount 60 2000) env st =
          Legacy.fetchOpzSamples env st (waiting 3 2000 ++ [Fetched mount_query])%list
        /\ exists rest,
             trace (run (Legacy.pollForMount 60 2000) env st) =
               (waiting 3 2000 ++ Fetched mount_query
                  :: Fetched (read_samples "http://localhost:5000/read-samples") :: rest)%list
             /\ Forall no_request rest)
     /\
     (forall st,
        snd (ConfigEditor.loadAllConfigs env st (waiting 3 2000 ++ [Fetched mount_query])%list)
          = Returned tt ->
        run (ConfigEditor.pollForMount 60 2000) env st =
          ConfigEditor.loadAllConfigs env st (waiting 3 2000 ++ [Fetched mount_query])%list
        /\ exists r1 r2 r3,
             trace (run (ConfigEditor.pollForMount 60 2000) env st) =
               (waiting 3 2000 ++ Fetched mount_query
                  :: Fetched (config_request "general") :: r1
                  ++ Fetched (config_request "midi") :: r2
                  ++ Fetched (config_request "dmx") :: r3)%list
             /\ Forall no_request (r1 ++ r2 ++ r3)))
    /\
    ((forall i, (i < 60)%nat -> observed env (waiting i 2000) = Some false) ->
     (forall st,
        run (Legacy.pollForMount 60 2000) env st =
          (st, (waiting 60 2000 ++ [mount_warning])%list, Returned tt))
     /\
     (forall st,
        run (ConfigEditor.pollForMount 60 2000) env st =
          (st, (waiting 60 2000 ++ [mount_warning])%list, Returned tt))).
Proof.
  intros env. split.
  - intros Hempty Hmounted. split; intros st.
    + assert (E : run (Legacy.pollForMount 60 2000) env st =
                  Legacy.fetchOpzSamples env st (waiting 3 2000 ++ [Fetched mount_query])%list).
      { apply (Legacy_poll_mounts env st 2000 3 60 0); [lia | exact Hempty | exact Hmounted]. }
      split; [exact E |]. rewrite E.
      destruct (Legacy_fetchOpzSamples_asks env st (waiting 3 2000 ++ [Fetched mount_query])%list)
        as (rest & Hr & HP).
      exists rest. split; [| exact HP]. unfold trace. rewrite Hr.
      now rewrite <- List.app_assoc.
    + intros Hret.
      assert (E : run (ConfigEditor.pollForMount 60 2000) env st =
                  ConfigEditor.loadAllConfigs env st
                    (waiting 3 2000 ++ [Fetched mount_query])%list).
      { apply (ConfigEditor_poll_mounts env st 2000 3 60 0);
          [lia | exact Hempty | exact Hmounted | exact Hret]. }
      split; [exact E |]. rewrite E.
      destruct (ConfigEditor_loadAllConfigs_asks env st
                  (waiting 3 2000 ++ [Fetched mount_query])%list) as (r1 & r2 & r3 & Hr & HP).
      exists r1, r2, r3. split; [| exact HP]. unfold trace. rewrite Hr.
      now rewrite <- List.app_assoc.
  - intros Hempty. split; intros st.
    + apply (Legacy_poll_exhausts env st 2000 60 0 Hempty).
    + apply (ConfigEditor_poll_exhausts env st 2000 60 0 Hempty).
Qed.

(** The device mounted on the fourth attempt, seen from samplemanager.js. *)
Lemma C9_poll_until_mounted_witness :
  trace (run (Legacy.pollForMount 60 2000) mounted_after_three legacy_state) =
    [Fetched mount_query; Waited 2000; Fetched mount_query; Waited 2000;
     Fetched mount_query; Waited 2000; Fetched mount_query;
     Fetched (read_samples "http://localhost:5000/read-samples")].
Proof.
  destruct (C9_poll_until_mounted mounted_after_three) as [Hmounts _].
  assert (Hempty : forall i, (i < 3)%nat ->
                     observed mounted_after_three (waiting i 2000) = Some false).
  { intros [| [| [| i]]] Hi; try reflexivity. lia. }
  destruct (Hmounts Hempty eq_refl) as [Hlegacy _].
  destruct (Hlegacy legacy_state) as [E _].
  rewrite E. vm_compute. reflexivity.
Defined.

(** *** Escaping *)

Lemma has_byte_app c a b : has_byte c (a ++ b) = has_byte c a || has_byte c b.
Proof.
  induction a as [| d a IH]; [reflexivity |].
  change (String d a ++ b) with (String d (a ++ b)). cbn [has_byte].
  now rewrite IH, orb_assoc.
Qed.

Lemma escapeHtml_no_angle text :
  has_byte "<" (Manager.escapeHtml text) = false
  /\ has_byte ">" (Manager.escapeHtml text) = false.
Proof.
  assert (Hgen : forall n text, (String.length text <= n)%nat ->
            has_byte "<" (Manager.escapeHtml text) = false
            /\ has_byte ">" (Manager.escapeHtml text) = false).
  { clear text. induction n as [| n IH]; intros [| c rest] Hlen; cbn in Hlen;
      try (split; reflexivity); try lia.
    cbn [Manager.escapeHtml].
    destruct (IH rest ltac:(lia)) as [IHlt IHgt].
    destruct (Ascii.eqb c "&") eqn:Hamp; cbv iota.
    { rewrite !has_byte_app, IHlt, IHgt. split; reflexivity. }
    destruct (Ascii.eqb c "<") eqn:Hlt; cbv iota.
    { rewrite !has_byte_app, IHlt, IHgt. split; reflexivity. }
    destruct (Ascii.eqb c ">") eqn:Hgt; cbv iota.
    { rewrite !has_byte_app, IHlt, IHgt. split; reflexivity. }
    assert (Hkeep : has_byte "<" (String c (Manager.escapeHtml rest)) = false
                    /\ has_byte ">" (String c (Manager.escapeHtml rest)) = false).
    { cbn [has_byte]. rewrite IHlt, IHgt, Hlt, Hgt. split; reflexivity. }
    destruct (Ascii.eqb c (ascii_of_nat 194)) eqn:H194; cbv iota; [| exact Hkeep].
    destruct rest as [| d rest'].
    { apply Ascii.eqb_eq in H194. subst c. split; reflexivity. }
    destruct (Ascii.eqb d (ascii_of_nat 160)); cbv iota; [| exact Hkeep].
    destruct (IH rest' ltac:(cbn in Hlen; lia)) as [IHlt' IHgt'].
    rewrite !has_byte_app, IHlt', IHgt'. split; reflexivity. }
  apply (Hgen (String.length text)). lia.
Qed.

Lemma escapeHtml_plain text :
  has_byte "&" text = false -> has_byte "<" text = false -> has_byte ">" text = false ->
  includes text nbsp = false ->
  Manager.escapeHtml text = text.
Proof.
  induction text as [| c rest IH]; [reflexivity |].
  cbn [has_byte]. intros Hamp Hlt Hgt Hnbsp.
  apply orb_false_iff in Hamp, Hlt, Hgt. destruct Hamp as [Ha Hamp], Hlt as [Hl Hlt], Hgt as [Hg Hgt].
  cbn [includes] in Hnbsp. apply orb_false_iff in Hnbsp. destruct Hnbsp as [Hpre Hnbsp].
  cbn [Manager.escapeHtml]. rewrite Ha, Hl, Hg.
  specialize (IH Hamp Hlt Hgt Hnbsp).
  destruct (Ascii.eqb c (ascii_of_nat 194)) eqn:H194; [| now rewrite IH].
  destruct rest as [| d rest']; [reflexivity |].
  destruct (Ascii.eqb d (ascii_of_nat 160)) eqn:H160; [| now rewrite IH].
  apply Ascii.eqb_eq in H194, H160. subst c d.
  destruct rest'; vm_compute in Hpre; discriminate Hpre.
Qed.

(** C10 as stated fails: a folder name reaches the header's markup as it is,
    inside the [onclick] attributes of the Rename and Delete buttons, where it
    can close the attribute and open an element; and [escapeHtml] also
    rewrites the no-break space. *)
Lemma C10_folder_name_reaches_markup_raw :
  includes (Manager.header_markup "drum" hostile_name [])
    ("renameOp1Subdirectory('drum/" ++ hostile_name ++ "')") = true
  /\ includes (Manager.header_markup "drum" hostile_name []) "<img src=1>" = true
  /\ Manager.escapeHtml ("a" ++ nbsp ++ "b") = "a&nbsp;b".
Proof. vm_compute. repeat split; reflexivity. Qed.

(** C10, amended: [escapeHtml] replaces the ampersand, the angle brackets and
    the no-break space by their entities and copies every other character, so
    a text with none of the four comes back as it is and no result holds an
    angle bracket; the name span of a folder's header holds the escaped
    folder name, and the name span of a file holds the escaped file name. *)
Theorem C10_escapeHtml_and_name_spans :
  (forall rest,
     Manager.escapeHtml ("&" ++ rest) = "&amp;" ++ Manager.escapeHtml rest
     /\ Manager.escapeHtml ("<" ++ rest) = "&lt;" ++ Manager.escapeHtml rest
     /\ Manager.escapeHtml (">" ++ rest) = "&gt;" ++ Manager.escapeHtml rest
     /\ Manager.escapeHtml (nbsp ++ rest) = "&nbsp;" ++ Manager.escapeHtml rest)
  /\ (forall c rest,
        c <> "&"%char -> c <> "<"%char -> c <> ">"%char -> c <> ascii_of_nat 194 ->
        Manager.escapeHtml (String c rest) = String c (Manager.escapeHtml rest))
  /\ (forall d rest,
        d <> ascii_of_nat 160 ->
        Manager.escapeHtml (String (ascii_of_nat 194) (String d rest)) =
          String (ascii_of_nat 194) (Manager.escapeHtml (String d rest)))
  /\ (forall text,
        has_byte "&" text = false -> has_byte "<" text = false ->
        has_byte ">" text = false -> includes text nbsp = false ->
        Manager.escapeHtml text = text)
  /\ (forall text,
        has_byte "<" (Manager.escapeHtml text) = false
        /\ has_byte ">" (Manager.escapeHtml text) = false)
  /\ (forall parentFolder subdirName files,
        exists before after,
          Manager.header_markup parentFolder subdirName files =
            before ++ "<span class=" ++ Manager.q "subdirectory-name" ++ ">"
              ++ Manager.escapeHtml subdirName ++ "</span>" ++ after)
  /\ (forall isReadOnly file,
        exists before after,
          Manager.file_markup isReadOnly file =
            before ++ "<span class=" ++ Manager.q "sample-name" ++ ">"
              ++ Manager.escapeHtml (name file) ++ "</span>" ++ after).
Proof.
  split; [intros rest; repeat split; reflexivity |].
  split.
  { intros c rest Hamp Hlt Hgt H194. cbn [Manager.escapeHtml].
    destruct (Ascii.eqb_spec c "&"); [contradiction |].
    destruct (Ascii.eqb_spec c "<"); [contradiction |].
    destruct (Ascii.eqb_spec c ">"); [contradiction |].
    destruct (Ascii.eqb_spec c (ascii_of_nat 194)); [contradiction | reflexivity]. }
  split.
  { intros d rest H160. cbn [Manager.escapeHtml].
    change (Ascii.eqb (ascii_of_nat 194) "&") with false.
    change (Ascii.eqb (ascii_of_nat 194) "<") with false.
    change (Ascii.eqb (ascii_of_nat 194) ">") with false.
    change (Ascii.eqb (ascii_of_nat 194) (ascii_of_nat 194)) with true. cbv iota.
    destruct (Ascii.eqb_spec d (ascii_of_nat 160)); [contradiction | reflexivity]. }
  split; [exact escapeHtml_plain |].
  split; [exact escapeHtml_no_angle |].
  split.
  - intros parentFolder subdirName files.
    unfold Manager.header_markup, Manager.line.
    set (s1 := "<span class="). set (s2 := Manager.q "subdirectory-name").
    set (s3 := ">"). set (s4 := Manager.escapeHtml subdirName). set (s5 := "</span>").
    set (sp := Manager.spaces 12).
    match goal with
    | |- exists before after, (nl ++ sp ++ ?a) ++ (nl ++ sp ++ _) ++ ?r = _ =>
        set (icon := a); set (rest := r);
        exists ((nl ++ sp ++ icon) ++ nl ++ sp), rest
    end.
    clearbody s1 s2 s3 s4 s5 sp icon rest.
    rewrite !string_append_assoc. reflexivity.
  - intros isReadOnly file.
    unfold Manager.file_markup, Manager.line.
    set (s1 := "<span class="). set (s2 := Manager.q "sample-name").
    set (s3 := ">"). set (s4 := Manager.escapeHtml (name file)). set (s5 := "</span>").
    set (sp := Manager.spaces 20).
    match goal with
    | |- exists before after, (nl ++ sp ++ _) ++ ?r = _ =>
        set (rest := r); exists (nl ++ sp), rest
    end.
    clearbody s1 s2 s3 s4 s5 sp rest.
    rewrite !string_append_assoc. reflexivity.
Qed.

(** ** Further properties *)

(** *** What a computation leaves as it is *)

Section Keeps.
Context {S : Type} (R : S -> S -> Prop).
Hypothesis R_refl : forall s, R s s.
Hypothesis R_trans : forall a b c, R a b -> R b c -> R a c.

Lemma keeps_still {A} (m : M S A) :
  (forall env s h, fst (fst (m env s h)) = s) -> keeps R m.
Proof. intros H env s h. rewrite H. apply R_refl. Qed.

Lemma keeps_ret {A} (a : A) : keeps R (ret (S := S) a).
Proof. now apply keeps_still. Qed.

Lemma keeps_throw {A} e : keeps R (throw (S := S) (A := A) e).
Proof. now apply keeps_still. Qed.

Lemma keeps_lift {A} (o : outcome A) : keeps R (lift (S := S) o).
Proof. now apply keeps_still. Qed.

Lemma keeps_get : keeps R (get (S := S)).
Proof. now apply keeps_still. Qed.

Lemma keeps_emit e : keeps R (emit (S := S) e).
Proof. now apply keeps_still. Qed.

Lemma keeps_fetch sh r : keeps R (fetch (S := S) sh r).
Proof. now apply keeps_still. Qed.

Lemma keeps_confirm msg : keeps R (confirm (S := S) msg).
Proof. now apply keeps_still. Qed.

Lemma keeps_modify f : (forall s, R s (f s)) -> keeps R (modify (S := S) f).
Proof. intros H env s h. apply H. Qed.

Lemma keeps_bind {A B} (m : M S A) (k : A -> M S B) :
  keeps R m -> (forall a, keeps R (k a)) -> keeps R (bind m k).
Proof.
  intros Hm Hk env s h. unfold bind. specialize (Hm env s h).
  destruct (m env s h) as [[s' h'] [a | e]]; cbn in *; [| exact Hm].
  eapply R_trans; [exact Hm | apply Hk].
Qed.

Lemma keeps_try_catch {A} (m : M S A) (k : string -> M S A) :
  keeps R m -> (forall e, keeps R (k e)) -> keeps R (try_catch m k).
Proof.
  intros Hm Hk env s h. unfold try_catch. specialize (Hm env s h).
  destruct (m env s h) as [[s' h'] [a | e]]; cbn in *; [exact Hm |].
  eapply R_trans; [exact Hm | apply Hk].
Qed.

Lemma keeps_forEach_from {A} (l : list A) (f : A -> nat -> M S unit) i :
  (forall x j, keeps R (f x j)) -> keeps R (forEach_from i l f).
Proof.
  intros Hf. revert i. induction l as [| x l IH]; intros i; cbn.
  - apply keeps_ret.
  - apply keeps_bind; [apply Hf | intros _; apply IH].
Qed.

Lemma keeps_forEach {A} (l : list A) (f : A -> nat -> M S unit) :
  (forall x j, keeps R (f x j)) -> keeps R (forEach l f).
Proof. apply keeps_forEach_from. Qed.

End Keeps.

Ltac keeps_step :=
  first
    [ assumption
    | apply keeps_ret; assumption | apply keeps_throw; assumption
    | apply keeps_lift; assumption | apply keeps_get; assumption
    | apply keeps_emit; assumption | apply keeps_fetch; assumption
    | apply keeps_confirm; assumption
    | apply keeps_bind; [assumption | | intros ?]
    | apply keeps_try_catch; [assumption | | intros ?]
    | apply keeps_forEach; [assumption | assumption | intros ? ?]
    | match goal with
      | |- keeps _ (if ?b then _ else _) => destruct b
      | |- keeps _ (match ?x with _ => _ end) => destruct x
      end ].

(** *** The requests of a record *)

Lemma bind_value {S A B} (m : M S A) (k : A -> M S B) env s h s' h' a :
  m env s h = (s', h', Returned a) -> bind m k env s h = k a env s' h'.
Proof. intros E. unfold bind. now rewrite E. Qed.

Lemma bind_thrown {S A B} (m : M S A) (k : A -> M S B) env s h s' h' e :
  m env s h = (s', h', Thrown e) -> bind m k env s h = (s', h', Thrown e).
Proof. intros E. unfold bind. now rewrite E. Qed.

Lemma requests_app a b : requests (a ++ b)%list = (requests a ++ requests b)%list.
Proof. unfold requests. now rewrite List.flat_map_app. Qed.

Lemma requests_none l : Forall no_request l -> requests l = [].
Proof.
  induction 1 as [| e l He _ IH]; [reflexivity |].
  destruct e; try exact IH. discriminate He.
Qed.

Lemma requests_fetched r l : requests (Fetched r :: l) = r :: requests l.
Proof. reflexivity. Qed.

Lemma nothing_nil l : Forall nothing l -> l = [].
Proof. destruct 1 as [| e l He _]; [reflexivity | destruct He]. Qed.

(** A refresh is one request, whose failure or whose rendering's failure is
    logged. *)
Lemma try_fetch_logs {S} sh r (k : response sh -> M S unit) label env (s : S) h :
  (forall a, emits nothing (k a)) ->
  snd (try_catch (bind (fetch sh r) k) (console_error label) env s h) = Returned tt
  /\ exists added,
       snd (fst (try_catch (bind (fetch sh r) k) (console_error label) env s h)) =
         (h ++ added)%list
       /\ refreshed r label added.
Proof.
  intros Hk. unfold try_catch, bind, fetch.
  destruct (network env h sh r) as [a | msg].
  - destruct (Hk a env s (h ++ [Fetched r])%list) as (rest & Hr & HP).
    apply nothing_nil in HP. subst rest. rewrite List.app_nil_r in Hr.
    destruct (k a env s (h ++ [Fetched r])%list) as [[s' h'] [[] | msg]]; cbn in *; subst h'.
    + split; [reflexivity |]. exists [Fetched r]. split; [reflexivity | now left].
    + split; [reflexivity |]. exists [Fetched r; ConsoleError label msg].
      split; [now rewrite <- List.app_assoc | right; now exists msg].
  - cbn. split; [reflexivity |]. exists [Fetched r; ConsoleError label msg].
    split; [now rewrite <- List.app_assoc | right; now exists msg].
Qed.

Lemma refresh_opz_logs env st h :
  exists added,
    snd (fst (Manager.fetchOpzSamples env st h)) = (h ++ added)%list
    /\ refreshed (read_samples "/read-samples") "Failed to fetch OP-Z samples:" added.
Proof.
  unfold Manager.fetchOpzSamples. apply try_fetch_logs.
  intros a. destruct (emits_Manager_validation nothing) as [Hshow Hhide]. emits_auto.
Qed.

Lemma Manager_fetchOp1Samples_returns localeCompare env st h :
  snd (Manager.fetchOp1Samples localeCompare env st h) = Returned tt.
Proof.
  unfold Manager.fetchOp1Samples. apply try_fetch_logs.
  intros a. apply emits_Manager_fetchOp1_body.
Qed.

Lemma refresh_op1_logs localeCompare env st h :
  exists added,
    snd (fst (Manager.fetchOp1Samples localeCompare env st h)) = (h ++ added)%list
    /\ refreshed (read_samples "/read-op1-samples") "Failed to fetch OP-1 samples:" added.
Proof.
  unfold Manager.fetchOp1Samples. apply try_fetch_logs.
  intros a. apply emits_Manager_fetchOp1_body.
Qed.

Lemma refresh_legacy_logs env st h :
  exists added,
    snd (fst (Legacy.fetchOpzSamples env st h)) = (h ++ added)%list
    /\ refreshed (read_samples "http://localhost:5000/read-samples")
         "Failed to fetch OP-Z samples:" added.
Proof.
  unfold Legacy.fetchOpzSamples. apply try_fetch_logs.
  intros a. emits_auto.
Qed.

(** *** Dropping files on a box *)

Lemma requests_refresh_opz env st h :
  requests (snd (fst (Manager.fetchOpzSamples env st h))) =
    (requests h ++ [read_samples "/read-samples"])%list.
Proof.
  destruct (Manager_fetchOpzSamples_asks env st h) as (rest & -> & HP).
  now rewrite requests_app, requests_fetched, (requests_none rest HP).
Qed.

Lemma requests_refresh_legacy env st h :
  requests (snd (fst (Legacy.fetchOpzSamples env st h))) =
    (requests h ++ [read_samples "http://localhost:5000/read-samples"])%list.
Proof.
  destruct (Legacy_fetchOpzSamples_asks env st h) as (rest & -> & HP).
  now rewrite requests_app, requests_fetched, (requests_none rest HP).
Qed.

Lemma requests_refresh_op1 localeCompare env st h :
  requests (snd (fst (Manager.fetchOp1Samples localeCompare env st h))) =
    (requests h ++ [read_samples "/read-op1-samples"])%list.
Proof.
  destruct (Manager_fetchOp1Samples_asks localeCompare env st h) as (rest & -> & HP).
  now rewrite requests_app, requests_fetched, (requests_none rest HP).
Qed.

Lemma Manager_box_drop_run env category e slotElement st f fs d :
  files e = f :: fs -> slotElement = Some d ->
  let upload := slot_upload_request "/upload-sample" f category (slot_index d) in
  run (Uploads.box_drop category e slotElement) env st =
    if accepted (network env [] ShNone upload)
    then Manager.fetchOpzSamples env st [Fetched upload]
    else (st, [Fetched upload;
               ConsoleError "Failed to upload file:"
                 match network env [] ShNone upload with
                 | Thrown msg => msg
                 | Returned response =>
                     if ok response
                     then match json response with Thrown msg => msg | _ => EmptyString end
                     else "Upload failed"
                 end;
               Alerted "Upload failed."], Returned tt).
Proof.
  intros Hf -> upload. unfold Uploads.box_drop. rewrite Hf.
  fold (slot_upload_request "/upload-sample" f category (slot_index d)). fold upload.
  unfold accepted. unfold_async.
  destruct (network env [] ShNone upload) as [response | msg]; [| reflexivity].
  destruct (ok response); [| reflexivity].
  destruct (json response) as [[] | msg]; [| reflexivity]. cbn.
  pose proof (Manager_fetchOpzSamples_returns env st [Fetched upload]) as Hret.
  destruct (Manager.fetchOpzSamples env st [Fetched upload]) as [[s1 h1] o].
  cbn in Hret. subst o. reflexivity.
Qed.

Lemma Legacy_box_drop_run env category e slotElement st f fs d :
  files e = f :: fs -> slotElement = Some d ->
  let upload :=
    slot_upload_request "http://localhost:5000/upload-sample" f category (slot_index d) in
  run (LegacyListeners.box_drop category e slotElement) env st =
    if accepted (network env [] ShNone upload)
    then Legacy.fetchOpzSamples env st [Fetched upload]
    else (st, [Fetched upload;
               ConsoleError "Failed to upload file:"
                 match network env [] ShNone upload with
                 | Thrown msg => msg
                 | Returned response =>
                     if ok response
                     then match json response with Thrown msg => msg | _ => EmptyString end
                     else "Upload failed"
                 end;
               Alerted "Upload failed."], Returned tt).
Proof.
  intros Hf -> upload. unfold LegacyListeners.box_drop. rewrite Hf.
  fold (slot_upload_request "http://localhost:5000/upload-sample" f category (slot_index d)).
  fold upload. unfold accepted. unfold_async.
  destruct (network env [] ShNone upload) as [response | msg]; [| reflexivity].
  destruct (ok response); [| reflexivity].
  destruct (json response) as [[] | msg]; [| reflexivity]. cbn.
  pose proof (Legacy_fetchOpzSamples_returns env st [Fetched upload]) as Hret.
  destruct (Legacy.fetchOpzSamples env st [Fetched upload]) as [[s1 h1] o].
  cbn in Hret. subst o. reflexivity.
Qed.

(** X3: a drop of files on a box uploads the first file only, into the slot
    under the pointer, and never rejects.  When the upload is accepted the
    slots are read again; when it is not, the page stays as it is, the slots
    are not read again and the user is told "Upload failed.".  Without a
    file, or without a slot under the pointer, nothing is sent.  Both
    versions of the script agree. *)
Theorem box_drop_uploads_first_file :
  forall env category e slotElement,
    (forall st,
       let r := run (Uploads.box_drop category e slotElement) env st in
       result r = Returned tt /\
       match files e, slotElement with
       | f :: _, Some d =>
           let upload := slot_upload_request "/upload-sample" f category (slot_index d) in
           if accepted (network env [] ShNone upload)
           then r = Manager.fetchOpzSamples env st [Fetched upload]
                /\ requests (trace r) = [upload; read_samples "/read-samples"]
           else final r = st
                /\ requests (trace r) = [upload]
                /\ alerts (trace r) = ["Upload failed."]
       | _, _ => r = (st, [], Returned tt)
       end)
    /\
    (forall st,
       let r := run (LegacyListeners.box_drop category e slotElement) env st in
       result r = Returned tt /\
       match files e, slotElement with
       | f :: _, Some d =>
           let upload := slot_upload_request "http://localhost:5000/upload-sample" f category
                           (slot_index d) in
           if accepted (network env [] ShNone upload)
           then r = Legacy.fetchOpzSamples env st [Fetched upload]
                /\ requests (trace r) =
                     [upload; read_samples "http://localhost:5000/read-samples"]
           else final r = st
                /\ requests (trace r) = [upload]
                /\ alerts (trace r) = ["Upload failed."]
       | _, _ => r = (st, [], Returned tt)
       end).
Proof.
  intros env category e slotElement. split; intros st r.
  - destruct (files e) as [| f fs] eqn:Hf.
    { subst r. unfold Uploads.box_drop. rewrite Hf. split; reflexivity. }
    destruct slotElement as [d |].
    2: { subst r. unfold Uploads.box_drop. rewrite Hf. split; reflexivity. }
    pose proof (Manager_box_drop_run env category e (Some d) st f fs d Hf eq_refl) as E.
    cbv zeta in E. fold r in E. cbv zeta.
    destruct (accepted _).
    + rewrite E. split; [apply Manager_fetchOpzSamples_returns |].
      split; [reflexivity |]. unfold trace. now rewrite requests_refresh_opz.
    + rewrite E. repeat split; reflexivity.
  - destruct (files e) as [| f fs] eqn:Hf.
    { subst r. unfold LegacyListeners.box_drop. rewrite Hf. split; reflexivity. }
    destruct slotElement as [d |].
    2: { subst r. unfold LegacyListeners.box_drop. rewrite Hf. split; reflexivity. }
    pose proof (Legacy_box_drop_run env category e (Some d) st f fs d Hf eq_refl) as E.
    cbv zeta in E. fold r in E. cbv zeta.
    destruct (accepted _).
    + rewrite E. split; [apply Legacy_fetchOpzSamples_returns |].
      split; [reflexivity |]. unfold trace. now rewrite requests_refresh_legacy.
    + rewrite E. repeat split; reflexivity.
Qed.

(** X1: a drop that carries files leaves the move to the box's listener: the
    slot's listener clears the hover class and returns, whatever the payload. *)
Theorem files_take_precedence_over_move :
  forall env category slotIndex e,
    files e <> [] ->
    (forall st,
       run (Manager.slot_drop category slotIndex e) env st =
         (Manager.with_elements (alter (unhover category slotIndex) category) st, [],
          Returned tt))
    /\
    (forall st,
       run (Legacy.slot_drop category slotIndex e) env st =
         (Legacy.with_elements (alter (unhover category slotIndex) category) st, [],
          Returned tt)).
Proof.
  intros env category slotIndex e Hfiles.
  destruct (files e) as [| f fs] eqn:E; [contradiction |].
  split; intros st.
  - unfold Manager.slot_drop. unfold_async. now rewrite E.
  - unfold Legacy.slot_drop. unfold_async. now rewrite E.
Qed.

Lemma files_take_precedence_witness :
  trace (run (Manager.slot_drop "kick" 0 dragged_file_and_snare) (backend true kick_snapshot)
           opz_state) = [].
Proof.
  destruct (files_take_precedence_over_move (backend true kick_snapshot) "kick" 0%nat
              dragged_file_and_snare ltac:(discriminate)) as [HM _].
  now rewrite HM.
Defined.

(** *** Dropping files on a folder *)

Lemma upload_file_run parentFolder subdirName f env st h :
  let upload := folder_upload_request parentFolder subdirName f in
  Uploads.upload_file parentFolder subdirName f env st h =
    (st,
     (h ++ Fetched upload ::
        match failure "Upload failed" (network env h ShError upload) with
        | Some msg => [ConsoleError "Failed to upload file:" msg;
                       Alerted ("Failed to upload " ++ file_name f ++ ": " ++ msg)]
        | None => []
        end)%list,
     Returned tt).
Proof.
  intros upload. unfold Uploads.upload_file.
  fold (folder_upload_request parentFolder subdirName f). fold upload.
  unfold failure. unfold_async.
  destruct (network env h ShError upload) as [response | msg].
  - destruct (ok response); cbn.
    + reflexivity.
    + destruct (json response) as [data | msg]; cbn; now rewrite <- !List.app_assoc.
  - cbn. now rewrite <- !List.app_assoc.
Qed.

Lemma upload_files_run parentFolder subdirName fs :
  forall i env st h,
    let out := forEach_from i fs (fun file _ => Uploads.upload_file parentFolder subdirName file)
                 env st h in
    snd out = Returned tt
    /\ fst (fst out) = st
    /\ requests (snd (fst out)) =
         (requests h ++ List.map (folder_upload_request parentFolder subdirName) fs)%list
    /\ (length (alerts (snd (fst out))) <= length (alerts h) + length fs)%nat.
Proof.
  induction fs as [| f fs IH]; intros i env st h; cbn zeta.
  - cbn. split; [reflexivity |]. split; [reflexivity |].
    split; [now rewrite List.app_nil_r | unfold alerts; lia].
  - cbn [forEach_from]. erewrite bind_value by apply upload_file_run.
    match goal with
    | |- context [forEach_from _ fs _ env st ?h'] =>
        destruct (IH (Datatypes.S i) env st h') as (Hret & Hst & Hreq & Hal)
    end.
    split; [exact Hret |]. split; [exact Hst |]. split.
    + rewrite Hreq, requests_app, requests_fetched.
      destruct (failure _ _); cbn [requests flat_map app List.map];
        now rewrite <- List.app_assoc.
    + etransitivity; [exact Hal |].
      unfold alerts at 1. rewrite List.flat_map_app. fold (alerts h). rewrite List.length_app.
      destruct (failure _ _); cbn; lia.
Qed.

(** X4: a drop of files on a folder uploads every file, one request for each
    in the order of the drop, goes on after an upload that failed, and reads
    the folders again once, after the last upload.  It never rejects, alerts
    at most once for each file, and sends nothing when the drop carries no
    file. *)
Theorem folder_drop_uploads_every_file :
  forall localeCompare env parentFolder subdirName e st,
    let r := run (Uploads.subdir_drop localeCompare parentFolder subdirName e) env st in
    result r = Returned tt
    /\ match files e with
       | [] =>
           trace r = []
           /\ final r =
                Manager.with_elements
                  (alter (Uploads.unhover_subdir (parentFolder ++ "/" ++ subdirName))
                         ("op1-" ++ parentFolder ++ "-subdirectories")) st
       | fs =>
           requests (trace r) =
             (List.map (folder_upload_request parentFolder subdirName) fs
                ++ [read_samples "/read-op1-samples"])%list
           /\ (length (alerts (trace r)) <= length fs)%nat
       end.
Proof.
  intros localeCompare env parentFolder subdirName e st r. subst r.
  unfold Uploads.subdir_drop, run. rewrite bind_modify.
  destruct (files e) as [| f fs] eqn:Hf; cbn [length Nat.eqb].
  - repeat split.
  - set (st1 := Manager.with_elements _ st).
    unfold forEach.
    destruct (upload_files_run parentFolder subdirName (f :: fs) 0 env st1 [])
      as (Hret & Hst & Hreq & Hal).
    destruct (forEach_from 0 (f :: fs) _ env st1 []) as [[s1 h1] o1] eqn:E.
    cbn [fst snd] in *. subst o1 s1.
    rewrite (bind_value _ _ _ _ _ _ _ _ E). unfold result.
    split; [apply Manager_fetchOp1Samples_returns |]. split.
    + unfold trace. now rewrite requests_refresh_op1, Hreq.
    + unfold trace.
      destruct (refresh_op1_logs localeCompare env st1 h1) as (added & -> & Hadd).
      unfold alerts. rewrite List.flat_map_app, List.length_app. fold (alerts h1).
      assert (alerts added = []) as Hno.
      { destruct Hadd as [-> | [msg ->]]; reflexivity. }
      unfold alerts in Hno. rewrite Hno.
      change (alerts []) with (@nil string) in Hal. cbn [length] in *. lia.
Qed.

(** *** Creating, renaming and deleting a folder *)

(** A request whose error status carries a message, followed by a refresh
    that cannot reject, under a handler that logs and alerts. *)
Lemma guarded_request_run {S} req dflt (refresh : M S unit) label prefix env (s : S) h :
  (forall env s h, snd (refresh env s h) = Returned tt) ->
  try_catch
    (bind (fetch ShError req) (fun response =>
     bind (if negb (ok response)
           then bind (lift (json response)) (fun data => throw (or_else (error data) dflt))
           else ret tt) (fun _ => refresh)))
    (fun err => bind (console_error label err) (fun _ => alert (prefix ++ err))) env s h =
  match failure dflt (network env h ShError req) with
  | Some msg =>
      (s, (h ++ [Fetched req; ConsoleError label msg; Alerted (prefix ++ msg)])%list,
       Returned tt)
  | None => refresh env s (h ++ [Fetched req])%list
  end.
Proof.
  intros Hret. unfold failure. unfold_async.
  destruct (network env h ShError req) as [response | msg].
  - destruct (ok response); cbn.
    + pose proof (Hret env s (h ++ [Fetched req])%list) as Hr.
      destruct (refresh env s (h ++ [Fetched req])%list) as [[s1 h1] o]. cbn in Hr. now subst o.
    + destruct (json response) as [data | msg]; cbn; now rewrite <- !List.app_assoc.
  - cbn. now rewrite <- !List.app_assoc.
Qed.

Lemma prompt_bind {B} user message offered (k : option string -> M Manager.state B) env s h :
  bind (Uploads.prompt user message offered) k env s h = k (user h message offered) env s h.
Proof. reflexivity. Qed.

Lemma confirm_bind {S B} message (k : bool -> M S B) env (s : S) h :
  bind (confirm message) k env s h =
    k (dialog env h message) env s (h ++ [Confirmed message (dialog env h message)])%list.
Proof. reflexivity. Qed.

(** X5: creating and renaming a folder ask for the name first.  Nothing is
    sent and the page stays as it is when the dialog is dismissed or left
    empty, and, for a rename, when the name entered is the current one.
    Otherwise one request is sent: when it fails (rejected, error status)
    the failure is logged, the user is alerted with the message of the
    backend or the default one, and the folders are not read again; when it
    succeeds the folders are read again.  Neither function rejects. *)
Theorem folder_prompts_guard_the_request :
  forall localeCompare user env st,
    (forall parentFolder,
       let r := run (Uploads.createOp1Subdirectory localeCompare user parentFolder) env st in
       match user [] ("Enter name for new " ++ parentFolder ++ " folder:") None with
       | None | Some EmptyString => r = (st, [], Returned tt)
       | Some name =>
           let request := create_request parentFolder name in
           match failure "Failed to create folder" (network env [] ShError request) with
           | Some msg =>
               r = (st, [Fetched request; ConsoleError "Failed to create subdirectory:" msg;
                         Alerted ("Failed to create folder: " ++ msg)], Returned tt)
           | None =>
               r = Manager.fetchOp1Samples localeCompare env st [Fetched request]
               /\ result r = Returned tt
               /\ requests (trace r) = [request; read_samples "/read-op1-samples"]
           end
       end)
    /\
    (forall path,
       let r := run (Uploads.renameOp1Subdirectory localeCompare user path) env st in
       let currentName := folder_name path in
       match user [] ("Enter new name for " ++ dq ++ Uploads.shown currentName ++ dq ++ ":")
                  currentName with
       | None | Some EmptyString => r = (st, [], Returned tt)
       | Some newName =>
           if decide (Some newName = currentName) then r = (st, [], Returned tt)
           else
             let request := rename_request path newName in
             match failure "Failed to rename folder" (network env [] ShError request) with
             | Some msg =>
                 r = (st, [Fetched request; ConsoleError "Failed to rename subdirectory:" msg;
                           Alerted ("Failed to rename folder: " ++ msg)], Returned tt)
             | None =>
                 r = Manager.fetchOp1Samples localeCompare env st [Fetched request]
                 /\ result r = Returned tt
                 /\ requests (trace r) = [request; read_samples "/read-op1-samples"]
             end
       end).
Proof.
  intros localeCompare user env st. split.
  - intros parentFolder r. subst r.
    unfold Uploads.createOp1Subdirectory, run. rewrite prompt_bind.
    destruct (user [] _ None) as [[| c name] |]; [reflexivity | | reflexivity].
    cbn [JsString.truthy negb]. cbv zeta.
    fold (create_request parentFolder (String c name)).
    rewrite guarded_request_run by apply Manager_fetchOp1Samples_returns.
    destruct (failure _ _); [reflexivity |]. cbn [app].
    split; [reflexivity |]. split; [apply Manager_fetchOp1Samples_returns |].
    unfold trace. now rewrite requests_refresh_op1.
  - intros path r currentName. subst r.
    unfold Uploads.renameOp1Subdirectory, run. fold (folder_name path). fold currentName.
    rewrite prompt_bind.
    destruct (user [] _ currentName) as [[| c name] |]; [reflexivity | | reflexivity].
    cbn [JsString.truthy negb orb].
    destruct (decide (Some (String c name) = currentName)) as [<- | Hne].
    { now rewrite String.eqb_refl. }
    assert (match currentName with
            | Some c0 => String.eqb (String c name) c0
            | None => false
            end = false) as ->.
    { destruct currentName as [c0 |]; [| reflexivity].
      apply String.eqb_neq. congruence. }
    cbv zeta. fold (rename_request path (String c name)).
    rewrite guarded_request_run by apply Manager_fetchOp1Samples_returns.
    destruct (failure _ _); [reflexivity |]. cbn [app].
    split; [reflexivity |]. split; [apply Manager_fetchOp1Samples_returns |].
    unfold trace. now rewrite requests_refresh_op1.
Qed.

(** X6: deleting a folder asks for confirmation first, naming the second
    component of the path.  When the user declines nothing is sent and the
    page stays as it is.  Otherwise one request is sent: when it fails the
    failure is logged, the user is alerted with the message, and the folders
    are not read again; when it succeeds the folders are read again. *)
Theorem delete_folder_confirms_first :
  forall localeCompare env st path,
    let question := "Delete folder " ++ dq ++ Uploads.shown (folder_name path) ++ dq ++
                    " and all its contents?" in
    let asked := Confirmed question (dialog env [] question) in
    let request := delete_folder_request path in
    let r := run (Uploads.deleteOp1Subdirectory localeCompare path) env st in
    if dialog env [] question
    then match failure "Failed to delete folder" (network env [asked] ShError request) with
         | Some msg =>
             r = (st, [asked; Fetched request;
                       ConsoleError "Failed to delete subdirectory:" msg;
                       Alerted ("Failed to delete folder: " ++ msg)], Returned tt)
         | None =>
             r = Manager.fetchOp1Samples localeCompare env st [asked; Fetched request]
             /\ result r = Returned tt
             /\ requests (trace r) = [request; read_samples "/read-op1-samples"]
         end
    else r = (st, [asked], Returned tt).
Proof.
  intros localeCompare env st path question asked request r. subst r.
  unfold Uploads.deleteOp1Subdirectory, run. fold (folder_name path). fold question.
  rewrite confirm_bind. cbn [app]. fold asked.
  destruct (dialog env [] question); [| reflexivity].
  cbn [negb]. fold (delete_folder_request path). fold request.
  rewrite guarded_request_run by apply Manager_fetchOp1Samples_returns.
  destruct (failure _ _); [reflexivity |]. cbn [app].
  split; [reflexivity |]. split; [apply Manager_fetchOp1Samples_returns |].
  unfold trace. now rewrite requests_refresh_op1.
Qed.

(** *** Switching between the devices *)

Lemma updateStorageDisplay_proj {A} (proj : element -> A) device storage extraData doc id :
  (forall s e, proj (set_textContent s e) = proj e) ->
  (forall c e, proj (set_classList c e) = proj e) ->
  (forall w e, proj (set_width w e) = proj e) ->
  proj <$> (Manager.updateStorageDisplay device storage extraData doc !! id) = proj <$> (doc !! id).
Proof.
  intros Ht Hc Hw. unfold Manager.updateStorageDisplay.
  destruct (String.eqb device "op1"), (String.eqb device "opz"),
    (Manager.extra_counts extraData), (Manager.extra_numSamples extraData);
    repeat (rewrite lookup_alter_proj; [| intros; now rewrite ?Hc, ?Hw, ?Ht]);
    reflexivity.
Qed.

Lemma same_visibility_refl ids s : same_visibility ids s s.
Proof. split; [reflexivity | intros; reflexivity]. Qed.

Lemma same_visibility_trans ids a b c :
  same_visibility ids a b -> same_visibility ids b c -> same_visibility ids a c.
Proof.
  intros [H1 H2] [H3 H4]. split; [congruence |].
  intros id Hid. now rewrite H4, H2.
Qed.

Lemma same_visibility_alter ids f id s :
  (forall e, hidden (f e) = hidden e) ->
  same_visibility ids s (Manager.with_elements (alter f id) s).
Proof.
  intros Hf. split; [reflexivity |]. intros id' _. cbn. now apply lookup_alter_proj.
Qed.

Lemma same_visibility_hide ids b id s :
  In id ids -> same_visibility ids s (Manager.with_elements (alter (set_hidden b) id) s).
Proof.
  intros Hin. split; [reflexivity |]. intros id' Hout. cbn.
  rewrite lookup_alter_ne; [reflexivity |]. intros ->. contradiction.
Qed.

Lemma same_visibility_display ids device storage extraData s :
  same_visibility ids s
    (Manager.with_elements (Manager.updateStorageDisplay device storage extraData) s).
Proof.
  split; [reflexivity |]. intros id _. cbn. now apply updateStorageDisplay_proj.
Qed.

Ltac visibility_step ids :=
  first
    [ keeps_step
    | apply keeps_modify; intros ?;
      first [ apply same_visibility_display
            | apply same_visibility_hide; cbn; tauto
            | apply same_visibility_alter; intros; reflexivity
            | apply same_visibility_refl
            | split; [reflexivity | intros; reflexivity] ] ].

Lemma fetchOpzSamples_visibility :
  keeps (same_visibility (panel "opz")) Manager.fetchOpzSamples.
Proof.
  pose proof (same_visibility_refl (panel "opz")) as Hrefl.
  pose proof (same_visibility_trans (panel "opz")) as Htrans.
  unfold Manager.fetchOpzSamples, Manager.show_validation_error, Manager.hide_validation_error,
    Manager.hide_required, Manager.hide_if_present, console_error.
  repeat visibility_step (panel "opz").
  - destruct (opz_storage a0); split; reflexivity.
  - unfold Manager.render_category, Manager.render_slot, Manager.call_updateStorageDisplay.
    repeat visibility_step (panel "opz").
Qed.

(** Rendering a section writes children and adds a drop zone, nothing
    else. *)
Lemma renderOp1Section_proj {A} (proj : element -> A) localeCompare parentFolder
    subdirectories (doc : gmap string element) id :
  (forall c e, proj (set_children c e) = proj e) ->
  (forall e, proj (add_dropZone e) = proj e) ->
  proj <$> (Manager.renderOp1Section localeCompare parentFolder subdirectories doc !! id)
  = proj <$> (doc !! id).
Proof.
  intros Hc Hz. unfold Manager.renderOp1Section, Manager.setupOp1SectionDropZone.
  destruct (doc !! _) as [container |]; [| reflexivity].
  destruct (Manager.sortedSubdirs localeCompare subdirectories);
    repeat (rewrite lookup_alter_proj; [| intros; now rewrite ?Hc, ?Hz]);
    reflexivity.
Qed.

Lemma same_visibility_render ids localeCompare parentFolder subdirectories s :
  same_visibility ids s
    (Manager.with_elements (Manager.renderOp1Section localeCompare parentFolder subdirectories)
       s).
Proof.
  split; [reflexivity |]. intros id _. cbn.
  apply renderOp1Section_proj; reflexivity.
Qed.

Lemma fetchOp1Samples_visibility localeCompare :
  keeps (same_visibility (panel "op1")) (Manager.fetchOp1Samples localeCompare).
Proof.
  pose proof (same_visibility_refl (panel "op1")) as Hrefl.
  pose proof (same_visibility_trans (panel "op1")) as Htrans.
  unfold Manager.fetchOp1Samples, Manager.show_validation_error, Manager.hide_validation_error,
    Manager.hide_required, Manager.hide_if_present, Manager.call_updateStorageDisplay,
    console_error.
  repeat first [ apply keeps_modify; intros ?; apply same_visibility_render
               | visibility_step (panel "op1") ].
Qed.

Lemma class_remove_not_In c l : ~ In c (class_remove [c] l).
Proof.
  unfold class_remove. intros Hin. apply List.filter_In in Hin as [_ Hc].
  cbn in Hc. now rewrite String.eqb_refl in Hc.
Qed.

Lemma hide_required_run id b env (s : Manager.state) h :
  Manager.hide_required id b env s h =
    match Manager.elements s !! id with
    | Some _ => (Manager.with_elements (alter (set_hidden b) id) s, h, Returned tt)
    | None => (s, h, Thrown type_error)
    end.
Proof. unfold Manager.hide_required. unfold_async. now destruct (Manager.elements s !! id). Qed.

Lemma on_manager_run {A} (m : M Manager.state A) env (s : Tabs.state) h :
  Tabs.on_manager m env s h =
    ({| Tabs.manager := fst (fst (m env (Tabs.manager s) h)); Tabs.tabs := Tabs.tabs s |},
     snd (fst (m env (Tabs.manager s) h)), snd (m env (Tabs.manager s) h)).
Proof. unfold Tabs.on_manager. now destruct (m env (Tabs.manager s) h) as [[s' h'] o]. Qed.

(** The part of [switchDevice] that shows one container, hides the other
    and reads the samples of the device. *)
Lemma show_device_run localeCompare device env (s : Manager.state) h a b :
  Manager.elements s !! "opz-container" = Some a ->
  Manager.elements s !! "op1-container" = Some b ->
  let shown := String.eqb device "opz" in
  let m := if shown
           then bind (Manager.hide_required "opz-container" false) (fun _ =>
                bind (Manager.hide_required "op1-container" true) (fun _ =>
                Manager.fetchOpzSamples))
           else bind (Manager.hide_required "opz-container" true) (fun _ =>
                bind (Manager.hide_required "op1-container" false) (fun _ =>
                Manager.fetchOp1Samples localeCompare)) in
  snd (m env s h) = Returned tt
  /\ Manager.currentDevice (fst (fst (m env s h))) = Manager.currentDevice s
  /\ hidden <$> (Manager.elements (fst (fst (m env s h))) !! "opz-container")
       = Some (negb shown)
  /\ hidden <$> (Manager.elements (fst (fst (m env s h))) !! "op1-container") = Some shown
  /\ requests (snd (fst (m env s h))) = (requests h ++ [refresh_request device])%list.
Proof.
  intros Ha Hb shown m. subst m. unfold refresh_request. fold shown.
  set (s1 := Manager.with_elements (alter (set_hidden (negb shown)) "opz-container") s).
  set (s2 := Manager.with_elements (alter (set_hidden shown) "op1-container") s1).
  assert (H1 : Manager.hide_required "opz-container" (negb shown) env s h = (s1, h, Returned tt)).
  { rewrite hide_required_run. now rewrite Ha. }
  assert (H2 : Manager.hide_required "op1-container" shown env s1 h = (s2, h, Returned tt)).
  { rewrite hide_required_run. subst s1. cbn.
    rewrite lookup_alter_ne by discriminate. now rewrite Hb. }
  assert (Hopz : hidden <$> (Manager.elements s2 !! "opz-container") = Some (negb shown)).
  { subst s2 s1. cbn. rewrite lookup_alter_ne by discriminate.
    rewrite lookup_alter_eq, Ha. reflexivity. }
  assert (Hop1 : hidden <$> (Manager.elements s2 !! "op1-container") = Some shown).
  { subst s2 s1. cbn. rewrite lookup_alter_eq, lookup_alter_ne by discriminate.
    now rewrite Hb. }
  destruct shown; cbn [negb] in *.
  - rewrite (bind_value _ _ _ _ _ _ _ _ H1), (bind_value _ _ _ _ _ _ _ _ H2).
    destruct (fetchOpzSamples_visibility env s2 h) as [Hdev Hvis].
    split; [apply Manager_fetchOpzSamples_returns |].
    split; [exact Hdev |].
    rewrite !Hvis, Hopz, Hop1, requests_refresh_opz.
    + repeat split.
    + cbn. intros [H | [H | [H | []]]]; discriminate H.
    + cbn. intros [H | [H | [H | []]]]; discriminate H.
  - rewrite (bind_value _ _ _ _ _ _ _ _ H1), (bind_value _ _ _ _ _ _ _ _ H2).
    destruct (fetchOp1Samples_visibility localeCompare env s2 h) as [Hdev Hvis].
    split; [apply Manager_fetchOp1Samples_returns |].
    split; [exact Hdev |].
    rewrite !Hvis, Hopz, Hop1, requests_refresh_op1.
    + repeat split.
    + cbn. intros [H | [H | [H | []]]]; discriminate H.
    + cbn. intros [H | [H | [H | []]]]; discriminate H.
Qed.

Lemma save_run {S} q label env (s : S) h :
  try_catch (bind (fetch ShNone q) (fun _ => ret tt)) (fun err => console_error label err)
    env s h =
  (s,
   (h ++ Fetched q :: match network env h ShNone q with
                      | Returned _ => []
                      | Thrown msg => [ConsoleError label msg]
                      end)%list,
   Returned tt).
Proof.
  unfold_async. destruct (network env h ShNone q); cbn; [reflexivity |].
  now rewrite <- List.app_assoc.
Qed.

Lemma switchDevice_tabs device (ts : list Tabs.tab) :
  let ts' := List.map (fun t =>
               {| Tabs.tab_device := Tabs.tab_device t;
                  Tabs.tab_classes :=
                    Tabs.class_toggle "active" (String.eqb (Tabs.tab_device t) device)
                                      (Tabs.tab_classes t) |}) ts in
  List.map Tabs.tab_device ts' = List.map Tabs.tab_device ts
  /\ Forall (fun t => In "active" (Tabs.tab_classes t) <-> Tabs.tab_device t = device) ts'.
Proof.
  cbv zeta. split.
  - rewrite List.map_map. reflexivity.
  - apply List.Forall_map. apply Forall_forall. intros t _. cbn.
    unfold Tabs.class_toggle. destruct (String.eqb_spec (Tabs.tab_device t) device) as [E | E].
    + split; [now intros _ | intros _; apply class_add_In].
    + split; [intros H; now apply class_remove_not_In in H | intros H; contradiction].
Qed.

Lemma switchDevice_facts :
  forall localeCompare env st device h,
    let r := Tabs.switchDevice localeCompare device env st h in
    let page := Manager.elements (Tabs.manager (final r)) in
    Manager.currentDevice (Tabs.manager (final r)) = device
    /\ List.map Tabs.tab_device (Tabs.tabs (final r)) = List.map Tabs.tab_device (Tabs.tabs st)
    /\ Forall (fun t => In "active" (Tabs.tab_classes t) <-> Tabs.tab_device t = device)
              (Tabs.tabs (final r))
    /\ (is_Some (Manager.elements (Tabs.manager st) !! "opz-container") ->
        is_Some (Manager.elements (Tabs.manager st) !! "op1-container") ->
        result r = Returned tt
        /\ hidden <$> (page !! "opz-container") = Some (negb (String.eqb device "opz"))
        /\ hidden <$> (page !! "op1-container") = Some (String.eqb device "opz")
        /\ requests (trace r) =
             (requests h ++ [refresh_request device; save_device_request device])%list)
    /\ (Manager.elements (Tabs.manager st) !! "opz-container" = None
        \/ Manager.elements (Tabs.manager st) !! "op1-container" = None ->
        result r = Thrown type_error /\ trace r = h).
Proof.
  intros localeCompare env st device h r page. subst page r.
  unfold Tabs.switchDevice. rewrite bind_modify.
  set (ts' := List.map _ (Tabs.tabs st)).
  set (st1 := {| Tabs.manager := Tabs.with_currentDevice device (Tabs.manager st);
                 Tabs.tabs := ts' |}).
  destruct (switchDevice_tabs device (Tabs.tabs st)) as [Hdev Hact]. fold ts' in Hdev, Hact.
  set (m := if String.eqb device "opz" then _ else _).
  assert (Hm : m env st1 h =
               Tabs.on_manager
                 (if String.eqb device "opz"
                  then bind (Manager.hide_required "opz-container" false) (fun _ =>
                       bind (Manager.hide_required "op1-container" true) (fun _ =>
                       Manager.fetchOpzSamples))
                  else bind (Manager.hide_required "opz-container" true) (fun _ =>
                       bind (Manager.hide_required "op1-container" false) (fun _ =>
                       Manager.fetchOp1Samples localeCompare))) env st1 h).
  { subst m. now destruct (String.eqb device "opz"). }
  rewrite on_manager_run in Hm.
  set (inner := if String.eqb device "opz" then _ else _) in Hm.
  set (s0 := Tabs.with_currentDevice device (Tabs.manager st)).
  assert (Hkeep : Manager.currentDevice (fst (fst (inner env s0 h))) = device
                  /\ (Manager.elements (Tabs.manager st) !! "opz-container" = None
                      \/ Manager.elements (Tabs.manager st) !! "op1-container" = None ->
                      inner env s0 h = (fst (fst (inner env s0 h)), h, Thrown type_error))).
  { subst inner.
    destruct (Manager.elements (Tabs.manager st) !! "opz-container") as [a |] eqn:Ha;
      destruct (Manager.elements (Tabs.manager st) !! "op1-container") as [b |] eqn:Hb.
    - destruct (show_device_run localeCompare device env s0 h a b Ha Hb)
        as (_ & Hcur & _). cbv zeta in Hcur. split; [exact Hcur |].
      intros [H | H]; discriminate H.
    - assert (H2 : forall v s, Manager.elements s !! "op1-container" = None ->
                     Manager.hide_required "op1-container" v env s h = (s, h, Thrown type_error)).
      { intros v s Hs. rewrite hide_required_run. now rewrite Hs. }
      destruct (String.eqb device "opz");
        (erewrite bind_value by (rewrite hide_required_run; cbn; rewrite Ha; reflexivity));
        (erewrite bind_thrown
           by (apply H2; cbn; rewrite lookup_alter_ne by discriminate; exact Hb));
        split; reflexivity.
    - destruct (String.eqb device "opz");
        (erewrite bind_thrown by (rewrite hide_required_run; cbn; rewrite Ha; reflexivity));
        split; reflexivity.
    - destruct (String.eqb device "opz");
        (erewrite bind_thrown by (rewrite hide_required_run; cbn; rewrite Ha; reflexivity));
        split; reflexivity. }
  destruct Hkeep as [Hcur Hmiss].
  assert (Hshow : forall a b,
            Manager.elements (Tabs.manager st) !! "opz-container" = Some a ->
            Manager.elements (Tabs.manager st) !! "op1-container" = Some b ->
            snd (inner env s0 h) = Returned tt
            /\ hidden <$> (Manager.elements (fst (fst (inner env s0 h))) !! "opz-container")
                 = Some (negb (String.eqb device "opz"))
            /\ hidden <$> (Manager.elements (fst (fst (inner env s0 h))) !! "op1-container")
                 = Some (String.eqb device "opz")
            /\ requests (snd (fst (inner env s0 h))) = (requests h ++ [refresh_request device])%list).
  { intros a b Ha Hb.
    destruct (show_device_run localeCompare device env s0 h a b Ha Hb)
      as (Hret & _ & Hopz & Hop1 & Hreq). now repeat split. }
  change (Tabs.manager st1) with s0 in Hm.
  destruct (inner env s0 h) as [[s2 h2] o2] eqn:Einner. cbn [fst snd] in *.
  destruct o2 as [[] | msg].
  - rewrite (bind_value _ _ _ _ _ _ _ _ Hm), save_run.
    cbn [fst snd final trace result Tabs.manager Tabs.tabs].
    split; [exact Hcur |]. split; [exact Hdev |]. split; [exact Hact |]. split.
    + intros [a Ha] [b Hb]. destruct (Hshow a b Ha Hb) as (_ & Hopz & Hop1 & Hreq).
      split; [reflexivity |]. split; [exact Hopz |]. split; [exact Hop1 |].
      rewrite requests_app, Hreq, requests_fetched, <- List.app_assoc.
      now destruct (network env h2 ShNone _).
    + intros Hnone. specialize (Hmiss Hnone). discriminate Hmiss.
  - rewrite (bind_thrown _ _ _ _ _ _ _ _ Hm).
    cbn [fst snd final trace result Tabs.manager Tabs.tabs].
    split; [exact Hcur |]. split; [exact Hdev |]. split; [exact Hact |]. split.
    + intros [a Ha] [b Hb]. destruct (Hshow a b Ha Hb) as (Hret & _). discriminate Hret.
    + intros Hnone. specialize (Hmiss Hnone). injection Hmiss as -> ->. split; reflexivity.
Qed.

(** X7: [switchDevice] leaves exactly one device on the page.  With both
    containers on the page it never rejects; afterwards the device is the
    selected one, the container of the slot-based device is shown exactly
    when the device is "opz" and the other container exactly when it is not,
    a tab is active exactly when it is the tab of the device, and two
    requests were sent: the samples of the device were read, then the
    selection was saved, whatever the outcome of the reading.  Without one
    of the containers it rejects before any request. *)
Theorem switchDevice_shows_one_device :
  forall localeCompare env st device,
    let r := run (Tabs.switchDevice localeCompare device) env st in
    let page := Manager.elements (Tabs.manager (final r)) in
    Manager.currentDevice (Tabs.manager (final r)) = device
    /\ List.map Tabs.tab_device (Tabs.tabs (final r)) = List.map Tabs.tab_device (Tabs.tabs st)
    /\ Forall (fun t => In "active" (Tabs.tab_classes t) <-> Tabs.tab_device t = device)
              (Tabs.tabs (final r))
    /\ (is_Some (Manager.elements (Tabs.manager st) !! "opz-container") ->
        is_Some (Manager.elements (Tabs.manager st) !! "op1-container") ->
        result r = Returned tt
        /\ hidden <$> (page !! "opz-container") = Some (negb (String.eqb device "opz"))
        /\ hidden <$> (page !! "op1-container") = Some (String.eqb device "opz")
        /\ requests (trace r) = [refresh_request device; save_device_request device])
    /\ (Manager.elements (Tabs.manager st) !! "opz-container" = None
        \/ Manager.elements (Tabs.manager st) !! "op1-container" = None ->
        result r = Thrown type_error /\ trace r = []).
Proof.
  intros localeCompare env st device. exact (switchDevice_facts localeCompare env st device []).
Qed.

(** Selecting the folder-based device on a page that shows the other one. *)
Lemma switchDevice_shows_one_device_witness :
  let r := run (Tabs.switchDevice codeUnitCompare "op1") storing_backend tabbed_page in
  hidden <$> (Manager.elements (Tabs.manager (final r)) !! "opz-container") = Some true
  /\ hidden <$> (Manager.elements (Tabs.manager (final r)) !! "op1-container") = Some false.
Proof.
  destruct (switchDevice_shows_one_device codeUnitCompare storing_backend tabbed_page "op1")
    as (_ & _ & _ & H & _).
  destruct H as (_ & Hopz & Hop1 & _); [eexists; reflexivity | eexists; reflexivity |].
  split; [exact Hopz | exact Hop1].
Defined.


Lemma get_bind {S B} (k : S -> M S B) env (s : S) h : bind get k env s h = k s env s h.
Proof. reflexivity. Qed.

Lemma unawaited_run {S A} (m : M S A) env (s : S) h :
  Tabs.unawaited m env s h = (fst (fst (m env s h)), snd (fst (m env s h)), Returned tt).
Proof. unfold Tabs.unawaited. now destruct (m env s h) as [[s' h'] o]. Qed.

Lemma emits_on_manager {A} P (m : M Manager.state A) :
  emits P m -> emits P (Tabs.on_manager m).
Proof.
  intros Hm env s h. rewrite on_manager_run. cbn. apply Hm.
Qed.

Lemma emits_refresh_opz : emits anything Manager.fetchOpzSamples.
Proof.
  intros env s h. destruct (Manager_fetchOpzSamples_asks env s h) as (rest & -> & _).
  eexists. split; [reflexivity |]. apply Forall_forall. intros; exact I.
Qed.

Lemma emits_refresh_op1 localeCompare : emits anything (Manager.fetchOp1Samples localeCompare).
Proof.
  intros env s h. destruct (Manager_fetchOp1Samples_asks localeCompare env s h) as (rest & -> & _).
  eexists. split; [reflexivity |]. apply Forall_forall. intros; exact I.
Qed.

Lemma emits_switchDevice localeCompare device :
  emits anything (Tabs.switchDevice localeCompare device).
Proof.
  pose proof emits_refresh_opz. pose proof (emits_refresh_op1 localeCompare).
  unfold Tabs.switchDevice, Manager.hide_required.
  repeat first [ assumption | apply emits_on_manager | emits_step ].
Qed.

Lemma load_device_run env (st : Tabs.state) :
  exists rest,
    try_catch
      (bind (fetch ShConfig {| url := "/get-config-setting?config_option=SELECTED_DEVICE";
                               method := "GET"; fields := [] |}) (fun res =>
       bind (lift (json res)) (fun data =>
         let value := or_else (config_value data) EmptyString in
         if JsString.truthy value && (String.eqb value "opz" || String.eqb value "op1")
         then modify (fun s => {| Tabs.manager := Tabs.with_currentDevice value (Tabs.manager s);
                                  Tabs.tabs := Tabs.tabs s |})
         else ret tt)))
      (fun err => console_error "Failed to load device setting:" err) env st [] =
    ({| Tabs.manager :=
          Tabs.with_currentDevice
            (chosen_device env (Manager.currentDevice (Tabs.manager st))) (Tabs.manager st);
        Tabs.tabs := Tabs.tabs st |},
     Fetched device_query :: rest, Returned tt)
    /\ Forall no_request rest.
Proof.
  unfold chosen_device, stored_device. fold device_query. unfold_async. cbn [app].
  destruct (network env [] ShConfig device_query) as [res | msg].
  2: { eexists. split; [destruct st as [[] ?]; cbn; reflexivity | repeat constructor]. }
  destruct (json res) as [data | msg].
  2: { eexists. split; [destruct st as [[] ?]; cbn; reflexivity | repeat constructor]. }
  destruct (config_value data) as [d |]; cbn [or_else].
  2: { exists []. split; [| constructor]. destruct st as [[] ?]. reflexivity. }
  destruct d as [| c d].
  - cbn. exists []. split; [| constructor]. destruct st as [[] ?]. reflexivity.
  - cbn [JsString.truthy andb]. destruct (String.eqb _ "opz" || String.eqb _ "op1").
    + exists []. split; [reflexivity | constructor].
    + exists []. split; [| constructor]. destruct st as [[] ?]. reflexivity.
Qed.

(** X8: [initDeviceTabs] starts with the stored device only when it is "opz"
    or "op1"; with any other stored value, or when the setting cannot be
    read, it stays with the current device.  It asks for the setting first,
    then switches to the device chosen (so that one container is shown, the
    samples are read and the selection is saved), and never rejects, not
    even when the switch does. *)
Theorem initDeviceTabs_adopts_known_devices :
  forall localeCompare env st,
    let chosen := chosen_device env (Manager.currentDevice (Tabs.manager st)) in
    let r := run (Tabs.initDeviceTabs localeCompare) env st in
    let page := Manager.elements (Tabs.manager (final r)) in
    result r = Returned tt
    /\ Manager.currentDevice (Tabs.manager (final r)) = chosen
    /\ Forall (fun t => In "active" (Tabs.tab_classes t) <-> Tabs.tab_device t = chosen)
              (Tabs.tabs (final r))
    /\ List.hd_error (requests (trace r)) = Some device_query
    /\ (is_Some (Manager.elements (Tabs.manager st) !! "opz-container") ->
        is_Some (Manager.elements (Tabs.manager st) !! "op1-container") ->
        hidden <$> (page !! "opz-container") = Some (negb (String.eqb chosen "opz"))
        /\ hidden <$> (page !! "op1-container") = Some (String.eqb chosen "opz")
        /\ requests (trace r) =
             [device_query; refresh_request chosen; save_device_request chosen]).
Proof.
  intros localeCompare env st chosen r page. subst page r.
  unfold Tabs.initDeviceTabs, run.
  destruct (load_device_run env st) as (rest & E & Hrest). fold chosen in E.
  rewrite (bind_value _ _ _ _ _ _ _ _ E), get_bind, unawaited_run.
  cbn [Tabs.manager Manager.currentDevice Tabs.with_currentDevice].
  set (st1 := {| Tabs.manager := _; Tabs.tabs := Tabs.tabs st |}).
  pose proof (switchDevice_facts localeCompare env st1 chosen (Fetched device_query :: rest))
    as (Hcur & _ & Hact & Hboth & _).
  destruct (Tabs.switchDevice localeCompare chosen env st1 (Fetched device_query :: rest))
    as [[s2 h2] o2] eqn:Es.
  cbn [fst snd final trace result] in *.
  split; [reflexivity |]. split; [exact Hcur |]. split; [exact Hact |].
  assert (Hpre : exists more, h2 = Fetched device_query :: more).
  { destruct (emits_switchDevice localeCompare chosen env st1 (Fetched device_query :: rest))
      as (more & Hmore & _).
    rewrite Es in Hmore. exists (rest ++ more)%list. exact Hmore. }
  destruct Hpre as (more & ->). split; [reflexivity |].
  intros Ha Hb. destruct (Hboth Ha Hb) as (_ & Hopz & Hop1 & Hreq).
  split; [exact Hopz |]. split; [exact Hop1 |].
  rewrite Hreq, requests_fetched, (requests_none rest Hrest). reflexivity.
Qed.

(** *** The delete button of samplemanager.js *)

Lemma slots_of_clear_slot category slotIndex e :
  LegacyListeners.slots_of (LegacyListeners.clear_slot category slotIndex e) =
    List.map (fun d => if String.eqb (slot_category d) category
                          && Nat.eqb (slot_index d) slotIndex
                       then cleared d else d) (LegacyListeners.slots_of e).
Proof.
  unfold LegacyListeners.slots_of, LegacyListeners.clear_slot. cbn [children set_children].
  induction (children e) as [| c l IH]; [reflexivity |].
  cbn [List.map List.flat_map]. rewrite IH.
  destruct c as [| d | | |]; try reflexivity.
  destruct (String.eqb (slot_category d) category && Nat.eqb (slot_index d) slotIndex) eqn:E;
    cbn [app List.map]; rewrite E; [| reflexivity].
  unfold cleared. apply andb_prop in E as [_ E]. apply Nat.eqb_eq in E. now rewrite E.
Qed.

Lemma find_map_same {A} (p : A -> bool) (g : A -> A) l :
  (forall x, p (g x) = p x) ->
  List.find p (List.map g l) = option_map g (List.find p l).
Proof.
  intros Hg. induction l as [| x l IH]; [reflexivity |].
  cbn. rewrite Hg. now destruct (p x).
Qed.

Lemma slot_at_cleared category slotIndex doc d :
  LegacyListeners.slot_at category slotIndex doc = Some d ->
  LegacyListeners.slot_at category slotIndex
    (alter (LegacyListeners.clear_slot category slotIndex) category doc) = Some (cleared d).
Proof.
  unfold LegacyListeners.slot_at. rewrite lookup_alter_eq.
  destruct (doc !! category) as [container |]; [| discriminate]. cbn [fmap option_fmap option_map].
  intros Hfind. rewrite slots_of_clear_slot, find_map_same.
  - rewrite Hfind. cbn. apply List.find_some in Hfind as [_ Hp]. now rewrite Hp.
  - intros x. now destruct (String.eqb (slot_category x) category
                            && Nat.eqb (slot_index x) slotIndex) eqn:E.
Qed.

(** X9: the delete button of samplemanager.js asks before it sends anything.
    A confirmed and granted deletion does not read the slots again: it
    clears the path and the label of that one slot and leaves the counters,
    the storage used and every other element of the page as they were.
    From then on the button of that slot does nothing, and dragging the slot
    somewhere sends nothing.  A deletion that is declined or not granted
    leaves the page as it was. *)
Theorem legacy_delete_clears_one_slot :
  forall env st category slotIndex d p,
    LegacyListeners.slot_at category slotIndex (Legacy.elements st) = Some d ->
    slot_path d = Some p -> p <> EmptyString ->
    let question := "Delete sample?" ++ nl ++ p in
    let asked := Confirmed question (dialog env [] question) in
    let request := legacy_delete_request p in
    let r := run (LegacyListeners.delete_click category slotIndex) env st in
    result r = Returned tt
    /\ if dialog env [] question && granted (network env [asked] ShNone request)
       then trace r = [asked; Fetched request]
            /\ Legacy.numSamples (final r) = Legacy.numSamples st
            /\ Legacy.storageUsed (final r) = Legacy.storageUsed st
            /\ (forall id, id <> category ->
                  Legacy.elements (final r) !! id = Legacy.elements st !! id)
            /\ LegacyListeners.slot_at category slotIndex (Legacy.elements (final r))
                 = Some (cleared d)
            /\ (forall env', run (LegacyListeners.delete_click category slotIndex) env' (final r)
                  = (final r, [], Returned tt))
            /\ (forall env' target slot st',
                  trace (run (Legacy.slot_drop target slot
                                (LegacyListeners.dragstart (cleared d))) env' st') = [])
       else final r = st
            /\ requests (trace r) = (if dialog env [] question then [request] else [])
            /\ alerts (trace r) =
                 (if dialog env [] question then ["Could not delete sample."] else []).
Proof.
  intros env st category slotIndex d p Hat Hpath Hp question asked request r. subst r.
  unfold LegacyListeners.delete_click, run. rewrite get_bind, Hat, Hpath.
  rewrite (or_else_nonempty p EmptyString Hp), (truthy_nonempty p Hp). cbn [negb].
  rewrite confirm_bind. fold question. cbn [app]. fold asked.
  destruct (dialog env [] question); cbn [negb andb].
  2: { repeat split. }
  fold (legacy_delete_request p). fold request. unfold granted. unfold_async.
  destruct (network env [asked] ShNone request) as [response | msg]; cbn [app].
  2: { repeat split. }
  destruct (ok response); cbn [negb fst snd].
  2: { repeat split. }
  split; [reflexivity |]. split; [reflexivity |]. split; [reflexivity |].
  split; [reflexivity |]. split.
  { intros id Hid. cbn. now rewrite lookup_alter_ne. }
  split.
  { cbn. now apply slot_at_cleared. }
  split.
  - intros env'. cbn [Legacy.elements Legacy.with_elements].
    rewrite (slot_at_cleared _ _ _ _ Hat). reflexivity.
  - intros env' target slot st'. reflexivity.
Qed.

(** Deleting the sample of slot 2 after rendering the snapshot. *)
Lemma legacy_delete_clears_one_slot_witness :
  slot_text <$>
    LegacyListeners.slot_at "kick" 1
      (Legacy.elements
         (final (run (LegacyListeners.delete_click "kick" 1) (backend true kick_snapshot)
                   legacy_rendered)))
  = Some "Slot 2: (empty)".
Proof.
  destruct (legacy_delete_clears_one_slot (backend true kick_snapshot) legacy_rendered
              "kick" 1
              (new_slotDiv "kick" 1 (slot_of (Some "kick/02.wav") (Some "snare.wav") (Some 2048)))
              "kick/02.wav") as [_ H];
    [vm_compute; reflexivity | reflexivity | discriminate |].
  cbn [backend dialog network granted reply ok andb] in H.
  destruct H as (_ & _ & _ & _ & Hslot & _). rewrite Hslot. reflexivity.
Defined.

(** *** Rendering the slots *)

Lemma slot_children_from_cons i category slot slots :
  slot_children_from i category (slot :: slots) =
    SlotChild (new_slotDiv category i slot) :: slot_children_from (Datatypes.S i) category slots.
Proof.
  unfold slot_children_from. cbn [imap]. rewrite Nat.add_0_r. f_equal.
  apply imap_ext. intros j x _. cbn. now rewrite Nat.add_succ_r.
Qed.

Lemma updateStorageDisplay_samples_used storage n (doc : gmap string element) :
  textContent <$>
    (Manager.updateStorageDisplay "opz" storage
       {| Manager.extra_counts := None; Manager.extra_numSamples := Some n |} doc
     !! "opz-samples-used") =
  (fun _ => JsString.of_Z n) <$> (doc !! "opz-samples-used").
Proof.
  unfold Manager.updateStorageDisplay.
  change (String.eqb "opz" "op1") with false. change (String.eqb "opz" "opz") with true.
  cbv iota beta zeta. cbn [Manager.extra_counts Manager.extra_numSamples].
  repeat (rewrite lookup_alter_ne by discriminate).
  rewrite lookup_alter_eq.
  repeat (rewrite lookup_alter_ne by discriminate).
  now destruct (doc !! "opz-samples-used").
Qed.

(** What rendering one slot does to the state. *)
Lemma render_slot_run data storage category slot j env st h :
  opz_storage data = Some storage ->
  exists st',
    Manager.render_slot data category slot j env st h = (st', h, Returned tt)
    /\ Manager.opzNumSamples st' = Manager.opzNumSamples st + (if counted slot then 1 else 0)
    /\ Manager.opzStorageUsed st' = Manager.opzStorageUsed st
    /\ Manager.OPZ_TOTAL_STORAGE st' = Manager.OPZ_TOTAL_STORAGE st
    /\ (forall id, id <> category ->
          kids (Manager.elements st') id = kids (Manager.elements st) id)
    /\ kids (Manager.elements st') category =
         (fun l => l ++ [SlotChild (new_slotDiv category j slot)])%list
           <$> kids (Manager.elements st) category
    /\ shown_count st'.
Proof.
  intros Hs. unfold Manager.render_slot, Manager.call_updateStorageDisplay. rewrite Hs.
  unfold_async.
  destruct (counted slot); (eexists; split; [reflexivity |]); cbn [fst snd Manager.opzNumSamples Manager.opzStorageUsed
    Manager.OPZ_TOTAL_STORAGE Manager.elements Manager.with_elements
    Manager.with_opzNumSamples];
    (split; [lia |]); (split; [reflexivity |]); (split; [reflexivity |]);
    (split; [| split]).
  all: try (intros id Hid; unfold kids; rewrite lookup_alter_ne by congruence;
            now apply updateStorageDisplay_proj).
  all: try (unfold kids; rewrite lookup_alter_eq;
            match goal with
            | |- context [Manager.updateStorageDisplay ?dv ?sg ?ex ?doc !! ?id] =>
                pose proof (updateStorageDisplay_proj children dv sg ex doc id
                              (fun _ _ => eq_refl) (fun _ _ => eq_refl) (fun _ _ => eq_refl))
                  as Hk;
                destruct (Manager.updateStorageDisplay dv sg ex doc !! id);
                destruct (doc !! id); cbn in Hk |- *; congruence
            end).
  all: unfold shown_count;
    cbn [Manager.elements Manager.with_elements Manager.with_opzNumSamples
         Manager.opzNumSamples];
    intros e He;
    match type of He with
    | alter ?f ?c (Manager.updateStorageDisplay ?dv ?sg ?ex ?doc) !! ?id = _ =>
        pose proof (lookup_alter_proj textContent f c
                      (Manager.updateStorageDisplay dv sg ex doc) id (fun _ => eq_refl)) as Ht;
        rewrite He, updateStorageDisplay_samples_used in Ht;
        destruct (doc !! id); cbn in Ht; [| discriminate Ht];
        injection Ht as Ht; exact Ht
    end.
Qed.

Lemma counted_in_cons slot slots :
  counted_in (slot :: slots) = (if counted slot then 1 else 0) + counted_in slots.
Proof. unfold counted_in. cbn [List.filter]. destruct (counted slot); cbn [length]; lia. Qed.

Lemma render_slots_run data storage category slots :
  opz_storage data = Some storage ->
  forall i env st h,
  exists st',
    forEach_from i slots (Manager.render_slot data category) env st h = (st', h, Returned tt)
    /\ Manager.opzNumSamples st' = Manager.opzNumSamples st + counted_in slots
    /\ Manager.opzStorageUsed st' = Manager.opzStorageUsed st
    /\ Manager.OPZ_TOTAL_STORAGE st' = Manager.OPZ_TOTAL_STORAGE st
    /\ (forall id, id <> category ->
          kids (Manager.elements st') id = kids (Manager.elements st) id)
    /\ kids (Manager.elements st') category =
         (fun l => l ++ slot_children_from i category slots)%list
           <$> kids (Manager.elements st) category
    /\ (slots <> [] -> shown_count st')
    /\ (slots = [] -> st' = st).
Proof.
  intros Hs. induction slots as [| slot slots IH]; intros i env st h.
  - exists st. cbn [forEach_from]. split; [reflexivity |].
    split; [unfold counted_in; cbn; lia |]. split; [reflexivity |]. split; [reflexivity |].
    split; [reflexivity |]. split.
    + unfold slot_children_from. cbn [imap]. destruct (kids (Manager.elements st) category);
        cbn; [now rewrite List.app_nil_r | reflexivity].
    + split; [intros H; now contradiction H | reflexivity].
  - destruct (render_slot_run data storage category slot i env st h Hs)
      as (st1 & E1 & Hn1 & Hu1 & Ht1 & Ho1 & Hc1 & Hsh1).
    destruct (IH (Datatypes.S i) env st1 h) as (st2 & E2 & Hn2 & Hu2 & Ht2 & Ho2 & Hc2 & Hsh2 & Hnil).
    exists st2. cbn [forEach_from]. rewrite (bind_value _ _ _ _ _ _ _ _ E1).
    split; [exact E2 |]. split; [rewrite Hn2, Hn1, counted_in_cons; lia |].
    split; [congruence |]. split; [congruence |]. split.
    { intros id Hid. now rewrite Ho2, Ho1. }
    split.
    { rewrite Hc2, Hc1, slot_children_from_cons.
      destruct (kids (Manager.elements st) category); cbn; [| reflexivity].
      now rewrite <- List.app_assoc. }
    split; [| discriminate].
    intros _. destruct slots as [| s' slots'].
    + now rewrite (Hnil eq_refl).
    + now apply Hsh2.
Qed.

Lemma kids_is_Some doc doc' id :
  kids doc' id = kids doc id -> (is_Some (doc' !! id) <-> is_Some (doc !! id)).
Proof.
  unfold kids. destruct (doc' !! id), (doc !! id); cbn; intros H; try discriminate H;
    split; intros [x Hx]; try discriminate Hx; eauto.
Qed.

Lemma render_category_run data storage category catIndex container slots env st h :
  opz_storage data = Some storage ->
  Manager.elements st !! category = Some container ->
  nth_error (sampleData data) catIndex = Some slots ->
  exists st',
    Manager.render_category data category catIndex env st h = (st', h, Returned tt)
    /\ Manager.opzNumSamples st' = Manager.opzNumSamples st + counted_in slots
    /\ Manager.opzStorageUsed st' = Manager.opzStorageUsed st
    /\ Manager.OPZ_TOTAL_STORAGE st' = Manager.OPZ_TOTAL_STORAGE st
    /\ (forall id, id <> category ->
          kids (Manager.elements st') id = kids (Manager.elements st) id)
    /\ kids (Manager.elements st') category =
         Some (kept_heading (children container) ++ slot_children category slots)%list
    /\ (slots <> [] -> shown_count st')
    /\ (shown_count st -> shown_count st').
Proof.
  intros Hs Hc Hrow. unfold Manager.render_category.
  rewrite get_bind, Hc, bind_modify, Hrow. fold (kept_heading (children container)).
  set (st0 := Manager.with_elements _ st). unfold forEach.
  destruct (render_slots_run data storage category slots Hs 0 env st0 h)
    as (st1 & E & Hn & Hu & Ht & Ho & Hk & Hsh & Hnil).
  exists st1. split; [exact E |]. split; [exact Hn |]. split; [exact Hu |].
  split; [exact Ht |]. split.
  { intros id Hid. rewrite (Ho id Hid). subst st0. unfold kids. cbn.
    now rewrite lookup_alter_ne by congruence. }
  split.
  { rewrite Hk. subst st0. unfold kids. cbn. rewrite lookup_alter_eq, Hc. reflexivity. }
  split; [exact Hsh |].
  intros Hshown. destruct slots as [| s slots'].
  - rewrite (Hnil eq_refl). subst st0. intros e He. cbn in He |- *.
    pose proof (lookup_alter_proj textContent (set_children (kept_heading (children container)))
                  category (Manager.elements st) "opz-samples-used" (fun _ => eq_refl)) as Hx.
    rewrite He in Hx. destruct (Manager.elements st !! "opz-samples-used") as [e0 |] eqn:E0;
      cbn in Hx; [| discriminate Hx].
    injection Hx as ->. now apply Hshown.
  - now apply Hsh.
Qed.

Lemma render_category_absent data category catIndex env st h :
  Manager.elements st !! category = None ->
  Manager.render_category data category catIndex env st h = (st, h, Returned tt).
Proof. intros Hc. unfold Manager.render_category. now rewrite get_bind, Hc. Qed.

Lemma render_categories_run data storage :
  opz_storage data = Some storage ->
  forall cats i env st h,
    List.NoDup cats ->
    (forall k c, nth_error cats k = Some c -> is_Some (Manager.elements st !! c) ->
                 is_Some (nth_error (sampleData data) (i + k))) ->
    exists st',
      forEach_from i cats (Manager.render_category data) env st h = (st', h, Returned tt)
      /\ Manager.opzNumSamples st' =
           Manager.opzNumSamples st
           + counted_on (Manager.elements st) cats (List.skipn i (sampleData data))
      /\ Manager.opzStorageUsed st' = Manager.opzStorageUsed st
      /\ Manager.OPZ_TOTAL_STORAGE st' = Manager.OPZ_TOTAL_STORAGE st
      /\ (forall id, ~ In id cats ->
            kids (Manager.elements st') id = kids (Manager.elements st) id)
      /\ (forall k c container slots,
            nth_error cats k = Some c ->
            Manager.elements st !! c = Some container ->
            nth_error (sampleData data) (i + k) = Some slots ->
            kids (Manager.elements st') c =
              Some (kept_heading (children container) ++ slot_children c slots)%list)
      /\ (forall c, Manager.elements st !! c = None -> Manager.elements st' !! c = None)
      /\ (shown_count st -> shown_count st')
      /\ ((exists k c slots,
             nth_error cats k = Some c /\ is_Some (Manager.elements st !! c)
             /\ nth_error (sampleData data) (i + k) = Some slots /\ slots <> []) ->
          shown_count st').
Proof.
  intros Hs. induction cats as [| c cats IH]; intros i env st h Hnd Hrows.
  - exists st. cbn [forEach_from counted_on]. split; [reflexivity |]. split; [lia |].
    split; [reflexivity |]. split; [reflexivity |]. split; [reflexivity |].
    split; [intros [| k] ? ? ? Hk; discriminate Hk |]. split; [tauto |]. split; [tauto |].
    intros (k & c & slots & Hk & _). destruct k; discriminate Hk.
  - inversion Hnd as [| c' cats' Hnotin Hnd']; subst c' cats'.
    assert (Hstep : exists st1,
              Manager.render_category data c i env st h = (st1, h, Returned tt)
              /\ Manager.opzNumSamples st1 =
                   Manager.opzNumSamples st
                   + match Manager.elements st !! c with
                     | Some _ => counted_in (List.hd [] (List.skipn i (sampleData data)))
                     | None => 0
                     end
              /\ Manager.opzStorageUsed st1 = Manager.opzStorageUsed st
              /\ Manager.OPZ_TOTAL_STORAGE st1 = Manager.OPZ_TOTAL_STORAGE st
              /\ (forall id, id <> c ->
                    kids (Manager.elements st1) id = kids (Manager.elements st) id)
              /\ (forall container slots,
                    Manager.elements st !! c = Some container ->
                    nth_error (sampleData data) i = Some slots ->
                    kids (Manager.elements st1) c =
                      Some (kept_heading (children container) ++ slot_children c slots)%list)
              /\ (Manager.elements st !! c = None -> st1 = st)
              /\ (shown_count st -> shown_count st1)
              /\ (forall slots, is_Some (Manager.elements st !! c) ->
                    nth_error (sampleData data) i = Some slots -> slots <> [] ->
                    shown_count st1)).
    { destruct (Manager.elements st !! c) as [container |] eqn:Hc.
      - destruct (Hrows 0%nat c eq_refl) as [slots Hrow]; [rewrite Hc; eauto |].
        rewrite Nat.add_0_r in Hrow.
        destruct (render_category_run data storage c i container slots env st h Hs Hc Hrow)
          as (st1 & E & Hn & Hu & Ht & Ho & Hk & Hsh & Hkeep).
        exists st1. split; [exact E |]. split.
        { rewrite Hn. f_equal. f_equal.
          clear - Hrow. revert i Hrow. induction (sampleData data) as [| r rows IHr];
            intros [| i] Hrow; cbn in *; try discriminate Hrow.
          - now injection Hrow as ->.
          - now apply IHr. }
        split; [exact Hu |]. split; [exact Ht |]. split; [exact Ho |]. split.
        { intros container' slots' Hc' Hrow'. injection Hc' as <-.
          rewrite Hrow in Hrow'. injection Hrow' as <-. exact Hk. }
        split; [discriminate |]. split; [exact Hkeep |].
        intros slots' _ Hrow' Hne. rewrite Hrow in Hrow'. injection Hrow' as <-.
        now apply Hsh.
      - exists st. split; [now apply render_category_absent |]. split; [lia |].
        split; [reflexivity |]. split; [reflexivity |]. split; [reflexivity |].
        split; [discriminate |]. split; [reflexivity |]. split; [tauto |].
        intros slots [x Hx]. discriminate Hx. }
    destruct Hstep as (st1 & E1 & Hn1 & Hu1 & Ht1 & Ho1 & Hk1 & Habs1 & Hkeep1 & Hsh1).
    assert (Hsame : forall id, id <> c ->
              Manager.elements st1 !! id = None <-> Manager.elements st !! id = None).
    { intros id Hid. specialize (Ho1 id Hid). unfold kids in Ho1.
      destruct (Manager.elements st1 !! id), (Manager.elements st !! id);
        cbn in Ho1; try discriminate Ho1;
        split; intros H; first [discriminate H | reflexivity]. }
    destruct (IH (Datatypes.S i) env st1 h Hnd') as
      (st2 & E2 & Hn2 & Hu2 & Ht2 & Ho2 & Hk2 & Habs2 & Hkeep2 & Hsh2).
    { intros k c' Hk Hsome.
      assert (Hne : c' <> c).
      { intros ->. apply Hnotin. eapply nth_error_In; exact Hk. }
      replace (Datatypes.S i + k)%nat with (i + Datatypes.S k)%nat by lia.
      apply (Hrows (Datatypes.S k) c' Hk).
      apply (kids_is_Some _ _ _ (Ho1 c' Hne)). exact Hsome. }
    assert (Hcounted : counted_on (Manager.elements st1) cats
                         (List.skipn (Datatypes.S i) (sampleData data)) =
                       counted_on (Manager.elements st) cats
                         (List.skipn (Datatypes.S i) (sampleData data))).
    { clear - Ho1 Hnotin. revert Hnotin.
      generalize (List.skipn (Datatypes.S i) (sampleData data)).
      induction cats as [| c' cats IHc]; intros rows Hnotin; [reflexivity |].
      destruct rows as [| row rows]; [reflexivity |]. cbn [counted_on].
      rewrite IHc by (intros Hin; apply Hnotin; now right).
      assert (Hne : c' <> c) by (intros ->; apply Hnotin; now left).
      specialize (Ho1 c' Hne). unfold kids in Ho1.
      destruct (Manager.elements st1 !! c'), (Manager.elements st !! c');
        cbn in Ho1; try discriminate Ho1; reflexivity. }
    exists st2. cbn [forEach_from]. rewrite (bind_value _ _ _ _ _ _ _ _ E1).
    split; [exact E2 |]. split.
    { rewrite Hn2, Hn1, Hcounted.
      destruct (List.skipn i (sampleData data)) as [| row rows] eqn:Hskip.
      - assert (List.skipn (Datatypes.S i) (sampleData data) = []) as ->.
        { clear - Hskip. revert i Hskip. induction (sampleData data) as [| r rows IHr];
            intros [| i] Hskip; cbn in *; try reflexivity; try discriminate Hskip.
          now apply IHr. }
        cbn [counted_on List.hd].
        destruct cats; cbn [counted_on]; destruct (Manager.elements st !! c);
          unfold counted_in; cbn; lia.
      - assert (List.skipn (Datatypes.S i) (sampleData data) = rows) as ->.
        { clear - Hskip. revert i Hskip. induction (sampleData data) as [| r rs IHr];
            intros [| i] Hskip; cbn in *; try discriminate Hskip.
          - now injection Hskip as _ ->.
          - now apply IHr. }
        cbn [counted_on List.hd]. lia. }
    split; [congruence |]. split; [congruence |]. split.
    { intros id Hid. rewrite Ho2 by (intros Hin; apply Hid; now right).
      apply Ho1. intros ->. apply Hid. now left. }
    split.
    { intros [| k] c' container slots Hk Hc Hrow.
      - injection Hk as <-. rewrite Nat.add_0_r in Hrow.
        rewrite (Ho2 c Hnotin). exact (Hk1 container slots Hc Hrow).
      - cbn in Hk.
        assert (Hne : c' <> c).
        { intros ->. apply Hnotin. eapply nth_error_In; exact Hk. }
        pose proof (Ho1 c' Hne) as Hkid. unfold kids in Hkid. rewrite Hc in Hkid.
        destruct (Manager.elements st1 !! c') as [container1 |] eqn:Hc1;
          cbn in Hkid; [| discriminate Hkid].
        injection Hkid as Hkid.
        replace (i + Datatypes.S k)%nat with (Datatypes.S i + k)%nat in Hrow by lia.
        rewrite (Hk2 k c' container1 slots Hk Hc1 Hrow). now rewrite Hkid. }
    split.
    { intros c' Hc'. apply Habs2.
      destruct (decide (c' = c)) as [-> | Hne].
      - now rewrite (Habs1 Hc').
      - now apply Hsame. }
    split; [tauto |].
    intros ([| k] & c' & slots & Hk & Hsome & Hrow & Hne).
    + injection Hk as <-. rewrite Nat.add_0_r in Hrow.
      apply Hkeep2. exact (Hsh1 slots Hsome Hrow Hne).
    + cbn in Hk. apply Hsh2. exists k, c', slots.
      assert (Hnec : c' <> c).
      { intros ->. apply Hnotin. eapply nth_error_In; exact Hk. }
      split; [exact Hk |]. split.
      * apply (kids_is_Some _ _ _ (Ho1 c' Hnec)). exact Hsome.
      * split; [| exact Hne].
        now replace (Datatypes.S i + k)%nat with (i + Datatypes.S k)%nat by lia.
Qed.

Lemma counted_on_ext (doc doc' : gmap string element) cats rows :
  (forall c, doc' !! c = None <-> doc !! c = None) ->
  counted_on doc' cats rows = counted_on doc cats rows.
Proof.
  intros Hsame. revert rows. induction cats as [| c cats IH]; intros rows; [reflexivity |].
  destruct rows as [| row rows]; [reflexivity |]. cbn [counted_on]. rewrite IH.
  specialize (Hsame c). destruct (doc' !! c), (doc !! c); try reflexivity.
  - destruct Hsame as [_ H]. discriminate (H eq_refl).
  - destruct Hsame as [H _]. discriminate (H eq_refl).
Qed.

Lemma kids_alter_hidden b id' (doc : gmap string element) id :
  kids (alter (set_hidden b) id' doc) id = kids doc id.
Proof. unfold kids. now apply lookup_alter_proj. Qed.

Lemma kids_None doc id : kids doc id = None <-> doc !! id = None.
Proof. unfold kids. destruct (doc !! id); cbn; split; intros H; congruence. Qed.

(** X10: what a refresh of the slot-based device renders.  For a snapshot
    without a validation error and with its storage, whose categories are
    distinct and each have their row: the refresh sends its one request and
    logs nothing; every category that has a container on the page shows its
    heading, if it had one, followed by one slot element for each slot of
    its row, in order; nothing else changes its children; the counter is the
    number of counted slots of the categories on the page, the storage
    variables are those of the snapshot; and if any slot was rendered, the
    element that shows the number of samples agrees with the counter. *)
Theorem refresh_renders_every_slot :
  forall env st response data storage,
    network env [] ShOpz (read_samples "/read-samples") = Returned response ->
    ok response = true ->
    json response = Returned data ->
    or_else (opz_validation_error data) EmptyString = EmptyString ->
    opz_storage data = Some storage ->
    is_Some (Manager.elements st !! "validation-error-container") ->
    List.NoDup (categories data) ->
    (forall k c, nth_error (categories data) k = Some c ->
                 is_Some (Manager.elements st !! c) ->
                 is_Some (nth_error (sampleData data) k)) ->
    let r := run Manager.fetchOpzSamples env st in
    let page := Manager.elements (final r) in
    result r = Returned tt
    /\ trace r = [Fetched (read_samples "/read-samples")]
    /\ Manager.opzNumSamples (final r) =
         counted_on (Manager.elements st) (categories data) (sampleData data)
    /\ Manager.opzStorageUsed (final r) = used storage
    /\ Manager.OPZ_TOTAL_STORAGE (final r) = total storage
    /\ (forall k c container slots,
          nth_error (categories data) k = Some c ->
          Manager.elements st !! c = Some container ->
          nth_error (sampleData data) k = Some slots ->
          kids page c = Some (kept_heading (children container) ++ slot_children c slots)%list)
    /\ (forall id, ~ In id (categories data) -> kids page id = kids (Manager.elements st) id)
    /\ ((exists k c slots,
           nth_error (categories data) k = Some c /\ is_Some (Manager.elements st !! c)
           /\ nth_error (sampleData data) k = Some slots /\ slots <> []) ->
        shown_count (final r)).
Proof.
  intros env st response data storage Hnet Hok Hjson Hval Hs [ec Hec] Hnd Hrows r page.
  set (st0 := Manager.with_opzNumSamples 0
                (Manager.with_opz_storage (used storage) (total storage)
                   (Manager.with_elements (alter (set_hidden false) "opz-file-list")
                      (Manager.with_elements (alter (set_hidden false) "opz-storage-info")
                         (Manager.with_elements
                            (alter (set_hidden true) "validation-error-container") st))))).
  assert (Hrun : r = forEach_from 0 (categories data) (Manager.render_category data) env st0
                       [Fetched (read_samples "/read-samples")]).
  { subst r. unfold Manager.fetchOpzSamples, run.
    fold (read_samples "/read-samples").
    unfold try_catch, bind at 1, fetch at 1. rewrite Hnet. cbn [app]. rewrite Hok. cbn [negb].
    unfold bind at 1, lift at 1. rewrite Hjson, Hval. cbn [JsString.truthy].
    unfold Manager.hide_validation_error.
    erewrite bind_value.
    2: { erewrite bind_value by (rewrite hide_required_run, Hec; reflexivity).
         unfold Manager.hide_if_present. rewrite bind_modify. unfold modify. reflexivity. }
    rewrite !bind_modify, Hs. unfold forEach. fold st0.
    destruct (render_categories_run data storage Hs (categories data) 0 env st0
                [Fetched (read_samples "/read-samples")] Hnd) as (st' & E & _).
    { intros k c Hk Hsome. cbn. apply (Hrows k c Hk).
      subst st0. cbn in Hsome.
      apply (kids_is_Some _ (Manager.elements st) c) in Hsome; [exact Hsome |].
      now rewrite !kids_alter_hidden. }
    now rewrite E. }
  assert (Hkids0 : forall id, kids (Manager.elements st0) id = kids (Manager.elements st) id).
  { intros id. subst st0. cbn. now rewrite !kids_alter_hidden. }
  assert (Hnone0 : forall c, Manager.elements st0 !! c = None <-> Manager.elements st !! c = None).
  { intros c. rewrite <- !kids_None. now rewrite Hkids0. }
  destruct (render_categories_run data storage Hs (categories data) 0 env st0
              [Fetched (read_samples "/read-samples")] Hnd)
    as (st' & E & Hn & Hu & Ht & Ho & Hk & _ & _ & Hsh).
  { intros k c Hk Hsome. cbn. apply (Hrows k c Hk).
    apply (kids_is_Some _ _ _ (Hkids0 c)). exact Hsome. }
  rewrite E in Hrun. subst page. rewrite Hrun. cbn [fst snd final trace result].
  split; [reflexivity |]. split; [reflexivity |]. split.
  { rewrite Hn. subst st0. cbn [Manager.opzNumSamples Manager.with_opzNumSamples List.skipn].
    rewrite (counted_on_ext (Manager.elements st) _ _ _ Hnone0).
    change (List.skipn 0 (sampleData data)) with (sampleData data). lia. }
  split; [rewrite Hu; reflexivity |]. split; [rewrite Ht; reflexivity |]. split.
  { intros k c container slots Hc Hcont Hrow.
    pose proof (Hkids0 c) as Hkc. unfold kids in Hkc. rewrite Hcont in Hkc.
    destruct (Manager.elements st0 !! c) as [container0 |] eqn:Hc0; cbn in Hkc;
      [| discriminate Hkc].
    injection Hkc as Hkc. rewrite (Hk k c container0 slots Hc Hc0 Hrow). now rewrite Hkc. }
  split.
  { intros id Hid. now rewrite (Ho id Hid). }
  intros (k & c & slots & Hc & Hsome & Hrow & Hne). apply Hsh. exists k, c, slots.
  split; [exact Hc |]. split; [| split; [exact Hrow | exact Hne]].
  apply (kids_is_Some _ _ _ (Hkids0 c)). exact Hsome.
Qed.

(** The snapshot of one category with an empty slot and a sample. *)
Lemma refresh_renders_every_slot_witness :
  kids (Manager.elements (final (run Manager.fetchOpzSamples (backend true kick_snapshot)
                                   opz_state))) "kick" =
    Some [Heading "Kick";
          SlotChild (new_slotDiv "kick" 0 (slot_of None (Some "(empty)") None));
          SlotChild (new_slotDiv "kick" 1
                       (slot_of (Some "kick/02.wav") (Some "snare.wav") (Some 2048)))]
  /\ Manager.opzNumSamples (final (run Manager.fetchOpzSamples (backend true kick_snapshot)
                                     opz_state)) = 1.
Proof.
  destruct (refresh_renders_every_slot (backend true kick_snapshot) opz_state
              (Build_response ShOpz true "OK" (Returned kick_snapshot))
              kick_snapshot {| used := JsNumber.of_Z 2; total := JsNumber.of_Z 32000 |}
              eq_refl eq_refl eq_refl eq_refl eq_refl)
    as (_ & _ & Hn & _ & _ & Hk & _).
  - eexists. reflexivity.
  - repeat constructor. intros [].
  - intros [| [| k]] c Hc _; try discriminate Hc. eexists. reflexivity.
  - split.
    + rewrite (Hk 0%nat "kick" (set_children [Heading "Kick"] blank)
                 [slot_of None (Some "(empty)") None;
                  slot_of (Some "kick/02.wav") (Some "snare.wav") (Some 2048)]
                 eq_refl eq_refl eq_refl).
      reflexivity.
    + rewrite Hn. reflexivity.
Defined.

(** *** The validation panel *)

Lemma try_catch_log_state {S} (m : M S unit) label env (s : S) h :
  fst (fst (try_catch m (console_error label) env s h)) = fst (fst (m env s h)).
Proof. unfold try_catch. now destruct (m env s h) as [[s' h'] [[] | msg]]. Qed.

Lemma render_categories_visibility data cats :
  keeps (same_visibility []) (forEach cats (Manager.render_category data)).
Proof.
  pose proof (same_visibility_refl []) as Hrefl.
  pose proof (same_visibility_trans []) as Htrans.
  unfold Manager.render_category, Manager.render_slot, Manager.call_updateStorageDisplay.
  repeat visibility_step (@nil string).
Qed.

Lemma hidden_panel id (b : bool) (doc : gmap string element) info list :
  id = "validation-error-container" \/ id = info \/ id = list ->
  info <> "validation-error-container" -> list <> "validation-error-container" ->
  info <> list ->
  hidden <$>
    (alter (set_hidden b) list
       (alter (set_hidden b) info
          (alter (set_hidden (negb b)) "validation-error-container" doc)) !! id) =
  (fun _ => if String.eqb id "validation-error-container" then negb b else b) <$> (doc !! id).
Proof.
  intros Hid H1 H2 H3. destruct Hid as [-> | [-> | ->]].
  - rewrite !lookup_alter_ne by congruence. rewrite lookup_alter_eq.
    now destruct (doc !! "validation-error-container").
  - rewrite lookup_alter_ne by congruence. rewrite lookup_alter_eq.
    rewrite lookup_alter_ne by congruence.
    apply String.eqb_neq in H1. rewrite H1. now destruct (doc !! info).
  - rewrite lookup_alter_eq. rewrite !lookup_alter_ne by congruence.
    apply String.eqb_neq in H2. rewrite H2. now destruct (doc !! list).
Qed.

Lemma opz_panel_run env st response data h :
  network env h ShOpz (read_samples "/read-samples") = Returned response ->
  ok response = true ->
  json response = Returned data ->
  is_Some (Manager.elements st !! "validation-error-container") ->
  is_Some (Manager.elements st !! "validation-error-message") ->
  let invalid := JsString.truthy (or_else (opz_validation_error data) EmptyString) in
  let st' := fst (fst (Manager.fetchOpzSamples env st h)) in
  (forall id, In id (panel "opz") ->
     hidden <$> (Manager.elements st' !! id) =
       (fun _ => if String.eqb id "validation-error-container" then negb invalid else invalid)
         <$> (Manager.elements st !! id))
  /\ (invalid = true ->
      Manager.fetchOpzSamples env st h =
        (Manager.with_elements
           (fun doc =>
              alter (set_hidden true) "opz-file-list"
                (alter (set_hidden true) "opz-storage-info"
                   (alter (set_hidden false) "validation-error-container"
                      (alter (set_children
                                [Markup (or_else (opz_validation_error data) EmptyString
                                         ++ Manager.settings_link)])
                             "validation-error-message" doc)))) st,
         (h ++ [Fetched (read_samples "/read-samples")])%list, Returned tt)).
Proof.
  intros Hnet Hok Hjson [ec Hec] [em Hem] invalid st'.
  assert (Hbody : Manager.fetchOpzSamples env st h =
            try_catch
              (if invalid
               then Manager.show_validation_error
                      (or_else (opz_validation_error data) EmptyString)
                      "opz-storage-info" "opz-file-list"
               else
                 bind (Manager.hide_validation_error "opz-storage-info" "opz-file-list")
                   (fun _ =>
                 bind (modify (fun st =>
                         match opz_storage data with
                         | Some s => Manager.with_opz_storage (used s) (total s) st
                         | None => Manager.with_opz_storage (JsNumber.of_Z 0)
                                     (Manager.OPZ_TOTAL_STORAGE st) st
                         end)) (fun _ =>
                 bind (modify (Manager.with_opzNumSamples 0)) (fun _ =>
                 forEach (categories data) (Manager.render_category data)))))
              (console_error "Failed to fetch OP-Z samples:") env st
              (h ++ [Fetched (read_samples "/read-samples")])%list).
  { unfold Manager.fetchOpzSamples. fold (read_samples "/read-samples").
    unfold try_catch, bind at 1, fetch at 1. rewrite Hnet, Hok. cbn [negb].
    unfold bind at 1, lift at 1. rewrite Hjson. reflexivity. }
  subst st'. rewrite Hbody. destruct invalid eqn:Hinv.
  - assert (Hshow : Manager.show_validation_error
                      (or_else (opz_validation_error data) EmptyString)
                      "opz-storage-info" "opz-file-list" env st
                      (h ++ [Fetched (read_samples "/read-samples")])%list =
                    (Manager.with_elements
                       (fun doc =>
                          alter (set_hidden true) "opz-file-list"
                            (alter (set_hidden true) "opz-storage-info"
                               (alter (set_hidden false) "validation-error-container"
                                  (alter (set_children
                                            [Markup (or_else (opz_validation_error data)
                                                       EmptyString ++ Manager.settings_link)])
                                         "validation-error-message" doc)))) st,
                     (h ++ [Fetched (read_samples "/read-samples")])%list, Returned tt)).
    { unfold Manager.show_validation_error. rewrite get_bind, Hem, bind_modify.
      erewrite bind_value.
      2: { rewrite hide_required_run. cbn [Manager.elements Manager.with_elements].
           rewrite lookup_alter_ne by discriminate. rewrite Hec. reflexivity. }
      unfold Manager.hide_if_present. rewrite bind_modify. reflexivity. }
    unfold try_catch. rewrite Hshow. split; [| reflexivity].
    intros id Hid. cbn [fst Manager.elements Manager.with_elements].
    rewrite (hidden_panel id true _ "opz-storage-info" "opz-file-list");
      [| destruct Hid as [<- | [<- | [<- | []]]]; auto | discriminate | discriminate
       | discriminate].
    cbn [negb]. rewrite lookup_alter_proj by reflexivity. reflexivity.
  - split; [| discriminate]. intros id Hid. rewrite try_catch_log_state.
    unfold Manager.hide_validation_error.
    erewrite bind_value.
    2: { erewrite bind_value by (rewrite hide_required_run, Hec; reflexivity).
         unfold Manager.hide_if_present. rewrite bind_modify. unfold modify. reflexivity. }
    rewrite !bind_modify.
    match goal with
    | |- context [forEach ?cats ?f env ?s0 ?h0] =>
        destruct (render_categories_visibility data cats env s0 h0) as [_ Hvis]
    end.
    rewrite Hvis by (intros []).
    destruct (opz_storage data);
      cbn [Manager.elements Manager.with_elements Manager.with_opz_storage
           Manager.with_opzNumSamples];
      rewrite (hidden_panel id false _ "opz-storage-info" "opz-file-list");
      first [reflexivity | discriminate | destruct Hid as [<- | [<- | [<- | []]]]; auto].
Qed.

Lemma op1_rendering_visibility localeCompare data :
  keeps (same_visibility [])
    (bind (modify (Manager.with_elements (Manager.renderOp1Section localeCompare "drum" (drum data))))
       (fun _ =>
     bind (modify (Manager.with_elements
                     (Manager.renderOp1Section localeCompare "synth" (synth data))))
       (fun _ =>
     Manager.call_updateStorageDisplay "op1" (op1_storage data)
       {| Manager.extra_counts := counts data; Manager.extra_numSamples := None |}))).
Proof.
  pose proof (same_visibility_refl []) as Hrefl.
  pose proof (same_visibility_trans []) as Htrans.
  unfold Manager.call_updateStorageDisplay.
  repeat first [ apply keeps_modify; intros ?; apply same_visibility_render
               | visibility_step (@nil string) ].
Qed.

Lemma op1_panel_run localeCompare env st response data h :
  network env h ShOp1 (read_samples "/read-op1-samples") = Returned response ->
  ok response = true ->
  json response = Returned data ->
  is_Some (Manager.elements st !! "validation-error-container") ->
  is_Some (Manager.elements st !! "validation-error-message") ->
  let invalid := JsString.truthy (or_else (op1_validation_error data) EmptyString) in
  let st' := fst (fst (Manager.fetchOp1Samples localeCompare env st h)) in
  (forall id, In id (panel "op1") ->
     hidden <$> (Manager.elements st' !! id) =
       (fun _ => if String.eqb id "validation-error-container" then negb invalid else invalid)
         <$> (Manager.elements st !! id))
  /\ (invalid = true ->
      Manager.fetchOp1Samples localeCompare env st h =
        (Manager.with_elements
           (fun doc =>
              alter (set_hidden true) "op1-file-list"
                (alter (set_hidden true) "op1-storage-info"
                   (alter (set_hidden false) "validation-error-container"
                      (alter (set_children
                                [Markup (or_else (op1_validation_error data) EmptyString
                                         ++ Manager.settings_link)])
                             "validation-error-message" doc))))
           (Manager.with_op1Data data st),
         (h ++ [Fetched (read_samples "/read-op1-samples")])%list, Returned tt)).
Proof.
  intros Hnet Hok Hjson [ec Hec] [em Hem] invalid st'.
  set (st0 := Manager.with_op1Data data st).
  assert (Hbody : Manager.fetchOp1Samples localeCompare env st h =
            try_catch
              (if invalid
               then Manager.show_validation_error
                      (or_else (op1_validation_error data) EmptyString)
                      "op1-storage-info" "op1-file-list"
               else
                 bind (Manager.hide_validation_error "op1-storage-info" "op1-file-list")
                   (fun _ =>
                 bind (modify (Manager.with_elements
                                 (Manager.renderOp1Section localeCompare "drum" (drum data))))
                   (fun _ =>
                 bind (modify (Manager.with_elements
                                 (Manager.renderOp1Section localeCompare "synth" (synth data))))
                   (fun _ =>
                 Manager.call_updateStorageDisplay "op1" (op1_storage data)
                   {| Manager.extra_counts := counts data;
                      Manager.extra_numSamples := None |}))))
              (console_error "Failed to fetch OP-1 samples:") env st0
              (h ++ [Fetched (read_samples "/read-op1-samples")])%list).
  { unfold Manager.fetchOp1Samples. fold (read_samples "/read-op1-samples").
    unfold try_catch, bind at 1, fetch at 1. rewrite Hnet, Hok. cbn [negb].
    unfold bind at 1, lift at 1. rewrite Hjson. rewrite bind_modify. reflexivity. }
  assert (Hec0 : Manager.elements st0 !! "validation-error-container" = Some ec) by exact Hec.
  assert (Hem0 : Manager.elements st0 !! "validation-error-message" = Some em) by exact Hem.
  assert (Hel0 : Manager.elements st0 = Manager.elements st) by reflexivity.
  clearbody st0.
  subst st'. rewrite Hbody. destruct invalid eqn:Hinv.
  - assert (Hshow : Manager.show_validation_error
                      (or_else (op1_validation_error data) EmptyString)
                      "op1-storage-info" "op1-file-list" env st0
                      (h ++ [Fetched (read_samples "/read-op1-samples")])%list =
                    (Manager.with_elements
                       (fun doc =>
                          alter (set_hidden true) "op1-file-list"
                            (alter (set_hidden true) "op1-storage-info"
                               (alter (set_hidden false) "validation-error-container"
                                  (alter (set_children
                                            [Markup (or_else (op1_validation_error data)
                                                       EmptyString ++ Manager.settings_link)])
                                         "validation-error-message" doc)))) st0,
                     (h ++ [Fetched (read_samples "/read-op1-samples")])%list, Returned tt)).
    { unfold Manager.show_validation_error. rewrite get_bind, Hem0, bind_modify.
      erewrite bind_value.
      2: { rewrite hide_required_run. cbn [Manager.elements Manager.with_elements].
           rewrite lookup_alter_ne by discriminate. rewrite Hec0. reflexivity. }
      unfold Manager.hide_if_present. rewrite bind_modify. reflexivity. }
    unfold try_catch. rewrite Hshow. split; [| reflexivity].
    intros id Hid. cbn [fst Manager.elements Manager.with_elements].
    rewrite (hidden_panel id true _ "op1-storage-info" "op1-file-list");
      [| destruct Hid as [<- | [<- | [<- | []]]]; auto | discriminate | discriminate
       | discriminate].
    cbn [negb]. rewrite lookup_alter_proj by reflexivity. now rewrite Hel0.
  - split; [| discriminate]. intros id Hid. rewrite try_catch_log_state.
    unfold Manager.hide_validation_error.
    erewrite bind_value.
    2: { erewrite bind_value by (rewrite hide_required_run, Hec0; reflexivity).
         unfold Manager.hide_if_present. rewrite bind_modify. unfold modify. reflexivity. }
    match goal with
    | |- context [bind (modify ?f) ?k env ?s0 ?h0] =>
        destruct (op1_rendering_visibility localeCompare data env s0 h0) as [_ Hvis]
    end.
    rewrite Hvis by (intros []).
    cbn [Manager.elements Manager.with_elements].
    rewrite (hidden_panel id false _ "op1-storage-info" "op1-file-list"), Hel0;
      first [reflexivity | discriminate | destruct Hid as [<- | [<- | [<- | []]]]; auto].
Qed.

(** X12: the validation panel and the lists of a device exclude each other.
    Whenever a refresh gets its snapshot, on a page that has the panel: with
    a validation error the panel is shown with the message and the link to
    the settings, the storage information and the file list of the device
    are hidden, nothing is rendered and nothing more is sent or logged;
    without one the panel is hidden and the two are shown, also when the
    rendering that follows fails. *)
Theorem validation_panel_replaces_the_lists :
  (forall env st response data,
     network env [] ShOpz (read_samples "/read-samples") = Returned response ->
     ok response = true ->
     json response = Returned data ->
     is_Some (Manager.elements st !! "validation-error-container") ->
     is_Some (Manager.elements st !! "validation-error-message") ->
     let invalid := JsString.truthy (or_else (opz_validation_error data) EmptyString) in
     let r := run Manager.fetchOpzSamples env st in
     (forall id, In id (panel "opz") ->
        hidden <$> (Manager.elements (final r) !! id) =
          (fun _ => if String.eqb id "validation-error-container"
                    then negb invalid else invalid)
            <$> (Manager.elements st !! id))
     /\ (invalid = true ->
         trace r = [Fetched (read_samples "/read-samples")]
         /\ kids (Manager.elements (final r)) "validation-error-message" =
              Some [Markup (or_else (opz_validation_error data) EmptyString
                            ++ Manager.settings_link)]
         /\ (forall id, id <> "validation-error-message" ->
               kids (Manager.elements (final r)) id = kids (Manager.elements st) id)
         /\ Manager.opzNumSamples (final r) = Manager.opzNumSamples st))
  /\
  (forall localeCompare env st response data,
     network env [] ShOp1 (read_samples "/read-op1-samples") = Returned response ->
     ok response = true ->
     json response = Returned data ->
     is_Some (Manager.elements st !! "validation-error-container") ->
     is_Some (Manager.elements st !! "validation-error-message") ->
     let invalid := JsString.truthy (or_else (op1_validation_error data) EmptyString) in
     let r := run (Manager.fetchOp1Samples localeCompare) env st in
     (forall id, In id (panel "op1") ->
        hidden <$> (Manager.elements (final r) !! id) =
          (fun _ => if String.eqb id "validation-error-container"
                    then negb invalid else invalid)
            <$> (Manager.elements st !! id))
     /\ (invalid = true ->
         trace r = [Fetched (read_samples "/read-op1-samples")]
         /\ kids (Manager.elements (final r)) "validation-error-message" =
              Some [Markup (or_else (op1_validation_error data) EmptyString
                            ++ Manager.settings_link)]
         /\ (forall id, id <> "validation-error-message" ->
               kids (Manager.elements (final r)) id = kids (Manager.elements st) id))).
Proof.
  split.
  - intros env st response data Hnet Hok Hjson Hec Hem invalid r.
    destruct (opz_panel_run env st response data [] Hnet Hok Hjson Hec Hem) as [Hhid Hinv].
    split; [exact Hhid |]. intros Hi. subst r. unfold run. rewrite (Hinv Hi).
    cbn [fst snd final trace result app Manager.elements Manager.with_elements
         Manager.opzNumSamples].
    destruct Hem as [em Hem].
    split; [reflexivity |]. split.
    + unfold kids. rewrite !lookup_alter_ne by discriminate. rewrite lookup_alter_eq, Hem.
      reflexivity.
    + split; [| reflexivity]. intros id Hid. unfold kids.
      rewrite !lookup_alter_proj by reflexivity. now rewrite lookup_alter_ne by congruence.
  - intros localeCompare env st response data Hnet Hok Hjson Hec Hem invalid r.
    destruct (op1_panel_run localeCompare env st response data [] Hnet Hok Hjson Hec Hem)
      as [Hhid Hinv].
    split; [exact Hhid |]. intros Hi. subst r. unfold run. rewrite (Hinv Hi).
    cbn [fst snd final trace result app Manager.elements Manager.with_elements
         Manager.with_op1Data].
    destruct Hem as [em Hem].
    split; [reflexivity |]. split.
    + unfold kids. rewrite !lookup_alter_ne by discriminate. rewrite lookup_alter_eq, Hem.
      reflexivity.
    + intros id Hid. unfold kids.
      rewrite !lookup_alter_proj by reflexivity. now rewrite lookup_alter_ne by congruence.
Qed.

(** *** Escaping *)

Lemma escapeHtml_piece c rest :
  exists out rest',
    piece (String c rest) out rest'
    /\ Manager.escapeHtml (String c rest) = out ++ Manager.escapeHtml rest'
    /\ (String.length rest' <= String.length rest)%nat.
Proof.
  cbn [Manager.escapeHtml].
  destruct (Ascii.eqb_spec c "&") as [-> | Hamp].
  { exists "&amp;", rest. split; [constructor | split; [reflexivity | lia]]. }
  destruct (Ascii.eqb_spec c "<") as [-> | Hlt].
  { exists "&lt;", rest. split; [constructor | split; [reflexivity | lia]]. }
  destruct (Ascii.eqb_spec c ">") as [-> | Hgt].
  { exists "&gt;", rest. split; [constructor | split; [reflexivity | lia]]. }
  destruct (Ascii.eqb_spec c (ascii_of_nat 194)) as [-> | H194].
  - destruct rest as [| d rest'].
    + exists (String (ascii_of_nat 194) EmptyString), EmptyString.
      split; [| split; [reflexivity | cbn; lia]].
      constructor; try discriminate; intros _ rest' H; discriminate H.
    + destruct (Ascii.eqb_spec d (ascii_of_nat 160)) as [-> | H160].
      * exists "&nbsp;", rest'. split; [apply (piece_nbsp rest') |].
        split; [reflexivity | cbn; lia].
      * exists (String (ascii_of_nat 194) EmptyString), (String d rest').
        split; [| split; [reflexivity | lia]].
        constructor; try discriminate; intros _ r H; injection H as H _; contradiction.
  - exists (String c EmptyString), rest. split; [| split; [reflexivity | lia]].
    constructor; try assumption; intros H; contradiction.
Qed.

Lemma escapeHtml_empty text : Manager.escapeHtml text = EmptyString -> text = EmptyString.
Proof.
  destruct text as [| c rest]; [reflexivity |]. intros H.
  destruct (escapeHtml_piece c rest) as (out & rest' & Hp & E & _). rewrite E in H.
  inversion Hp; subst; discriminate H.
Qed.

Lemma escapeHtml_injective_upto n :
  forall a b, (String.length a <= n)%nat ->
              Manager.escapeHtml a = Manager.escapeHtml b -> a = b.
Proof.
  induction n as [| n IH]; intros a b Hlen H.
  - destruct a; [| cbn in Hlen; lia]. symmetry. apply escapeHtml_empty. now rewrite <- H.
  - destruct a as [| c ra].
    { symmetry. apply escapeHtml_empty. now rewrite <- H. }
    destruct b as [| d rb].
    { apply escapeHtml_empty in H. discriminate H. }
    destruct (escapeHtml_piece c ra) as (oa & ra' & Hpa & Ea & Hla).
    destruct (escapeHtml_piece d rb) as (ob & rb' & Hpb & Eb & _).
    rewrite Ea, Eb in H. cbn in Hlen.
    assert (Hrec : Manager.escapeHtml ra' = Manager.escapeHtml rb' -> ra' = rb').
    { apply IH. lia. }
    inversion Hpa; subst; inversion Hpb; subst;
      cbv beta iota delta [String.append] in H;
      try discriminate H;
      try (injection H as H; rewrite (Hrec H); reflexivity);
      try (injection H as Hc H; congruence).
    injection H as Hc H. subst. now rewrite (Hrec H).
Qed.

Lemma has_byte_escapeHtml_upto q n :
  q = apostrophe \/ q = quotation_mark ->
  forall text, (String.length text <= n)%nat ->
               has_byte q (Manager.escapeHtml text) = has_byte q text.
Proof.
  intros Hq. induction n as [| n IH]; intros text Hlen.
  - destruct text; [reflexivity | cbn in Hlen; lia].
  - destruct text as [| c rest]; [reflexivity |].
    destruct (escapeHtml_piece c rest) as (out & rest' & Hp & E & Hl).
    rewrite E, has_byte_app. cbn in Hlen. rewrite (IH rest') by lia.
    inversion Hp; subst; destruct Hq as [-> | ->]; try reflexivity.
    all: cbn [has_byte]; now rewrite orb_false_r.
Qed.

(** X13: [escapeHtml] loses nothing and leaves quotation marks alone.  Two
    texts with the same escaped form are the same text; the escaped form is
    empty only for the empty text; and an apostrophe or a quotation mark
    occurs in the escaped form exactly when it occurs in the text.  So
    escaping does not make a text safe inside a quoted attribute or a script
    string, which is where the markup of a file puts the escaped path: in
    the argument of [deleteSample] in the [onclick] attribute. *)
Theorem escapeHtml_injective_and_keeps_quotes :
  (forall a b, Manager.escapeHtml a = Manager.escapeHtml b -> a = b)
  /\ (forall text, Manager.escapeHtml text = EmptyString -> text = EmptyString)
  /\ (forall text,
        has_byte apostrophe (Manager.escapeHtml text) = has_byte apostrophe text
        /\ has_byte quotation_mark (Manager.escapeHtml text) = has_byte quotation_mark text)
  /\ (forall file,
        exists before after,
          Manager.file_markup false file =
            before ++ " onclick=" ++ dq ++ "deleteSample('op1', '"
              ++ Manager.escapeHtml (file_path file) ++ "', fetchOp1Samples)" ++ dq ++ after).
Proof.
  split; [| split; [| split]].
  - intros a b. apply (escapeHtml_injective_upto (String.length a)). lia.
  - apply escapeHtml_empty.
  - intros text. split.
    + apply (has_byte_escapeHtml_upto apostrophe (String.length text)); [now left | lia].
    + apply (has_byte_escapeHtml_upto quotation_mark (String.length text)); [now right | lia].
  - intros file. unfold Manager.file_markup, Manager.line. cbn [negb].
    unfold Manager.q.
    set (path := Manager.escapeHtml (file_path file)).
    set (call1 := "deleteSample('op1', '"). set (call2 := "', fetchOp1Samples)").
    set (on := " onclick="). set (sp := Manager.spaces 20).
    set (btn := "<button class="). set (cls := dq ++ "delete-btn" ++ dq).
    set (close := ">✕</button>").
    match goal with
    | |- exists before after, ?l1 ++ ?l2 ++ ?l3 ++ (nl ++ sp ++ _) ++ ?l5 = _ =>
        set (a1 := l1); set (a2 := l2); set (a3 := l3); set (a5 := l5);
        exists (a1 ++ a2 ++ a3 ++ nl ++ sp ++ btn ++ cls), (close ++ a5)
    end.
    clearbody path call1 call2 on sp btn cls close a1 a2 a3 a5.
    rewrite !string_append_assoc. reflexivity.
Qed.

(** *** The read-only folder *)

Lemma includes_skip c p' a b :
  has_byte c a = false ->
  includes (a ++ b) (String c p') = includes b (String c p').
Proof.
  induction a as [| x a IH]; [reflexivity |]. cbn [has_byte]. intros H.
  apply orb_false_iff in H as [Hx Ha].
  change (String x a ++ b) with (String x (a ++ b)). cbn [includes String.prefix].
  destruct (ascii_dec c x) as [-> | _].
  - now rewrite Ascii.eqb_refl in Hx.
  - cbn [orb]. now apply IH.
Qed.

Lemma includes_app_r a b p : includes b p = true -> includes (a ++ b) p = true.
Proof.
  intros H. induction a as [| x a IH]; [exact H |].
  change (String x a ++ b) with (String x (a ++ b)). cbn [includes].
  rewrite IH. apply orb_true_r.
Qed.

Lemma prefix_app p y : String.prefix p (p ++ y) = true.
Proof.
  induction p as [| c p IH]; [now destruct y |].
  change (String c p ++ y) with (String c (p ++ y)). cbn [String.prefix].
  destruct (ascii_dec c c) as [_ | H]; [exact IH | contradiction].
Qed.

Lemma includes_here p y : includes (p ++ y) p = true.
Proof.
  destruct (p ++ y) eqn:E; cbn [includes]; rewrite <- E, prefix_app; reflexivity.
Qed.

Lemma digits_no_lt (d : Decimal.uint) : has_byte "<" (NilZero.string_of_uint d) = false.
Proof.
  assert (H : has_byte "<" (NilEmpty.string_of_uint d) = false).
  { induction d; cbn [NilEmpty.string_of_uint has_byte]; try reflexivity; exact IHd. }
  destruct d; try exact H; reflexivity.
Qed.

Lemma of_N_no_lt n : has_byte "<" (JsString.of_N n) = false.
Proof. apply digits_no_lt. Qed.

Lemma of_nat_no_lt n : has_byte "<" (JsString.of_nat n) = false.
Proof. apply digits_no_lt. Qed.

Lemma substring_no_byte c s : has_byte c s = false ->
  forall i l, has_byte c (substring i l s) = false.
Proof.
  intros H. induction s as [| x s IH]; intros i l.
  - destruct i, l; reflexivity.
  - cbn [has_byte] in H. apply orb_false_iff in H as [Hx Hs].
    destruct i as [| i]; cbn [substring].
    + destruct l as [| l]; [reflexivity |]. cbn [has_byte]. now rewrite Hx, IH.
    + now apply IH.
Qed.

Lemma toFixed1_no_lt x : has_byte "<" (toFixed1 x) = false.
Proof.
  destruct x as [s | [] | | s m e]; try reflexivity. unfold toFixed1.
  rewrite has_byte_app.
  assert (Hsign : has_byte "<" (if s then "-" else EmptyString) = false) by now destruct s.
  rewrite Hsign. cbn [orb].
  destruct (at_least_1e21 m e).
  - unfold toString_large, exponent_notation.
    rewrite !has_byte_app, of_nat_no_lt.
    match goal with
    | |- context [if ?b then ?x else ?y] =>
        assert (has_byte "<" (if b then x else y) = false) as ->
    end.
    { destruct (_ <=? 1)%nat; [apply of_N_no_lt |].
      rewrite !has_byte_app, !substring_no_byte by apply of_N_no_lt. reflexivity. }
    reflexivity.
  - unfold fixed1_digits.
    match goal with
    | |- context [if ?b then ?x else ?y] =>
        assert (Hm : has_byte "<" (if b then x else y) = false)
    end.
    { destruct (_ <=? 1)%nat; [rewrite has_byte_app |]; now rewrite of_N_no_lt. }
    now rewrite !has_byte_app, !substring_no_byte by exact Hm.
Qed.

Lemma countText_no_lt parentFolder files :
  has_byte "<" (Manager.countText parentFolder files) = false.
Proof.
  unfold Manager.countText.
  destruct (String.eqb parentFolder "drum").
  { now rewrite !has_byte_app, of_nat_no_lt. }
  set (sampleCount := length (List.filter _ files)).
  set (patchCount := length (List.filter _ files)).
  destruct (0 <? sampleCount)%nat, (0 <? patchCount)%nat;
    cbn [List.app length Nat.ltb Nat.leb JsString.join String.concat];
    try reflexivity;
    destruct (Nat.eqb sampleCount 1), (Nat.eqb patchCount 1);
    now rewrite !has_byte_app, ?of_nat_no_lt.
Qed.

Ltac peel_markup :=
  repeat first
    [ rewrite includes_skip
        by first [ apply (proj1 (escapeHtml_no_angle _)) | apply toFixed1_no_lt
                 | apply countText_no_lt | reflexivity ]
    | match goal with
      | |- includes (?F ++ ?R) ?p = _ => change (includes (F ++ R) p) with (includes R p)
      end ].

Ltac find_button :=
  repeat first
    [ match goal with
      | |- includes ("<button class=" ++ ?R) _ = true =>
          exact (includes_here "<button" (" class=" ++ R))
      end
    | apply includes_app_r ].

Lemma file_markup_button isReadOnly file :
  includes (Manager.file_markup isReadOnly file) "<button" = negb isReadOnly.
Proof.
  unfold Manager.file_markup, Manager.line.
  destruct isReadOnly; cbn [negb]; destruct (String.eqb (category file) "patch");
    rewrite !string_append_assoc.
  1, 2: peel_markup; reflexivity.
  all: find_button.
Qed.

Lemma header_markup_button parentFolder subdirName files :
  includes (Manager.header_markup parentFolder subdirName files) "<button" =
    negb (String.eqb subdirName "user").
Proof.
  unfold Manager.header_markup, Manager.line.
  destruct (String.eqb_spec subdirName "user") as [-> | Hne]; cbn [negb].
  - change (Manager.escapeHtml "user") with "user".
    rewrite !string_append_assoc. peel_markup. reflexivity.
  - rewrite !string_append_assoc. find_button.
Qed.

(** X14: the folder named "user" is rendered read-only: it carries the class
    [read-only], and neither its header nor any of its files has a button,
    whatever the names, sizes and categories of the files.  Every other
    folder has the buttons of its header, and each of its files has the
    delete button. *)
Theorem read_only_folder_offers_no_button :
  forall parentFolder subdirectories subdirName,
    let d := Manager.render_subdir parentFolder subdirectories subdirName in
    let files := Manager.files_of subdirectories subdirName in
    (In "read-only" (subdir_classes d) <-> subdirName = "user")
    /\ includes (header_html d) "<button" = negb (String.eqb subdirName "user")
    /\ (subdirName = "user" ->
        Forall (fun html => includes html "<button" = false) (content_html d))
    /\ (subdirName <> "user" -> files <> [] ->
        length (content_html d) = length files
        /\ Forall (fun html => includes html "<button" = true) (content_html d)).
Proof.
  intros parentFolder subdirectories subdirName d files. subst d.
  unfold Manager.render_subdir. fold files. cbn [subdir_classes header_html content_html].
  split; [| split; [apply header_markup_button | split]].
  - destruct (String.eqb_spec subdirName "user") as [E | E]; cbn.
    + split; [intros _; exact E | intros _; right; now left].
    + split; [intros [H | []]; discriminate H | intros H; contradiction].
  - intros ->. change (String.eqb "user" "user") with true.
    destruct files as [| f fs]; cbn [length Nat.eqb].
    + repeat constructor.
    + apply List.Forall_map. apply Forall_forall. intros x _.
      apply (file_markup_button true x).
  - intros Hne Hfiles. apply String.eqb_neq in Hne. rewrite Hne.
    destruct files as [| f fs]; [contradiction |]. cbn [length Nat.eqb].
    split; [now rewrite List.length_map |].
    apply List.Forall_map. apply Forall_forall. intros x _.
    apply (file_markup_button false x).
Qed.

(** *** What the storage display touches *)



(** *** The configuration editor *)

Lemma loadDmxConfig_run env st h e :
  ConfigEditor.elements st !! "dmx-textarea" = Some e ->
  let answer := network env h ShDmx (config_request "dmx") in
  exists log,
    ConfigEditor.loadDmxConfig env st h =
      ({| ConfigEditor.elements :=
            alter (set_textContent (dmx_shown answer)) "dmx-textarea" (ConfigEditor.elements st) |},
       (h ++ Fetched (config_request "dmx") :: log)%list, Returned tt)
    /\ (if unreadable answer
        then exists msg, log = [ConsoleError "Error loading DMX config:" msg]
        else log = []).
Proof.
  intros He answer. unfold ConfigEditor.loadDmxConfig, ConfigEditor.write_textarea.
  change {| url := "/get-config/dmx"; method := "GET"; fields := [] |}
    with (config_request "dmx").
  unfold dmx_shown, unreadable. subst answer. unfold_async.
  destruct (network env h ShDmx (config_request "dmx")) as [res | msg].
  - destruct (json res) as [data | msg]; rewrite He.
    + exists []. split; reflexivity.
    + eexists. split; [now rewrite <- List.app_assoc | eexists; reflexivity].
  - rewrite He. eexists. split; [now rewrite <- List.app_assoc | eexists; reflexivity].
Qed.

(** X16: loading the DMX configuration never rejects on a page that has the
    text area, and always leaves a text in it: the content of the answer,
    nothing when the answer has no content (whatever its status), and the
    comment "// Error loading DMX config" when the request or its body
    failed, in which case the failure is logged.  It sends one request and
    changes no other element.  Without the text area it rejects. *)
Theorem dmx_load_always_fills_the_text_area :
  forall env st,
    let answer := network env [] ShDmx (config_request "dmx") in
    let r := run ConfigEditor.loadDmxConfig env st in
    requests (trace r) = [config_request "dmx"]
    /\ (is_Some (ConfigEditor.elements st !! "dmx-textarea") ->
        result r = Returned tt
        /\ textContent <$> (ConfigEditor.elements (final r) !! "dmx-textarea") =
             Some (dmx_shown answer)
        /\ (forall id, id <> "dmx-textarea" ->
              ConfigEditor.elements (final r) !! id = ConfigEditor.elements st !! id)
        /\ (length (trace r) = if unreadable answer then 2%nat else 1%nat))
    /\ (ConfigEditor.elements st !! "dmx-textarea" = None -> result r = Thrown type_error).
Proof.
  intros env st answer r. split; [| split].
  - subst r. unfold ConfigEditor.loadDmxConfig, ConfigEditor.write_textarea, run.
    change {| url := "/get-config/dmx"; method := "GET"; fields := [] |}
      with (config_request "dmx").
    unfold_async. destruct (ConfigEditor.elements st !! "dmx-textarea") eqn:He;
      destruct (network env [] ShDmx (config_request "dmx")) as [res | msg];
      [destruct (json res) | | destruct (json res) |];
      cbn; rewrite ?He; reflexivity.
  - intros [e He]. destruct (loadDmxConfig_run env st [] e He) as (log & E & Hlog).
    subst r. unfold run. rewrite E. cbn [fst snd final trace result ConfigEditor.elements].
    split; [reflexivity |]. split.
    { rewrite lookup_alter_eq, He. reflexivity. }
    split.
    { intros id Hid. now rewrite lookup_alter_ne by congruence. }
    fold answer in Hlog. destruct (unreadable answer).
    + destruct Hlog as [msg ->]. reflexivity.
    + now subst log.
  - intros Hnone. subst r.
    unfold ConfigEditor.loadDmxConfig, ConfigEditor.write_textarea, run.
    unfold_async. destruct (network env [] ShDmx _) as [res | msg];
      [destruct (json res) |]; rewrite ?Hnone; cbn; rewrite ?Hnone; reflexivity.
Qed.

(** *** The configuration form read back *)

Local Open Scope list_scope.

Lemma fold_left_flat_map {A B C} (f : A -> B -> A) (g : C -> list B) l a :
  fold_left f (flat_map g l) a = fold_left (fun a x => fold_left f (g x) a) l a.
Proof.
  revert a; induction l as [| x l IH]; intros a; cbn; [reflexivity |].
  now rewrite fold_left_app, IH.
Qed.

Lemma fold_left_concat {A B} (f : A -> B -> A) (ls : list (list B)) a :
  fold_left f (concat ls) a = fold_left (fun a l => fold_left f l a) ls a.
Proof.
  revert a; induction ls as [| x l IH]; intros a; cbn; [reflexivity |].
  now rewrite fold_left_app, IH.
Qed.

Lemma lookup_own_app_absent key l v :
  lookup_own key l = None -> lookup_own key (l ++ [(key, v)]) = Some v.
Proof.
  induction l as [| [k w] l IH]; cbn.
  - now rewrite String.eqb_refl.
  - destruct (String.eqb k key); [discriminate | exact IH].
Qed.

Lemma lookup_own_app_other key k l v :
  k <> key -> lookup_own key (l ++ [(k, v)]) = lookup_own key l.
Proof.
  intros Hne; induction l as [| [k' w] l IH]; cbn.
  - now apply String.eqb_neq in Hne as ->.
  - now rewrite IH.
Qed.

Lemma write_own_app_absent key l v v' :
  lookup_own key l = None -> write_own key v' (l ++ [(key, v)]) = l ++ [(key, v')].
Proof.
  induction l as [| [k w] l IH]; cbn.
  - now rewrite String.eqb_refl.
  - destruct (String.eqb k key); [discriminate |].
    now intros H; rewrite IH.
Qed.

(** **** Holes at the end of an array *)

Lemma drop_trailing_holes_some a v :
  drop_trailing_holes (a ++ [Some v]) = a ++ [Some v].
Proof.
  induction a as [| x a IH]; cbn; [reflexivity |].
  rewrite IH. destruct x; [reflexivity |]. now destruct a.
Qed.

Lemma drop_trailing_holes_none a :
  drop_trailing_holes (a ++ [None]) = drop_trailing_holes a.
Proof.
  induction a as [| x a IH]; cbn; [reflexivity |]. now rewrite IH.
Qed.

Lemma drop_trailing_holes_split a :
  a = drop_trailing_holes a
      ++ replicate (length a - length (drop_trailing_holes a)) None.
Proof.
  induction a as [| x a IH]; [reflexivity |].
  change (drop_trailing_holes (x :: a))
    with (match x, drop_trailing_holes a with
          | None, [] => []
          | _, r => x :: r
          end).
  destruct x as [v |].
  - change (Some v :: a = Some v :: (drop_trailing_holes a
              ++ replicate (length a - length (drop_trailing_holes a)) None)).
    now rewrite <- IH.
  - destruct (drop_trailing_holes a) as [| y r] eqn:Hd.
    + cbn [length app] in *. rewrite Nat.sub_0_r in *. cbn. now rewrite IH at 1.
    + change (None :: a = None :: ((y :: r)
                ++ replicate (length a - length (y :: r)) None)).
      now rewrite <- IH.
Qed.

Lemma drop_trailing_holes_length a :
  (length (drop_trailing_holes a) <= length a)%nat.
Proof.
  induction a as [| x a IH]; cbn; [lia |].
  destruct x; cbn; [lia |].
  destruct (drop_trailing_holes a); cbn in *; lia.
Qed.

(** Writing just past the end of an array whose trailing holes are not
    stored restores them. *)
Lemma set_index_past a v :
  set_index (length a) v (drop_trailing_holes a) = a ++ [Some v].
Proof.
  unfold set_index.
  pose proof (drop_trailing_holes_length a) as Hle.
  destruct (Nat.ltb_spec (length a) (length (drop_trailing_holes a))) as [Hlt | _]; [lia |].
  rewrite app_assoc, <- drop_trailing_holes_split. reflexivity.
Qed.

Lemma get_index_past a :
  get_index (drop_trailing_holes a) (length a) = None.
Proof.
  unfold get_index. rewrite lookup_ge_None_2; [reflexivity |].
  apply drop_trailing_holes_length.
Qed.

Lemma set_index_last a x v : set_index (length a) v (a ++ [x]) = a ++ [Some v].
Proof.
  unfold set_index. rewrite length_app; cbn [length].
  destruct (Nat.ltb_spec (length a) (length a + 1)) as [_ | H]; [| lia].
  rewrite insert_app_r_alt by lia. now rewrite Nat.sub_diag.
Qed.

Lemma get_index_last a x : get_index (a ++ [x]) (length a) = x.
Proof.
  unfold get_index. rewrite lookup_app_r by lia. now rewrite Nat.sub_diag.
Qed.

(** **** One key *)

Lemma change_after_ensure o key a f :
  lookup_own key (own o) = None -> key <> "__proto__" ->
  change_array (ensure_array (with_stored o key a) key) key f = with_array o key (f a).
Proof.
  intros Hno Hkey. apply String.eqb_neq in Hkey.
  destruct a as [| x a].
  - unfold with_stored, ensure_array, array_at, assign; cbn.
    rewrite Hno, Hkey; cbn. unfold change_array; cbn.
    rewrite (lookup_own_app_absent _ _ _ Hno).
    now rewrite (write_own_app_absent _ _ _ _ Hno).
  - unfold with_stored, with_array, ensure_array, array_at, change_array; cbn.
    rewrite !(lookup_own_app_absent _ _ _ Hno); cbn.
    rewrite (lookup_own_app_absent _ _ _ Hno).
    now rewrite (write_own_app_absent _ _ _ _ Hno).
Qed.

Lemma with_stored_nonempty o key a : a <> [] -> with_stored o key a = with_array o key a.
Proof. now destruct a. Qed.

(** The inputs of one row of numbers. *)
Lemma row_parsed o key (p : array) vals :
  lookup_own key (own o) = None -> key <> "__proto__" -> vals <> [] ->
  fold_left parse_input
    (imap (fun subIdx val => NumberInput key val (Some (length p)) (Some subIdx)) vals)
    (with_stored o key (drop_trailing_holes p))
  = with_array o key
      (p ++ [Some (JArray (List.map (fun x => Some (JNumber (reparse_number x))) vals))]).
Proof.
  intros Hno Hkey.
  induction vals as [| x vals IH] using rev_ind; intros Hne; [congruence |].
  rewrite imap_app, fold_left_app; cbn.
  destruct vals as [| y vals'].
  - cbn. rewrite change_after_ensure by assumption.
    unfold set_in_row. rewrite get_index_past, set_index_past. reflexivity.
  - rewrite IH by discriminate.
    set (row := List.map _ (y :: vals')).
    rewrite <- (with_stored_nonempty o key (p ++ [Some (JArray row)]))
      by (now destruct p).
    rewrite change_after_ensure by assumption.
    unfold set_in_row. rewrite get_index_last, set_index_last.
    rewrite Nat.add_0_r.
    replace (length (y :: vals')) with (length row) by (unfold row; now rewrite length_map).
    unfold set_index at 1. rewrite Nat.ltb_irrefl, Nat.sub_diag; cbn.
    unfold row. now rewrite List.map_app.
Qed.

(** The inputs of the rows of an array. *)
Lemma rows_parsed o key items :
  lookup_own key (own o) = None -> key <> "__proto__" ->
  fold_left parse_input
    (concat (imap (fun idx item =>
               match item with
               | ItemArray vals =>
                   imap (fun subIdx val =>
                     ConfigEditor.createNumberInput key val (Some idx) (Some subIdx)) vals
               | ItemBool b => [ConfigEditor.createCheckboxInput key b (Some idx)]
               | ItemNumber x => [ConfigEditor.createNumberInput key x (Some idx) None]
               end) items))
    {| own := own o; proto := None |}
  = with_stored o key (drop_trailing_holes (List.map reparse_item items)).
Proof.
  intros Hno Hkey.
  induction items as [| item items IH] using rev_ind; [reflexivity |].
  rewrite imap_app, concat_app, fold_left_app, IH; cbn.
  rewrite app_nil_r, Nat.add_0_r, List.map_app; cbn.
  set (p := List.map reparse_item items).
  replace (length items) with (length p) by (unfold p; now rewrite length_map).
  destruct item as [vals | b | x]; cbn.
  - destruct vals as [| v vals].
    + cbn. now rewrite drop_trailing_holes_none.
    + unfold ConfigEditor.createNumberInput.
      rewrite row_parsed by (assumption || discriminate).
      rewrite drop_trailing_holes_some.
      symmetry; apply with_stored_nonempty. now destruct p.
  - unfold ConfigEditor.createCheckboxInput; cbn.
    rewrite change_after_ensure, set_index_past, drop_trailing_holes_some by assumption.
    symmetry; apply with_stored_nonempty. now destruct p.
  - unfold ConfigEditor.createNumberInput; cbn.
    rewrite change_after_ensure, set_index_past, drop_trailing_holes_some by assumption.
    symmetry; apply with_stored_nonempty. now destruct p.
Qed.

(** The inputs of one item of the form. *)
Lemma item_parsed o key v :
  lookup_own key (own o) = None -> key <> "__proto__" ->
  fold_left parse_input (inputs_of (ConfigEditor.config_item key v))
    {| own := own o; proto := None |}
  = {| own := own o ++ option_entry key (reparse v); proto := None |}.
Proof.
  intros Hno Hkey. pose proof Hkey as Hk. apply String.eqb_neq in Hk.
  destruct v as [b | x | items |]; cbn.
  - unfold assign; cbn. now rewrite Hno, Hk.
  - unfold assign; cbn. now rewrite Hno, Hk.
  - rewrite rows_parsed by assumption.
    destruct (drop_trailing_holes (List.map reparse_item items)); cbn.
    + now rewrite app_nil_r.
    + reflexivity.
  - now rewrite app_nil_r.
Qed.

Lemma lookup_own_option_entry key k l v :
  k <> key -> lookup_own key (l ++ option_entry k v) = lookup_own key l.
Proof.
  intros Hne. destruct v; cbn.
  - now apply lookup_own_app_other.
  - now rewrite app_nil_r.
Qed.

Lemma items_parsed (c : Config) : forall o,
  List.NoDup (keys c) -> ~ In "__proto__" (keys c) ->
  (forall k, In k (keys c) -> lookup_own k (own o) = None) ->
  fold_left (fun o x => fold_left parse_input (inputs_of x) o)
    (List.map (fun kv => ConfigEditor.config_item (fst kv) (snd kv)) c)
    {| own := own o; proto := None |}
  = {| own := own o ++ reparsed c; proto := None |}.
Proof.
  induction c as [| [k v] c IH]; intros o Hnd Hpr Hfresh.
  - cbn. now rewrite app_nil_r.
  - change (keys ((k, v) :: c)) with (k :: keys c) in *.
    apply List.NoDup_cons_iff in Hnd as [Hk Hnd].
    cbn [List.map fold_left fst snd].
    rewrite item_parsed.
    + assert (IH' := IH {| own := own o ++ option_entry k (reparse v); proto := None |}).
      cbn [own] in IH'. rewrite IH'.
      * rewrite <- app_assoc. f_equal. f_equal.
        unfold reparsed; cbn. now destruct (reparse v).
      * exact Hnd.
      * intros H; apply Hpr; now right.
      * intros k' Hin. rewrite lookup_own_option_entry.
        -- apply Hfresh; now right.
        -- intros ->; exact (Hk Hin).
    + apply Hfresh; now left.
    + intros ->; apply Hpr; now left.
Qed.

(** What [parseFormConfig] reads from the form [buildConfigForm] built. *)
Lemma parse_built c e :
  List.NoDup (keys c) -> ~ In "__proto__" (keys c) ->
  parseFormConfig (built c e) = {| own := reparsed c; proto := None |}.
Proof.
  intros Hnd Hpr. unfold parseFormConfig, querySelectorAll_input, built; cbn.
  rewrite fold_left_flat_map.
  exact (items_parsed c empty_object Hnd Hpr (fun _ _ => eq_refl)).
Qed.

(** **** Reading back what [buildConfigForm] built *)

Lemma build_then_parse_run c id env st h :
  bind (ConfigEditor.buildConfigForm c id) (fun _ => parse_form id) env st h
  = match ConfigEditor.elements st !! id with
    | Some e =>
        ({| ConfigEditor.elements :=
              alter (set_children
                       (List.map (fun kv => ConfigEditor.config_item (fst kv) (snd kv)) c))
                    id (ConfigEditor.elements st) |},
         h, Returned (parseFormConfig (built c e)))
    | None => (st, h, Thrown type_error)
    end.
Proof.
  unfold ConfigEditor.buildConfigForm, parse_form, bind, get, put, throw, ret.
  destruct (ConfigEditor.elements st !! id) as [e |] eqn:He; [| reflexivity].
  cbn. rewrite lookup_alter_eq, He. reflexivity.
Qed.

(** X17: [parseFormConfig] on the form [buildConfigForm] has just built, for a
    configuration with distinct keys none of which is [__proto__], returns
    an object with the prototype untouched whose own properties are, in
    order, the entries that come back at all, each with the value it comes
    back as: a boolean as it is; a number as [parseInt] of the text of the
    input; an array with a hole for each row without inputs and without the
    holes at its end; and nothing for a value that is not a boolean, a number
    or an array, or for an array none of whose rows has an input.  Without the
    form element both calls throw a TypeError. *)
Theorem form_comes_back_as_reparsed c id env st :
  List.NoDup (keys c) -> ~ In "__proto__" (keys c) ->
  result (run (bind (ConfigEditor.buildConfigForm c id) (fun _ => parse_form id)) env st)
  = match ConfigEditor.elements st !! id with
    | Some _ => Returned {| own := reparsed c; proto := None |}
    | None => Thrown type_error
    end.
Proof.
  intros Hnd Hpr. unfold run, result. rewrite build_then_parse_run.
  destruct (ConfigEditor.elements st !! id) as [e |]; [| reflexivity].
  cbn [snd]. now rewrite parse_built.
Qed.

(** **** What comes back unchanged *)

Lemma same_number_eq x y : same_number x y = true <-> x = y.
Proof.
  split.
  - destruct x as [s | s | | s m e], y as [s' | s' | | s' m' e']; cbn; try discriminate.
    + intros H; apply Bool.eqb_prop in H; now subst.
    + intros H; apply Bool.eqb_prop in H; now subst.
    + reflexivity.
    + intros H. apply andb_prop in H as [H He]. apply andb_prop in H as [Hs Hm].
      apply Bool.eqb_prop in Hs. apply Pos.eqb_eq in Hm. apply Z.eqb_eq in He.
      now subst.
  - intros <-. destruct x as [s | s | | s m e]; cbn.
    + apply Bool.eqb_reflx.
    + apply Bool.eqb_reflx.
    + reflexivity.
    + now rewrite Bool.eqb_reflx, Pos.eqb_refl, Z.eqb_refl.
Qed.

Lemma survives_eq x : survives x = true <-> reparse_number x = x.
Proof. apply same_number_eq. Qed.

Lemma numbers_kept vals :
  List.map (fun x => Some (JNumber (reparse_number x))) vals
  = List.map (fun x => Some (JNumber x)) vals
  <-> forallb survives vals = true.
Proof.
  rewrite List.map_ext_in_iff, forallb_forall.
  split; intros H x Hin.
  - apply survives_eq. specialize (H x Hin). congruence.
  - specialize (H x Hin). apply survives_eq in H. now rewrite H.
Qed.

Lemma item_kept item :
  reparse_item item = Some (encode_item item) <-> storable_item item = true.
Proof.
  destruct item as [vals | b | x]; cbn.
  - destruct vals as [| v vals].
    + split; discriminate.
    + change (nonempty (v :: vals)) with true. rewrite andb_true_l.
      rewrite <- (numbers_kept (v :: vals)).
      split; intros H.
      * injection H as Hv Hvals. cbn. now rewrite Hv, Hvals.
      * now rewrite H.
  - tauto.
  - rewrite survives_eq. split; intros H; [now injection H | now rewrite H].
Qed.

Lemma drop_trailing_holes_full {A} (f : A -> jsvalue) l :
  drop_trailing_holes (List.map (fun i => Some (f i)) l) = List.map (fun i => Some (f i)) l.
Proof. induction l as [| x l IH]; cbn; [reflexivity | now rewrite IH]. Qed.

Lemma items_kept items :
  List.map reparse_item items = List.map (fun i => Some (encode_item i)) items
  <-> forallb storable_item items = true.
Proof.
  rewrite List.map_ext_in_iff, forallb_forall.
  split; intros H x Hin; apply item_kept, H, Hin.
Qed.

Lemma value_kept v :
  (exists w, reparse v = Some w /\ encode v = Some w) <-> storable v = true.
Proof.
  destruct v as [b | x | items |]; cbn.
  - split; [reflexivity | eauto].
  - rewrite survives_eq. split.
    + intros (w & H1 & H2). congruence.
    + intros H. rewrite H. eauto.
  - split.
    + intros (w & H1 & H2).
      set (p := List.map reparse_item items) in *.
      destruct (drop_trailing_holes p) as [| y r] eqn:Hd; [discriminate |].
      assert (Hp : drop_trailing_holes p = List.map (fun i => Some (encode_item i)) items)
        by congruence.
      assert (Hfull : p = List.map (fun i => Some (encode_item i)) items).
      { rewrite (drop_trailing_holes_split p), Hp.
        unfold p at 1. rewrite !length_map, Nat.sub_diag. cbn. apply app_nil_r. }
      apply andb_true_intro; split.
      * destruct items; [discriminate Hd | reflexivity].
      * now apply items_kept.
    + intros H. apply andb_prop in H as [Hne H]. apply items_kept in H.
      rewrite H, drop_trailing_holes_full.
      destruct items as [| i items]; [discriminate |]. cbn. eauto.
  - split; [| discriminate]. intros (w & H1 & _). discriminate.
Qed.

Lemma reparsed_cons k v c :
  reparsed ((k, v) :: c)
  = match reparse v with
    | Some w => (k, w) :: reparsed c
    | None => reparsed c
    end.
Proof. unfold reparsed; cbn. now destruct (reparse v). Qed.

Lemma reparsed_length c : (length (reparsed c) <= length c)%nat.
Proof.
  induction c as [| [k v] c IH]; [cbn; lia |].
  rewrite reparsed_cons. destruct (reparse v); cbn; lia.
Qed.

Lemma reparsed_holds c :
  holds {| own := reparsed c; proto := None |} c
  <-> forallb (fun kv => storable (snd kv)) c = true.
Proof.
  unfold holds; cbn [own].
  induction c as [| [k v] c IH]; [cbn; tauto |].
  cbn [forallb snd]. rewrite andb_true_iff, <- IH, <- value_kept.
  rewrite reparsed_cons.
  cbn [List.map fst snd].
  destruct (reparse v) as [w |] eqn:Hv.
  - cbn [List.map fst snd]. split.
    + intros H; injection H as Hw Hrest. split; [| exact Hrest].
      exists w; split; [reflexivity | now symmetry].
    + intros [(w' & H1 & H2) Hrest]. rewrite Hrest. congruence.
  - split.
    + intros H. apply (f_equal (@length _)) in H. cbn in H.
      rewrite !length_map in H. pose proof (reparsed_length c). lia.
    + intros [(w' & H1 & _) _]. discriminate.
Qed.

(** X18: For a configuration with distinct keys none of which is [__proto__],
    the object [parseFormConfig] reads from the form [buildConfigForm] built
    has the entries of the configuration, in order and with their values,
    exactly when every value is storable: a boolean, a number that the number
    input gives back, or an array that is not empty of booleans, such numbers
    and rows of such numbers that are not empty.  So a text or null value, an
    empty array, an empty row or a number the input does not give back makes
    the saved configuration differ from the one loaded. *)
Theorem form_keeps_exactly_the_storable c e :
  List.NoDup (keys c) -> ~ In "__proto__" (keys c) ->
  (holds (parseFormConfig (built c e)) c
   <-> forallb (fun kv => storable (snd kv)) c = true).
Proof.
  intros Hnd Hpr. rewrite parse_built by assumption. apply reparsed_holds.
Qed.

(** **** The keys of the object *)

Lemma lookup_own_None key l : lookup_own key l = None <-> ~ In key (List.map fst l).
Proof.
  induction l as [| [k v] l IH]; cbn; [tauto |].
  destruct (String.eqb_spec k key) as [-> | Hne].
  - split; [discriminate | intros H; exfalso; apply H; now left].
  - rewrite IH. split; [intros H [Hk | Hin]; [exact (Hne Hk) | exact (H Hin)] | tauto].
Qed.

Lemma write_own_keys key v l :
  List.map fst (write_own key v l)
  = match lookup_own key l with
    | Some _ => List.map fst l
    | None => List.map fst l ++ [key]
    end.
Proof.
  induction l as [| [k w] l IH]; cbn; [reflexivity |].
  destruct (String.eqb k key); cbn; [reflexivity |].
  rewrite IH. now destruct (lookup_own key l).
Qed.

(** An assignment adds at most its key, never [__proto__] and never a key
    twice; a change inside an array adds none. *)
Lemma assign_keys o key v :
  List.map fst (own (assign o key v)) = List.map fst (own o)
  \/ (List.map fst (own (assign o key v)) = List.map fst (own o) ++ [key]
      /\ ~ In key (List.map fst (own o)) /\ key <> "__proto__").
Proof.
  unfold assign. destruct (lookup_own key (own o)) as [w |] eqn:Hl.
  - left. cbn. now rewrite write_own_keys, Hl.
  - destruct (String.eqb_spec key "__proto__") as [-> | Hne].
    + left. now destruct v.
    + right. cbn. rewrite List.map_app. repeat split; [| exact Hne].
      now apply lookup_own_None.
Qed.

Lemma change_array_keys o key f :
  List.map fst (own (change_array o key f)) = List.map fst (own o).
Proof.
  unfold change_array. destruct (lookup_own key (own o)) as [[b | x | a] |] eqn:Hl;
    try reflexivity.
  - cbn. now rewrite write_own_keys, Hl.
  - destruct (String.eqb key "__proto__"); [reflexivity |].
    destruct (proto o); [| reflexivity].
    destruct (index_of key); [| reflexivity].
    now destruct (get_index _ _) as [[| |] |].
Qed.

Lemma ensure_array_keys o key :
  List.map fst (own (ensure_array o key)) = List.map fst (own o)
  \/ (List.map fst (own (ensure_array o key)) = List.map fst (own o) ++ [key]
      /\ ~ In key (List.map fst (own o)) /\ key <> "__proto__").
Proof.
  unfold ensure_array. destruct (array_at o key); [now left | apply assign_keys].
Qed.

Lemma parse_input_keys o i :
  List.map fst (own (parse_input o i)) = List.map fst (own o)
  \/ (List.map fst (own (parse_input o i)) = List.map fst (own o) ++ [input_name i]
      /\ ~ In (input_name i) (List.map fst (own o)) /\ input_name i <> "__proto__").
Proof.
  destruct i as [key value [idx |] subIdx | key checked [idx |]]; cbn [parse_input input_name];
    try apply assign_keys.
  - destruct subIdx; rewrite change_array_keys; apply ensure_array_keys.
  - rewrite change_array_keys; apply ensure_array_keys.
Qed.

Lemma parsed_keys inputs : forall o,
  List.NoDup (List.map fst (own o)) -> ~ In "__proto__" (List.map fst (own o)) ->
  let o' := fold_left parse_input inputs o in
  List.NoDup (List.map fst (own o'))
  /\ ~ In "__proto__" (List.map fst (own o'))
  /\ forall k, In k (List.map fst (own o')) ->
       In k (List.map fst (own o)) \/ In k (List.map input_name inputs).
Proof.
  induction inputs as [| i inputs IH]; intros o Hnd Hpr; cbn.
  - repeat split; [assumption | assumption | now left].
  - destruct (parse_input_keys o i) as [Hsame | (Hnew & Hfresh & Hname)].
    + destruct (IH (parse_input o i)) as (H1 & H2 & H3); [now rewrite Hsame .. |].
      repeat split; [assumption | assumption |].
      intros k Hk. destruct (H3 k Hk) as [H | H]; [left; now rewrite <- Hsame | right; now right].
    + destruct (IH (parse_input o i)) as (H1 & H2 & H3).
      * rewrite Hnew. apply List.NoDup_app; repeat split; try assumption.
        -- constructor; [intros [] | constructor].
        -- intros k Hk [<- | []]. exact (Hfresh Hk).
      * rewrite Hnew, in_app_iff. intros [H | [H | []]]; [exact (Hpr H) | now apply Hname].
      * repeat split; [assumption | assumption |].
        intros k Hk. destruct (H3 k Hk) as [H | H]; [| right; now right].
        rewrite Hnew, in_app_iff in H. destruct H as [H | [<- | []]]; [now left |].
        right; now left.
Qed.

(** The order in which the properties are written permutes them. *)
Lemma insert_index_perm e l : Permutation (insert_index e l) (e :: l).
Proof.
  induction l as [| e' l IH]; cbn [insert_index]; [reflexivity |].
  destruct (fst e <? fst e')%nat; [reflexivity |].
  rewrite IH. apply perm_swap.
Qed.

Lemma sorted_index_perm l : Permutation (foldr insert_index [] l) l.
Proof.
  induction l as [| e l IH]; cbn; [reflexivity |].
  rewrite insert_index_perm. now constructor.
Qed.

Lemma own_entries_perm o : Permutation (own_entries o) (own o).
Proof.
  unfold own_entries. rewrite sorted_index_perm.
  induction (own o) as [| [k v] l IH]; cbn; [reflexivity |].
  destruct (index_of k); cbn.
  - now constructor.
  - rewrite <- Permutation_middle. now constructor.
Qed.

Lemma body_fields_names o :
  Permutation (field_names (body_fields o)) (List.map fst (own o)).
Proof.
  unfold field_names, body_fields. rewrite List.map_map; cbn.
  apply Permutation_map, own_entries_perm.
Qed.

(** X19: Whatever inputs a form holds, the body [JSON.stringify] makes of the
    object [parseFormConfig] read from it names no field twice, names only
    inputs of the form, and never has a field [__proto__]: inputs of that
    name set or change the prototype of the object and are not saved. *)
Theorem posted_fields_are_input_names formElement :
  let names := field_names (body_fields (parseFormConfig formElement)) in
  List.NoDup names
  /\ ~ In "__proto__" names
  /\ forall k, In k names ->
       In k (List.map input_name (querySelectorAll_input formElement)).
Proof.
  intros names.
  destruct (parsed_keys (querySelectorAll_input formElement) empty_object)
    as (H1 & H2 & H3); [constructor | intros [] |].
  fold (parseFormConfig formElement) in H1, H2, H3.
  pose proof (body_fields_names (parseFormConfig formElement)) as Hp. fold names in Hp.
  repeat split.
  - eapply Permutation_NoDup; [symmetry; exact Hp | exact H1].
  - intros H. apply H2. eapply Permutation_in; [exact Hp | exact H].
  - intros k Hk. destruct (H3 k) as [[] | H]; [| exact H].
    eapply Permutation_in; [exact Hp | exact Hk].
Qed.

(** **** The save button *)

(** X20: A click on the save button never rejects and leaves the page as it
    is.  It posts the general form, the midi form and the text of the DMX
    area, in this order, each after the answer to the one before, and
    alerts the success exactly when the page has the three parts and no
    request was rejected: the status of the answers is never looked at, so a
    backend that answers every request with an error status is reported as
    a success.  Otherwise nothing is sent after the part that is missing or
    the request that was rejected, and the failure is logged once and
    alerted. *)
Theorem save_reports_success_whatever_the_status env st :
  let r := run save_click env st in
  let reqs := save_requests st in
  result r = Returned tt /\ final r = st
  /\ (if (length reqs =? 3)%nat && all_answered env [] reqs
      then trace r = List.map Fetched reqs ++ [Alerted saved_alert]
      else exists n msg,
             (n <= length reqs)%nat
             /\ trace r = List.map Fetched (take n reqs)
                          ++ [ConsoleError "Error saving configs:" msg;
                              Alerted not_saved_alert])
  /\ (length reqs = 3%nat ->
      trace (run save_click failing_backend st)
      = List.map Fetched reqs ++ [Alerted saved_alert]).
Proof.
  unfold run, result, final, trace, save_click, save_requests, parse_form,
    try_catch, bind, get, throw, ret, fetch, alert, console_error, emit.
  cbn.
  destruct (ConfigEditor.elements st !! "general-form") as [general |]; cbn.
  2: { repeat split; [exists 0%nat, type_error; split; [lia | reflexivity] | discriminate]. }
  set (g := save_request "general" _).
  destruct (ConfigEditor.elements st !! "midi-form") as [midi |]; cbn.
  2: { destruct (network env [] ShNone g) as [res | msg]; cbn;
       (repeat split; [| discriminate]).
       - exists 1%nat, type_error; split; [lia | reflexivity].
       - exists 1%nat, msg; split; [lia | reflexivity]. }
  set (m := save_request "midi" _).
  destruct (ConfigEditor.elements st !! "dmx-textarea") as [textarea |]; cbn.
  2: { destruct (network env [] ShNone g) as [res | msg]; cbn.
       - destruct (network env [Fetched g] ShNone m) as [res' | msg]; cbn;
           (repeat split; [| discriminate]).
         + exists 2%nat, type_error; split; [lia | reflexivity].
         + exists 2%nat, msg; split; [lia | reflexivity].
       - repeat split; [| discriminate].
         exists 1%nat, msg; split; [lia | reflexivity]. }
  set (d := save_request "dmx" _).
  destruct (network env [] ShNone g) as [res | msg]; cbn.
  - destruct (network env [Fetched g] ShNone m) as [res' | msg]; cbn.
    + destruct (network env [Fetched g; Fetched m] ShNone d) as [res'' | msg]; cbn.
      * repeat split.
      * repeat split. exists 3%nat, msg; split; [lia | reflexivity].
    + repeat split. exists 2%nat, msg; split; [lia | reflexivity].
  - repeat split. exists 1%nat, msg; split; [lia | reflexivity].
Qed.

(** **** Numbers *)

Lemma integers_in lo n z : lo <= z < lo + Z.of_nat n -> In z (integers lo n).
Proof.
  intros H. unfold integers. apply in_map_iff.
  exists (Z.to_nat (z - lo)). split; [lia |]. apply in_seq. lia.
Qed.

(** X21: A number input gives back every integer from -128 to 1023 written to
    it.  It does not give back a number with a fraction, which loses the
    fraction ([0.5] comes back as [0]); a number from [10^21] on or below
    [10^-6], whose text is in exponent notation and is read up to the point or
    the [e] ([10^21] and [1.5e-7] come back as [1]); or the negative zero,
    which comes back as [0]. *)
Theorem number_input_gives_back_small_integers :
  (forall z, -128 <= z <= 1023 -> reparse_number (JsNumber.of_Z z) = JsNumber.of_Z z)
  /\ reparse_number (round_ratio false 1 2) = JsNumber.of_Z 0
  /\ reparse_number (JsNumber.of_Z (10 ^ 21)) = JsNumber.of_Z 1
  /\ reparse_number (round_ratio false 15 (10 ^ 8)) = JsNumber.of_Z 1
  /\ reparse_number (S754_zero true) = JsNumber.of_Z 0.
Proof.
  split; [| repeat split; vm_compute; reflexivity].
  intros z Hz. apply survives_eq.
  assert (Hall : forallb (fun z => survives (JsNumber.of_Z z)) (integers (-128) 1152) = true)
    by (vm_compute; reflexivity).
  rewrite forallb_forall in Hall. apply Hall, integers_in. lia.
Qed.

(** **** Instances *)

Lemma form_comes_back_as_reparsed_witness :
  List.NoDup (keys sample_config) /\ ~ In "__proto__" (keys sample_config)
  /\ result (run (bind (ConfigEditor.buildConfigForm sample_config "midi-form")
                       (fun _ => parse_form "midi-form")) failing_backend editor_state)
     = Returned {| own := reparsed sample_config; proto := None |}.
Proof.
  assert (Hnd : List.NoDup (keys sample_config)).
  { repeat constructor; cbn; intros H;
      repeat (destruct H as [H | H]; [discriminate H |]); exact H. }
  assert (Hpr : ~ In "__proto__" (keys sample_config)).
  { cbn; intros H; repeat (destruct H as [H | H]; [discriminate H |]); exact H. }
  split; [exact Hnd |]. split; [exact Hpr |].
  exact (form_comes_back_as_reparsed sample_config "midi-form" failing_backend editor_state
           Hnd Hpr).
Defined.

Lemma form_keeps_exactly_the_storable_witness :
  List.NoDup (keys sample_config) /\ ~ In "__proto__" (keys sample_config)
  /\ (holds (parseFormConfig (built sample_config blank)) sample_config
      <-> forallb (fun kv => storable (snd kv)) sample_config = true).
Proof.
  assert (Hnd : List.NoDup (keys sample_config)).
  { repeat constructor; cbn; intros H;
      repeat (destruct H as [H | H]; [discriminate H |]); exact H. }
  assert (Hpr : ~ In "__proto__" (keys sample_config)).
  { cbn; intros H; repeat (destruct H as [H | H]; [discriminate H |]); exact H. }
  split; [exact Hnd |]. split; [exact Hpr |].
  exact (form_keeps_exactly_the_storable sample_config blank Hnd Hpr).
Defined.

(** **** Loading the three parts *)






(** *** The first script on a page that lacks a container *)

Section FailsOnlyWith.
Context {S : Type} (e : string).

Lemma fails_ret {A} (a : A) : fails_only_with e (ret (S := S) a).
Proof. intros env s h. exact I. Qed.

Lemma fails_throw {A} : fails_only_with e (throw (S := S) (A := A) e).
Proof. intros env s h. reflexivity. Qed.

Lemma fails_get : fails_only_with e (get (S := S)).
Proof. intros env s h. exact I. Qed.

Lemma fails_modify f : fails_only_with e (modify (S := S) f).
Proof. intros env s h. exact I. Qed.

Lemma fails_bind {A B} (m : M S A) (k : A -> M S B) :
  fails_only_with e m -> (forall a, fails_only_with e (k a)) -> fails_only_with e (bind m k).
Proof.
  intros Hm Hk env s h. unfold bind. specialize (Hm env s h).
  destruct (m env s h) as [[s' h'] [a | e']]; cbn in *; [apply Hk | exact Hm].
Qed.

Lemma fails_forEach_from {A} (l : list A) (f : A -> nat -> M S unit) i :
  (forall x j, fails_only_with e (f x j)) -> fails_only_with e (forEach_from i l f).
Proof.
  intros Hf. revert i. induction l as [| x l IH]; intros i; cbn.
  - apply fails_ret.
  - apply fails_bind; [apply Hf | intros _; apply IH].
Qed.

End FailsOnlyWith.

Ltac fails_step :=
  first
    [ apply fails_ret | apply fails_throw | apply fails_get | apply fails_modify
    | apply fails_bind; [| intros ?]
    | apply fails_forEach_from; intros ? ?
    | match goal with
      | |- fails_only_with _ (if ?b then _ else _) => destruct b
      | |- fails_only_with _ (match ?x with _ => _ end) => destruct x
      end ].

Lemma Legacy_render_category_fails data category catIndex :
  fails_only_with type_error (Legacy.render_category data category catIndex).
Proof.
  unfold Legacy.render_category, Legacy.render_slot, Legacy.updateStorageDisplay,
    Legacy.write_text, forEach.
  repeat fails_step.
Qed.

Lemma same_children_refl ids s : same_children ids s s.
Proof. split; intros; reflexivity. Qed.

Lemma same_children_trans ids a b c :
  same_children ids a b -> same_children ids b c -> same_children ids a c.
Proof.
  intros [H1 H2] [H3 H4]. split.
  - intros id. now rewrite H3, H1.
  - intros id Hid. now rewrite H4, H2.
Qed.

Lemma same_children_weaken ids ids' a b :
  (forall id, In id ids -> In id ids') -> same_children ids a b -> same_children ids' a b.
Proof. intros Hsub [H1 H2]. split; [exact H1 |]. intros id Hid. apply H2. auto. Qed.

Lemma lookup_alter_is_None (f : element -> element) id (doc : gmap string element) id' :
  alter f id doc !! id' = None <-> doc !! id' = None.
Proof.
  destruct (decide (id = id')) as [<- | Hne].
  - rewrite lookup_alter_eq. destruct (doc !! id); cbn; split; congruence.
  - now rewrite lookup_alter_ne.
Qed.

(** Writing a text changes no children; writing the children of a category
    changes those only. *)
Lemma same_children_text ids id s st :
  same_children ids st (Legacy.with_elements (alter (set_textContent s) id) st).
Proof.
  split; intros id'; cbn.
  - apply lookup_alter_is_None.
  - intros _. unfold kids. now apply lookup_alter_proj.
Qed.

Lemma same_children_container ids f category st :
  In category ids ->
  same_children ids st (Legacy.with_elements (alter f category) st).
Proof.
  intros Hin. split; intros id'; cbn.
  - apply lookup_alter_is_None.
  - intros Hout. unfold kids. rewrite lookup_alter_ne; [reflexivity |].
    intros ->. contradiction.
Qed.

Lemma Legacy_render_category_children data category catIndex :
  keeps (same_children [category]) (Legacy.render_category data category catIndex).
Proof.
  pose proof (same_children_refl [category]) as Hrefl.
  pose proof (same_children_trans [category]) as Htrans.
  unfold Legacy.render_category, Legacy.render_slot, Legacy.updateStorageDisplay,
    Legacy.write_text.
  repeat first
    [ keeps_step
    | apply keeps_modify; intros ?;
      first [ apply same_children_text
            | apply same_children_container; now left
            | apply same_children_refl
            | split; intros; reflexivity ] ].
Qed.

(** How the rendering of one category ends. *)
Lemma Legacy_render_category_ends data category catIndex env st h :
  exists st' o,
    Legacy.render_category data category catIndex env st h = (st', h, o)
    /\ (o = Returned tt \/ o = Thrown type_error)
    /\ same_children [category] st st'.
Proof.
  pose proof (Legacy_render_category_fails data category catIndex env st h) as Hf.
  pose proof (Legacy_render_category_children data category catIndex env st h) as Hk.
  destruct (emits_Legacy_render_category nothing data category catIndex env st h)
    as (added & Hadded & Hnone).
  apply nothing_nil in Hnone. subst added. rewrite List.app_nil_r in Hadded.
  destruct (Legacy.render_category data category catIndex env st h) as [[st' h'] o].
  cbn in Hf, Hk, Hadded. subst h'.
  exists st', o. split; [reflexivity |]. split; [| exact Hk].
  destruct o as [[] | e']; [now left | right; now rewrite Hf].
Qed.

(** The rendering stops at the category without a container, if not
    before. *)
Lemma Legacy_rendering_stops data c after before : forall i env st h,
  Legacy.elements st !! c = None ->
  exists st',
    forEach_from i (before ++ c :: after) (Legacy.render_category data) env st h
    = (st', h, Thrown type_error)
    /\ same_children before st st'.
Proof.
  induction before as [| b before IH]; intros i env st h Hc.
  - exists st. split; [| apply same_children_refl].
    cbn [app forEach_from]. unfold bind, Legacy.render_category at 1, get.
    cbn. now rewrite Hc.
  - destruct (Legacy_render_category_ends data b i env st h) as (st1 & o & E & Ho & Hk).
    cbn [app forEach_from].
    assert (Hk' : same_children (b :: before) st st1).
    { eapply same_children_weaken; [| exact Hk]. intros id [<- | []]. now left. }
    destruct Ho as [-> | ->].
    + rewrite (bind_value _ _ _ _ _ _ _ _ E).
      destruct (IH (Datatypes.S i) env st1 h) as (st2 & E2 & Hk2).
      { now apply (proj1 Hk). }
      exists st2. split; [exact E2 |].
      eapply same_children_trans; [exact Hk' |].
      eapply same_children_weaken; [| exact Hk2]. intros id Hin. now right.
    + exists st1. split; [| exact Hk'].
      now rewrite (bind_thrown _ _ _ _ _ _ _ _ E).
Qed.

(** X23: In the first script a category without a container on the page ends
    the rendering: whatever the snapshot, the refresh fails with a TypeError
    that is logged, at this category if not before, and never rejects.  The
    containers of the categories that follow, and every element that is not
    a category listed before it, keep their children: the slots shown there
    are those of the previous snapshot. *)
Theorem legacy_refresh_stops_at_missing_container env st response data before c after :
  network env [] ShOpz (read_samples "http://localhost:5000/read-samples")
  = Returned response ->
  ok response = true ->
  json response = Returned data ->
  categories data = before ++ c :: after ->
  Legacy.elements st !! c = None ->
  let r := run Legacy.fetchOpzSamples env st in
  result r = Returned tt
  /\ trace r = [Fetched (read_samples "http://localhost:5000/read-samples");
                ConsoleError "Failed to fetch OP-Z samples:" type_error]
  /\ (forall id, ~ In id before ->
        kids (Legacy.elements (final r)) id = kids (Legacy.elements st) id).
Proof.
  intros Hnet Hok Hjson Hcats Hc r. subst r.
  set (req := read_samples "http://localhost:5000/read-samples") in *.
  set (st0 := {| Legacy.elements := Legacy.elements st;
                 Legacy.storageUsed := JsNumber.of_Z 0; Legacy.numSamples := 0 |}).
  destruct (Legacy_rendering_stops data c after before 0 env st0 [Fetched req] Hc)
    as (st' & E & Hk1 & Hk2).
  unfold run, Legacy.fetchOpzSamples.
  change {| url := "http://localhost:5000/read-samples"; method := "GET"; fields := [] |}
    with req.
  unfold try_catch.
  match goal with
  | |- context [bind ?m ?k env st []] =>
      assert (Hbody : bind m k env st [] = (st', [Fetched req], Thrown type_error))
  end.
  { unfold bind at 1, fetch. rewrite Hnet. cbn [app]. rewrite Hok. cbn [negb].
    unfold bind at 1, lift. rewrite Hjson.
    unfold bind at 1, modify. fold st0. unfold forEach. rewrite Hcats. exact E. }
  rewrite Hbody.
  unfold console_error, emit; cbn [result trace final fst snd app].
  split; [reflexivity |]. split; [reflexivity |].
  intros id Hid. now rewrite (Hk2 id Hid).
Qed.

Lemma legacy_refresh_stops_witness :
  Legacy.elements legacy_state !! "snare" = None
  /\ trace (run Legacy.fetchOpzSamples (backend true snare_kick_snapshot) legacy_state)
     = [Fetched (read_samples "http://localhost:5000/read-samples");
        ConsoleError "Failed to fetch OP-Z samples:" type_error]
  /\ kids (Legacy.elements
             (final (run Legacy.fetchOpzSamples (backend true snare_kick_snapshot)
                       legacy_state))) "kick"
     = kids (Legacy.elements legacy_state) "kick".
Proof.
  assert (Hc : Legacy.elements legacy_state !! "snare" = None) by (vm_compute; reflexivity).
  destruct (legacy_refresh_stops_at_missing_container
              (backend true snare_kick_snapshot) legacy_state
              (Build_response ShOpz true "OK" (Returned snare_kick_snapshot))
              snare_kick_snapshot [] "snare" ["kick"]
              eq_refl eq_refl eq_refl eq_refl Hc) as (_ & Htrace & Hkids).
  split; [exact Hc |]. split; [exact Htrace |].
  apply Hkids. intros [].
Defined.

(** *** What the first script renders *)

Lemma Legacy_write_text_run id s env st h :
  Legacy.elements st !! id <> None ->
  Legacy.write_text id s env st h
  = (Legacy.with_elements (alter (set_textContent s) id) st, h, Returned tt).
Proof.
  intros He. unfold Legacy.write_text. rewrite get_bind.
  destruct (Legacy.elements st !! id); [reflexivity | congruence].
Qed.

Lemma has_display_same_children ids st st' :
  same_children ids st st' -> has_display st -> has_display st'.
Proof. intros [H _] Hd id Hin Hnone. apply (Hd id Hin). now apply H. Qed.

Lemma text_at_alter_eq s id (doc : gmap string element) :
  doc !! id <> None -> text_at (alter (set_textContent s) id doc) id = Some s.
Proof.
  intros He. unfold text_at. rewrite lookup_alter_eq.
  destruct (doc !! id); [reflexivity | congruence].
Qed.

Lemma text_at_alter_ne f id id' (doc : gmap string element) :
  id <> id' -> text_at (alter f id doc) id' = text_at doc id'.
Proof. intros Hne. unfold text_at. now rewrite lookup_alter_ne. Qed.

Lemma text_at_children f id id' (doc : gmap string element) :
  (forall e, textContent (f e) = textContent e) ->
  text_at (alter f id doc) id' = text_at doc id'.
Proof. intros Hf. unfold text_at. now apply lookup_alter_proj. Qed.

(** What the display does to a page that has its elements. *)
Lemma Legacy_updateStorageDisplay_run env st h :
  has_display st ->
  exists st',
    Legacy.updateStorageDisplay env st h = (st', h, Returned tt)
    /\ Legacy.numSamples st' = Legacy.numSamples st
    /\ Legacy.storageUsed st' = Legacy.storageUsed st
    /\ same_children [] st st'
    /\ legacy_shown st'.
Proof.
  intros Hd. unfold Legacy.updateStorageDisplay. rewrite get_bind.
  assert (Hstep : forall id s st1 (k : unit -> M Legacy.state unit),
            Legacy.elements st1 !! id <> None ->
            bind (Legacy.write_text id s) k env st1 h
            = k tt env (Legacy.with_elements (alter (set_textContent s) id) st1) h).
  { intros id s st1 k He. apply bind_value. now apply Legacy_write_text_run. }
  assert (Hkeep : forall id s st1, has_display st1 ->
            has_display (Legacy.with_elements (alter (set_textContent s) id) st1)).
  { intros id s st1 H1. eapply has_display_same_children; [| exact H1].
    apply (same_children_text []). }
  set (t1 := (_ ++ "%")%string). set (t2 := (_ ++ " KB")%string).
  set (t3 := (_ ++ " KB")%string). set (t4 := (_ ++ "%")%string).
  set (st1 := Legacy.with_elements (alter (set_textContent t1) "storage-percent") st).
  set (st2 := Legacy.with_elements (alter (set_textContent t2) "storage-used") st1).
  set (st3 := Legacy.with_elements (alter (set_textContent t3) "storage-free") st2).
  set (st4 := Legacy.with_elements (alter (set_textContent t4) "samples-percent") st3).
  set (st5 := Legacy.with_elements
                (alter (set_textContent (JsString.of_Z (Legacy.numSamples st))) "samples-used")
                st4).
  assert (H1 : has_display st1) by now apply Hkeep.
  assert (H2 : has_display st2) by now apply Hkeep.
  assert (H3 : has_display st3) by now apply Hkeep.
  assert (H4 : has_display st4) by now apply Hkeep.
  assert (H5 : has_display st5) by now apply Hkeep.
  rewrite Hstep by (apply Hd; cbn; tauto). fold st1.
  rewrite Hstep by (apply H1; cbn; tauto). fold st2.
  rewrite Hstep by (apply H2; cbn; tauto). fold st3.
  rewrite Hstep by (apply H3; cbn; tauto). fold st4.
  rewrite Hstep by (apply H4; cbn; tauto). fold st5.
  rewrite Legacy_write_text_run by (apply H5; cbn; tauto).
  eexists. split; [reflexivity |]. split; [reflexivity |]. split; [reflexivity |].
  split.
  - repeat (eapply same_children_trans; [| apply same_children_text]).
    apply same_children_refl.
  - split; cbn [Legacy.elements Legacy.with_elements Legacy.numSamples].
    + rewrite text_at_alter_ne by discriminate.
      apply text_at_alter_eq. apply H4; cbn; tauto.
    + apply text_at_alter_eq. apply H5; cbn; tauto.
Qed.

Lemma add_sizes_cons slot slots acc :
  add_sizes (slot :: slots) acc
  = add_sizes slots (match filesize slot with
                     | Some b => if JsNumber.truthy b
                                 then add acc (div b (JsNumber.of_Z 1024)) else acc
                     | None => acc
                     end).
Proof. reflexivity. Qed.

Lemma Legacy_render_slot_run category slot j env st h :
  has_display st ->
  exists st',
    Legacy.render_slot category slot j env st h = (st', h, Returned tt)
    /\ Legacy.numSamples st' = Legacy.numSamples st + (if counted slot then 1 else 0)
    /\ Legacy.storageUsed st' = add_sizes [slot] (Legacy.storageUsed st)
    /\ same_children [category] st st'
    /\ kids (Legacy.elements st') category
       = (fun l => l ++ [SlotChild (new_slotDiv category j slot)])
           <$> kids (Legacy.elements st) category
    /\ legacy_shown st'.
Proof.
  intros Hd. unfold Legacy.render_slot.
  set (st1 := if counted slot
              then {| Legacy.elements := Legacy.elements st;
                      Legacy.storageUsed := Legacy.storageUsed st;
                      Legacy.numSamples := Legacy.numSamples st + 1 |}
              else st).
  set (m1 := if counted slot then modify _ else ret tt).
  set (m2 := match filesize slot with Some _ => _ | None => _ end).
  assert (E1 : m1 env st h = (st1, h, Returned tt)).
  { subst m1 st1. now destruct (counted slot). }
  rewrite (bind_value _ _ _ _ _ _ _ _ E1).
  set (st2 := {| Legacy.elements := Legacy.elements st;
                 Legacy.storageUsed := add_sizes [slot] (Legacy.storageUsed st);
                 Legacy.numSamples := Legacy.numSamples st1 |}).
  assert (E2 : m2 env st1 h = (st2, h, Returned tt)).
  { subst m2 st2 st1. unfold add_sizes; cbn [fold_left].
    destruct (filesize slot) as [b |]; [destruct (JsNumber.truthy b) |];
      destruct (counted slot); try reflexivity; now destruct st. }
  rewrite (bind_value _ _ _ _ _ _ _ _ E2).
  assert (Hd2 : has_display st2) by exact Hd.
  destruct (Legacy_updateStorageDisplay_run env st2 h Hd2) as (st3 & E3 & Hn3 & Hu3 & Hk3 & Hs3).
  rewrite (bind_value _ _ _ _ _ _ _ _ E3).
  eexists. split; [reflexivity |].
  cbn [Legacy.numSamples Legacy.storageUsed Legacy.elements Legacy.with_elements].
  split. { rewrite Hn3. subst st2 st1. cbn. destruct (counted slot); cbn; lia. }
  split; [exact Hu3 |].
  split.
  { eapply (same_children_trans _ st st3).
    - eapply same_children_weaken; [| exact Hk3]. intros id [].
    - apply same_children_container. now left. }
  split.
  { unfold kids. rewrite lookup_alter_eq.
    pose proof (proj2 Hk3 category (fun H => H)) as Hkc. unfold kids in Hkc.
    change (Legacy.elements st2) with (Legacy.elements st) in Hkc.
    destruct (Legacy.elements st3 !! category), (Legacy.elements st !! category);
      cbn in Hkc |- *; congruence. }
  destruct Hs3 as [Hs3 Hs3']. split; cbn [Legacy.elements Legacy.with_elements Legacy.numSamples].
  - rewrite text_at_children by reflexivity. exact Hs3.
  - rewrite text_at_children by reflexivity. exact Hs3'.
Qed.

Lemma counted_in_app a b : counted_in (a ++ b) = counted_in a + counted_in b.
Proof. unfold counted_in. rewrite List.filter_app, length_app. lia. Qed.

Lemma add_sizes_app a b acc : add_sizes (a ++ b) acc = add_sizes b (add_sizes a acc).
Proof. unfold add_sizes. apply fold_left_app. Qed.

Lemma legacy_shown_children f id st :
  (forall e, textContent (f e) = textContent e) ->
  legacy_shown st -> legacy_shown (Legacy.with_elements (alter f id) st).
Proof.
  intros Hf [H1 H2]. split; cbn [Legacy.elements Legacy.with_elements Legacy.numSamples];
    now rewrite text_at_children.
Qed.

Lemma Legacy_render_slots_run category slots : forall i env st h,
  has_display st ->
  exists st',
    forEach_from i slots (Legacy.render_slot category) env st h = (st', h, Returned tt)
    /\ Legacy.numSamples st' = Legacy.numSamples st + counted_in slots
    /\ Legacy.storageUsed st' = add_sizes slots (Legacy.storageUsed st)
    /\ same_children [category] st st'
    /\ kids (Legacy.elements st') category
       = (fun l => l ++ slot_children_from i category slots)
           <$> kids (Legacy.elements st) category
    /\ (slots <> [] -> legacy_shown st')
    /\ (slots = [] -> st' = st).
Proof.
  induction slots as [| slot slots IH]; intros i env st h Hd.
  - exists st. cbn [forEach_from]. split; [reflexivity |].
    split; [unfold counted_in; cbn; lia |]. split; [reflexivity |].
    split; [apply same_children_refl |]. split.
    + unfold slot_children_from. cbn [imap].
      destruct (kids (Legacy.elements st) category); cbn; [now rewrite List.app_nil_r | reflexivity].
    + split; [intros H; now contradiction H | reflexivity].
  - destruct (Legacy_render_slot_run category slot i env st h Hd)
      as (st1 & E1 & Hn1 & Hu1 & Hk1 & Hc1 & Hs1).
    assert (Hd1 : has_display st1) by (eapply has_display_same_children; eassumption).
    destruct (IH (Datatypes.S i) env st1 h Hd1)
      as (st2 & E2 & Hn2 & Hu2 & Hk2 & Hc2 & Hs2 & Hnil).
    exists st2. cbn [forEach_from]. rewrite (bind_value _ _ _ _ _ _ _ _ E1).
    split; [exact E2 |]. split; [rewrite Hn2, Hn1, counted_in_cons; lia |].
    split; [rewrite Hu2, Hu1; reflexivity |].
    split; [eapply same_children_trans; eassumption |].
    split.
    { rewrite Hc2, Hc1, slot_children_from_cons.
      destruct (kids (Legacy.elements st) category); cbn; [| reflexivity].
      now rewrite <- List.app_assoc. }
    split; [| discriminate].
    intros _. destruct slots as [| s' slots'].
    + now rewrite (Hnil eq_refl).
    + now apply Hs2.
Qed.

Lemma Legacy_render_category_run data category catIndex container slots env st h :
  has_display st ->
  Legacy.elements st !! category = Some container ->
  nth_error (sampleData data) catIndex = Some slots ->
  exists st',
    Legacy.render_category data category catIndex env st h = (st', h, Returned tt)
    /\ Legacy.numSamples st' = Legacy.numSamples st + counted_in slots
    /\ Legacy.storageUsed st' = add_sizes slots (Legacy.storageUsed st)
    /\ same_children [category] st st'
    /\ kids (Legacy.elements st') category
       = Some (kept_heading (children container) ++ slot_children category slots)
    /\ (slots <> [] -> legacy_shown st')
    /\ (legacy_shown st -> legacy_shown st').
Proof.
  intros Hd Hc Hrow. unfold Legacy.render_category.
  rewrite get_bind, Hc, bind_modify, Hrow. fold (kept_heading (children container)).
  set (st0 := Legacy.with_elements _ st). unfold forEach.
  assert (Hk0 : same_children [category] st st0)
    by (apply same_children_container; now left).
  assert (Hd0 : has_display st0) by (eapply has_display_same_children; eassumption).
  destruct (Legacy_render_slots_run category slots 0 env st0 h Hd0)
    as (st1 & E & Hn & Hu & Hk & Hkc & Hs & Hnil).
  exists st1. split; [exact E |]. split; [exact Hn |]. split; [exact Hu |].
  split; [eapply same_children_trans; eassumption |].
  split.
  { rewrite Hkc. subst st0. unfold kids. cbn. rewrite lookup_alter_eq, Hc. reflexivity. }
  split; [exact Hs |].
  intros Hshown. destruct slots as [| s slots'].
  - rewrite (Hnil eq_refl). subst st0. now apply legacy_shown_children.
  - now apply Hs.
Qed.

Lemma Legacy_render_categories_run data : forall cats rows i env st h,
  has_display st ->
  List.NoDup cats ->
  (forall c, In c cats -> Legacy.elements st !! c <> None) ->
  length rows = length cats ->
  (forall k, (k < length cats)%nat ->
             nth_error (sampleData data) (i + k) = nth_error rows k) ->
  exists st',
    forEach_from i cats (Legacy.render_category data) env st h = (st', h, Returned tt)
    /\ Legacy.numSamples st' = Legacy.numSamples st + counted_in (concat rows)
    /\ Legacy.storageUsed st' = add_sizes (concat rows) (Legacy.storageUsed st)
    /\ same_children cats st st'
    /\ (forall k c container slots,
          nth_error cats k = Some c ->
          Legacy.elements st !! c = Some container ->
          nth_error rows k = Some slots ->
          kids (Legacy.elements st') c
          = Some (kept_heading (children container) ++ slot_children c slots))
    /\ (legacy_shown st -> legacy_shown st')
    /\ (concat rows <> [] -> legacy_shown st').
Proof.
  induction cats as [| c cats IH]; intros rows i env st h Hd Hnd Hall Hlen Hrows.
  - destruct rows; [| discriminate Hlen].
    exists st. cbn [forEach_from concat]. split; [reflexivity |].
    split; [unfold counted_in; cbn; lia |]. split; [reflexivity |].
    split; [apply same_children_refl |].
    split; [intros [| k] ? ? ? Hk; discriminate Hk |]. split; [tauto |].
    intros H; now contradiction H.
  - destruct rows as [| slots rows]; [discriminate Hlen |].
    injection Hlen as Hlen.
    apply List.NoDup_cons_iff in Hnd as [Hnotin Hnd].
    destruct (Legacy.elements st !! c) as [container |] eqn:Hc;
      [| exfalso; apply (Hall c); [now left | exact Hc]].
    assert (Hrow : nth_error (sampleData data) i = Some slots).
    { specialize (Hrows 0%nat). rewrite Nat.add_0_r in Hrows. apply Hrows. cbn; lia. }
    destruct (Legacy_render_category_run data c i container slots env st h Hd Hc Hrow)
      as (st1 & E1 & Hn1 & Hu1 & Hk1 & Hkc1 & Hs1 & Hkeep1).
    assert (Hd1 : has_display st1) by (eapply has_display_same_children; eassumption).
    destruct (IH rows (Datatypes.S i) env st1 h Hd1 Hnd)
      as (st2 & E2 & Hn2 & Hu2 & Hk2 & Hkc2 & Hkeep2 & Hs2).
    { intros c' Hin Hnone. apply (Hall c'); [now right |]. now apply (proj1 Hk1). }
    { exact Hlen. }
    { intros k Hk. replace (Datatypes.S i + k)%nat with (i + Datatypes.S k)%nat by lia.
      apply (Hrows (Datatypes.S k)). cbn; lia. }
    exists st2. cbn [forEach_from concat]. rewrite (bind_value _ _ _ _ _ _ _ _ E1).
    split; [exact E2 |].
    split; [rewrite Hn2, Hn1, counted_in_app; lia |].
    split; [rewrite Hu2, Hu1, add_sizes_app; reflexivity |].
    split.
    { eapply same_children_trans.
      - eapply same_children_weaken; [| exact Hk1]. intros id [<- | []]. now left.
      - eapply same_children_weaken; [| exact Hk2]. intros id Hin. now right. }
    split.
    { intros [| k] c' container' slots' Hk Hc' Hrow'.
      - injection Hk as <-. cbn in Hrow'. injection Hrow' as <-.
        rewrite Hc in Hc'. injection Hc' as <-.
        rewrite (proj2 Hk2 c Hnotin). exact Hkc1.
      - cbn in Hk, Hrow'.
        assert (Hne : c' <> c).
        { intros ->. apply Hnotin. eapply nth_error_In; exact Hk. }
        pose proof (proj2 Hk1 c') as Hkid. unfold kids in Hkid. rewrite Hc' in Hkid.
        destruct (Legacy.elements st1 !! c') as [container1 |] eqn:Hc1.
        + rewrite (Hkc2 k c' container1 slots' Hk Hc1 Hrow').
          assert (Heq : Some (children container1) = Some (children container')).
          { apply Hkid. intros [Heq | []]. now apply Hne. }
          injection Heq as ->. reflexivity.
        + exfalso. assert (Hx : @None (list child) = Some (children container')).
          { apply Hkid. intros [Heq | []]. now apply Hne. }
          discriminate Hx. }
    split; [tauto |].
    intros Hne. destruct (concat rows) as [| x l] eqn:Hrest.
    + rewrite List.app_nil_r in Hne. apply Hkeep2. now apply Hs1.
    + apply Hs2. discriminate.
Qed.

(** X24: What a refresh of the first script renders on a page that has the
    six display elements and a container for every category of the snapshot
    (the categories distinct, each with its row).  It sends its request and
    logs nothing.  The counters are computed anew: [numSamples] is the number
    of counted slots and [storageUsed] the sum, from zero and in the order of
    the slots, of the sizes divided by 1024.  Every container shows its
    heading, if it had one, followed by one slot element for each slot of its
    row; no other element changes its children.  If any slot was rendered
    the page shows the counter and, as the number of free samples, 40 less
    the counter, a negative number from the 41st counted slot on. *)
Theorem legacy_refresh_counts_every_slot env st response data :
  network env [] ShOpz (read_samples "http://localhost:5000/read-samples")
  = Returned response ->
  ok response = true ->
  json response = Returned data ->
  has_display st ->
  List.NoDup (categories data) ->
  (forall c, In c (categories data) -> Legacy.elements st !! c <> None) ->
  (length (categories data) <= length (sampleData data))%nat ->
  let r := run Legacy.fetchOpzSamples env st in
  let page := Legacy.elements (final r) in
  let slots := concat (take (length (categories data)) (sampleData data)) in
  result r = Returned tt
  /\ trace r = [Fetched (read_samples "http://localhost:5000/read-samples")]
  /\ Legacy.numSamples (final r) = counted_in slots
  /\ Legacy.storageUsed (final r) = add_sizes slots (JsNumber.of_Z 0)
  /\ (forall k c container row,
        nth_error (categories data) k = Some c ->
        Legacy.elements st !! c = Some container ->
        nth_error (sampleData data) k = Some row ->
        kids page c = Some (kept_heading (children container) ++ slot_children c row))
  /\ (forall id, ~ In id (categories data) -> kids page id = kids (Legacy.elements st) id)
  /\ (slots <> [] ->
      text_at page "samples-used" = Some (JsString.of_Z (counted_in slots))
      /\ text_at page "samples-free" = Some (JsString.of_Z (40 - counted_in slots))).
Proof.
  intros Hnet Hok Hjson Hd Hnd Hall Hlen r page slots.
  set (req := read_samples "http://localhost:5000/read-samples") in *.
  set (st0 := {| Legacy.elements := Legacy.elements st;
                 Legacy.storageUsed := JsNumber.of_Z 0; Legacy.numSamples := 0 |}).
  set (rows := take (length (categories data)) (sampleData data)) in *.
  assert (Hrows : forall k, (k < length (categories data))%nat ->
            nth_error (sampleData data) (0 + k) = nth_error rows k).
  { intros k Hk. unfold rows. cbn [Nat.add]. rewrite List.nth_error_firstn.
    now apply Nat.ltb_lt in Hk as ->. }
  destruct (Legacy_render_categories_run data (categories data) rows 0 env st0 [Fetched req])
    as (st' & E & Hn & Hu & Hk & Hkc & _ & Hs); try assumption.
  { unfold rows. rewrite length_take. lia. }
  assert (Hrun : Legacy.fetchOpzSamples env st [] = (st', [Fetched req], Returned tt)).
  { unfold Legacy.fetchOpzSamples.
    change {| url := "http://localhost:5000/read-samples"; method := "GET"; fields := [] |}
      with req.
    unfold try_catch.
    match goal with
    | |- context [bind ?m ?k env st []] =>
        assert (Hbody : bind m k env st [] = (st', [Fetched req], Returned tt))
    end.
    { unfold bind at 1, fetch. rewrite Hnet. cbn [app]. rewrite Hok. cbn [negb].
      unfold bind at 1, lift. rewrite Hjson.
      unfold bind at 1, modify. fold st0. unfold forEach. exact E. }
    now rewrite Hbody. }
  subst r page. unfold run. rewrite Hrun. cbn [result trace final fst snd].
  fold slots in Hn, Hu, Hs.
  split; [reflexivity |]. split; [reflexivity |].
  split; [rewrite Hn; cbn; lia |]. split; [exact Hu |].
  split.
  { intros k c container row Hkc' Hc Hrow.
    apply (Hkc k c container row Hkc' Hc).
    rewrite <- (Hrows k); [exact Hrow |].
    apply nth_error_Some. congruence. }
  split; [intros id Hid; exact (proj2 Hk id Hid) |].
  intros Hne. destruct (Hs Hne) as [H1 H2].
  assert (Hn' : Legacy.numSamples st' = counted_in slots) by (rewrite Hn; cbn; lia).
  rewrite Hn' in H1, H2. split; [exact H1 | exact H2].
Qed.

Lemma legacy_refresh_counts_witness :
  Legacy.numSamples (final (run Legacy.fetchOpzSamples (backend true kick_snapshot)
                              legacy_state)) = 1
  /\ text_at (Legacy.elements (final (run Legacy.fetchOpzSamples (backend true kick_snapshot)
                                        legacy_state))) "samples-free" = Some "39".
Proof.
  destruct (legacy_refresh_counts_every_slot
              (backend true kick_snapshot) legacy_state
              (Build_response ShOpz true "OK" (Returned kick_snapshot)) kick_snapshot
              eq_refl eq_refl eq_refl) as (_ & _ & Hn & _ & _ & _ & Hshown).
  - intros id Hin. cbn in Hin.
    repeat (destruct Hin as [<- | Hin]; [vm_compute; discriminate |]). destruct Hin.
  - repeat constructor; intros [].
  - intros c [<- | []]. vm_compute. discriminate.
  - cbn. lia.
  - split; [exact Hn |]. destruct Hshown as [_ H2]; [discriminate |]. exact H2.
Defined.

(** *** The failures a refresh logs *)

Lemma try_fetch_record {S} sh req (rest : body sh -> M S unit) label env (s : S) h :
  (forall d, emits nothing (rest d)) ->
  (forall d, fails_only_with type_error (rest d)) ->
  let m := try_catch
             (bind (fetch sh req) (fun response =>
                if negb (ok response)
                then throw ("Network response was not ok: " ++ statusText response)
                else bind (lift (json response)) rest))
             (fun error => console_error label error) in
  snd (m env s h) = Returned tt
  /\ exists rendering,
       (rendering = Returned tt \/ rendering = Thrown type_error)
       /\ snd (fst (m env s h))
          = (h ++ refresh_record req label (network env h sh req) rendering)%list
       /\ forall data, snapshot_of (network env h sh req) = Some data ->
            rendering = snd (rest data env s (h ++ [Fetched req])%list).
Proof.
  intros Hemits Hfails m. subst m.
  assert (Hcons : forall l, ((h ++ [Fetched req]) ++ l = h ++ Fetched req :: l)%list).
  { intros l. now rewrite <- List.app_assoc. }
  unfold try_catch, bind, fetch, refresh_record, snapshot_of.
  destruct (network env h sh req) as [response | reason].
  - destruct (ok response); cbn [negb].
    + unfold lift. destruct (json response) as [data | reason].
      * specialize (Hemits data env s (h ++ [Fetched req])%list).
        specialize (Hfails data env s (h ++ [Fetched req])%list).
        destruct Hemits as (added & Hadded & Hnone).
        apply nothing_nil in Hnone. subst added. rewrite List.app_nil_r in Hadded.
        destruct (rest data env s (h ++ [Fetched req])%list) as [[s' h'] [[] | thrown]]
          eqn:Hrun; cbn in Hadded, Hfails |- *; subst h'.
        -- split; [reflexivity |]. exists (Returned tt).
           split; [now left |]. split; [first [reflexivity | apply Hcons] |].
           intros data' [= <-]. now rewrite Hrun.
        -- subst thrown. split; [reflexivity |]. exists (Thrown type_error).
           split; [now right |]. split; [first [reflexivity | apply Hcons] |].
           intros data' [= <-]. now rewrite Hrun.
      * cbn. split; [reflexivity |]. exists (Returned tt).
        split; [now left |]. split; [first [reflexivity | apply Hcons] | discriminate].
    + cbn. split; [reflexivity |]. exists (Returned tt).
      split; [now left |]. split; [first [reflexivity | apply Hcons] | discriminate].
  - cbn. split; [reflexivity |]. exists (Returned tt).
    split; [now left |]. split; [first [reflexivity | apply Hcons] | discriminate].
Qed.

Lemma Manager_hide_required_breaks id b env st h :
  Manager.elements st !! id = None ->
  Manager.hide_required id b env st h = (st, h, Thrown type_error).
Proof. intros Hnone. unfold Manager.hide_required, bind, get. now rewrite Hnone. Qed.

Lemma Manager_show_validation_error_breaks message storageInfo fileList env st h :
  Manager.elements st !! "validation-error-container" = None ->
  snd (Manager.show_validation_error message storageInfo fileList env st h)
  = Thrown type_error.
Proof.
  intros Hnone. unfold Manager.show_validation_error.
  rewrite get_bind_run.
  destruct (Manager.elements st !! "validation-error-message"); [| reflexivity].
  rewrite bind_modify.
  erewrite bind_thrown; [reflexivity |].
  apply Manager_hide_required_breaks.
  destruct st; cbn. now rewrite lookup_alter_ne.
Qed.

Lemma Manager_hide_validation_error_breaks storageInfo fileList env st h :
  Manager.elements st !! "validation-error-container" = None ->
  snd (Manager.hide_validation_error storageInfo fileList env st h) = Thrown type_error.
Proof.
  intros Hnone. unfold Manager.hide_validation_error.
  erewrite bind_thrown; [reflexivity |].
  now apply Manager_hide_required_breaks.
Qed.

Lemma Manager_validation_fails :
  (forall a b c, fails_only_with type_error (Manager.show_validation_error a b c))
  /\ (forall a b, fails_only_with type_error (Manager.hide_validation_error a b)).
Proof.
  split; intros;
    unfold Manager.show_validation_error, Manager.hide_validation_error,
      Manager.hide_required, Manager.hide_if_present; repeat fails_step.
Qed.

Lemma Manager_render_category_fails data category catIndex :
  fails_only_with type_error (Manager.render_category data category catIndex).
Proof.
  unfold Manager.render_category, Manager.render_slot, Manager.call_updateStorageDisplay,
    forEach.
  repeat fails_step.
Qed.

Lemma refresh_opz_record env st h :
  logs_its_failure (read_samples "/read-samples") "Failed to fetch OP-Z samples:"
    (network env h ShOpz (read_samples "/read-samples"))
    (fun _ => Manager.elements st !! "validation-error-container" = None)
    h (snd (fst (Manager.fetchOpzSamples env st h))).
Proof.
  destruct Manager_validation_fails as [Hshow Hhide].
  destruct (emits_Manager_validation nothing) as [Eshow Ehide].
  unfold Manager.fetchOpzSamples, logs_its_failure.
  match goal with
  | |- context [bind (lift (json _)) ?k] =>
      destruct (try_fetch_record ShOpz (read_samples "/read-samples") k
                  "Failed to fetch OP-Z samples:" env st h)
        as (_ & rendering & Hcases & Htrace & Hrendering)
  end.
  - intros data.
    repeat first [ apply emits_Manager_render_category
                 | apply emits_Manager_call_updateStorageDisplay | emits_step ].
  - intros data. unfold forEach.
    repeat first [ apply Hshow | apply Hhide | apply Manager_render_category_fails
                 | fails_step ].
  - exists rendering. split; [exact Hcases |]. split; [exact Htrace |].
    intros data Hdata Hnone. rewrite (Hrendering data Hdata).
    destruct (JsString.truthy (or_else (opz_validation_error data) EmptyString)).
    + now apply Manager_show_validation_error_breaks.
    + erewrite bind_thrown; [reflexivity |].
      unfold Manager.hide_validation_error.
      erewrite bind_thrown; [reflexivity |].
      now apply Manager_hide_required_breaks.
Qed.

Lemma refresh_op1_record localeCompare env st h :
  logs_its_failure (read_samples "/read-op1-samples") "Failed to fetch OP-1 samples:"
    (network env h ShOp1 (read_samples "/read-op1-samples"))
    (fun _ => Manager.elements st !! "validation-error-container" = None)
    h (snd (fst (Manager.fetchOp1Samples localeCompare env st h))).
Proof.
  destruct Manager_validation_fails as [Hshow Hhide].
  destruct (emits_Manager_validation nothing) as [Eshow Ehide].
  unfold Manager.fetchOp1Samples, logs_its_failure.
  match goal with
  | |- context [bind (lift (json _)) ?k] =>
      destruct (try_fetch_record ShOp1 (read_samples "/read-op1-samples") k
                  "Failed to fetch OP-1 samples:" env st h)
        as (_ & rendering & Hcases & Htrace & Hrendering)
  end.
  - intros data.
    repeat first [ apply emits_Manager_call_updateStorageDisplay | emits_step ].
  - intros data. unfold Manager.call_updateStorageDisplay.
    repeat first [ apply Hshow | apply Hhide | fails_step ].
  - exists rendering. split; [exact Hcases |]. split; [exact Htrace |].
    intros data Hdata Hnone. rewrite (Hrendering data Hdata).
    rewrite bind_modify.
    assert (Hstill : Manager.elements (Manager.with_op1Data data st)
                       !! "validation-error-container" = None).
    { destruct st; exact Hnone. }
    destruct (JsString.truthy (or_else (op1_validation_error data) EmptyString)).
    + now apply Manager_show_validation_error_breaks.
    + erewrite bind_thrown; [reflexivity |].
      unfold Manager.hide_validation_error.
      erewrite bind_thrown; [reflexivity |].
      now apply Manager_hide_required_breaks.
Qed.

Lemma refresh_legacy_record env st h :
  logs_its_failure (read_samples "http://localhost:5000/read-samples")
    "Failed to fetch OP-Z samples:"
    (network env h ShOpz (read_samples "http://localhost:5000/read-samples"))
    (fun data => exists category others,
                   categories data = category :: others
                   /\ Legacy.elements st !! category = None)
    h (snd (fst (Legacy.fetchOpzSamples env st h))).
Proof.
  unfold Legacy.fetchOpzSamples, logs_its_failure.
  match goal with
  | |- context [bind (lift (json _)) ?k] =>
      destruct (try_fetch_record ShOpz (read_samples "http://localhost:5000/read-samples") k
                  "Failed to fetch OP-Z samples:" env st h)
        as (_ & rendering & Hcases & Htrace & Hrendering)
  end.
  - intros data. repeat first [ apply emits_Legacy_render_category | emits_step ].
  - intros data. unfold forEach.
    repeat first [ apply Legacy_render_category_fails | fails_step ].
  - exists rendering. split; [exact Hcases |]. split; [exact Htrace |].
    intros data Hdata (category & others & Hcats & Hnone).
    rewrite (Hrendering data Hdata).
    rewrite bind_modify. unfold forEach. rewrite Hcats. cbn [forEach_from].
    erewrite bind_thrown; [reflexivity |].
    unfold Legacy.render_category. rewrite get_bind_run. cbn [Legacy.elements].
    rewrite Hnone. reflexivity.
Qed.

(** X2: each of the three refresh functions sends its one request, never
    rejects, and leaves in the console exactly the failure it met: the reason
    of a refused request, the status text of an error status after "Network
    response was not ok: ", the reason of an unreadable body, or the
    TypeError of a rendering that broke, each under the function's own
    label, and nothing when the snapshot was rendered to the end.  The
    rendering breaks, among other cases, when the page of the editor has no
    validation error container, or when the first category has no container
    on the page of the first script. *)
Theorem refresh_logs_and_never_rejects :
  (forall env st h,
     snd (Manager.fetchOpzSamples env st h) = Returned tt
     /\ logs_its_failure (read_samples "/read-samples") "Failed to fetch OP-Z samples:"
          (network env h ShOpz (read_samples "/read-samples"))
          (fun _ => Manager.elements st !! "validation-error-container" = None)
          h (snd (fst (Manager.fetchOpzSamples env st h))))
  /\ (forall localeCompare env st h,
        snd (Manager.fetchOp1Samples localeCompare env st h) = Returned tt
        /\ logs_its_failure (read_samples "/read-op1-samples")
             "Failed to fetch OP-1 samples:"
             (network env h ShOp1 (read_samples "/read-op1-samples"))
             (fun _ => Manager.elements st !! "validation-error-container" = None)
             h (snd (fst (Manager.fetchOp1Samples localeCompare env st h))))
  /\ (forall env st h,
        snd (Legacy.fetchOpzSamples env st h) = Returned tt
        /\ logs_its_failure (read_samples "http://localhost:5000/read-samples")
             "Failed to fetch OP-Z samples:"
             (network env h ShOpz (read_samples "http://localhost:5000/read-samples"))
             (fun data => exists category others,
                            categories data = category :: others
                            /\ Legacy.elements st !! category = None)
             h (snd (fst (Legacy.fetchOpzSamples env st h)))).
Proof.
  split; [| split].
  - intros env st h. split; [apply Manager_fetchOpzSamples_returns | apply refresh_opz_record].
  - intros localeCompare env st h.
    split; [apply Manager_fetchOp1Samples_returns | apply refresh_op1_record].
  - intros env st h.
    split; [apply Legacy_fetchOpzSamples_returns | apply refresh_legacy_record].
Qed.

(** *** A snapshot without its storage *)

Lemma kept_heading_twice l : kept_heading (kept_heading l) = kept_heading l.
Proof.
  unfold kept_heading, heading_of.
  destruct (List.find _ l) as [c |] eqn:Hfind; [| reflexivity].
  apply List.find_some in Hfind as [_ Hc]. cbn. now rewrite Hc.
Qed.

Lemma kids_alter_children f x (doc : gmap string element) id :
  kids (alter (set_children f) x doc) id
  = if String.eqb id x then (fun _ => f) <$> kids doc id else kids doc id.
Proof.
  unfold kids. destruct (String.eqb_spec id x) as [-> | Hne].
  - rewrite lookup_alter_eq. now destruct (doc !! x).
  - now rewrite lookup_alter_ne by congruence.
Qed.

(** Without storage the rendering passes a category that has no container or
    whose row is empty: the first keeps the page as it is, the second leaves
    the container with its heading. *)
Lemma render_categories_pass data before :
  forall i rest env st h,
    (forall k c, nth_error before k = Some c ->
       Manager.elements st !! c = None
       \/ nth_error (sampleData data) (i + k) = Some []) ->
    exists st',
      forEach_from i (before ++ rest) (Manager.render_category data) env st h
      = forEach_from (i + length before) rest (Manager.render_category data) env st' h
      /\ (forall id, In id before ->
            kids (Manager.elements st') id = kept_heading <$> kids (Manager.elements st) id)
      /\ (forall id, ~ In id before ->
            kids (Manager.elements st') id = kids (Manager.elements st) id)
      /\ Manager.opzStorageUsed st' = Manager.opzStorageUsed st
      /\ Manager.opzNumSamples st' = Manager.opzNumSamples st.
Proof.
  induction before as [| x before IH]; intros i rest env st h Hpass.
  - exists st. cbn [app length]. rewrite Nat.add_0_r.
    split; [reflexivity |]. split; [intros id [] | auto].
  - cbn [app forEach_from length].
    assert (Hrest : forall st1,
              (forall c, Manager.elements st1 !! c = None <-> Manager.elements st !! c = None) ->
              forall k c, nth_error before k = Some c ->
                Manager.elements st1 !! c = None
                \/ nth_error (sampleData data) (Datatypes.S i + k) = Some []).
    { intros st1 Hsame k c Hk. destruct (Hpass (Datatypes.S k) c Hk) as [Hnone | Hrow].
      - left. now apply Hsame.
      - right. now rewrite Nat.add_succ_r in Hrow. }
    destruct (Manager.elements st !! x) as [container |] eqn:Hx.
    + destruct (Hpass 0%nat x eq_refl) as [Hnone | Hrow]; [congruence |].
      rewrite Nat.add_0_r in Hrow.
      set (st1 := Manager.with_elements
                    (alter (set_children (kept_heading (children container))) x) st).
      assert (Hcat : Manager.render_category data x i env st h = (st1, h, Returned tt)).
      { unfold Manager.render_category. rewrite get_bind_run, Hx, bind_modify, Hrow.
        reflexivity. }
      rewrite (bind_value _ _ _ _ _ _ _ _ Hcat).
      assert (Hkids1 : forall id,
                kids (Manager.elements st1) id
                = if String.eqb id x
                  then (fun _ => kept_heading (children container))
                         <$> kids (Manager.elements st) id
                  else kids (Manager.elements st) id).
      { intros id. subst st1. destruct st. apply kids_alter_children. }
      destruct (IH (Datatypes.S i) rest env st1 h) as (st' & E & Hin & Hout & Hu & Hn).
      { apply Hrest. intros c. rewrite <- !kids_None, Hkids1.
        destruct (String.eqb_spec c x) as [-> | Hne]; [| reflexivity].
        unfold kids. rewrite Hx. cbn. split; discriminate. }
      exists st'. rewrite E, Nat.add_succ_r.
      split; [reflexivity |]. split; [| split].
      * intros id Hid.
        assert (Hxk : kids (Manager.elements st1) x
                      = kept_heading <$> kids (Manager.elements st) x).
        { rewrite Hkids1, String.eqb_refl. unfold kids. now rewrite Hx. }
        destruct (in_dec string_dec id before) as [Hb | Hb].
        -- rewrite (Hin id Hb), Hkids1.
           destruct (String.eqb_spec id x) as [-> | Hne]; [| reflexivity].
           unfold kids. rewrite Hx. cbn. now rewrite kept_heading_twice.
        -- destruct Hid as [<- | Hid]; [| contradiction].
           now rewrite (Hout x Hb).
      * intros id Hid. rewrite (Hout id) by (intros Hb; apply Hid; now right).
        rewrite Hkids1. destruct (String.eqb_spec id x) as [-> | Hne]; [| reflexivity].
        exfalso. apply Hid. now left.
      * subst st1. destruct st. cbn in *. auto.
    + assert (Hcat : Manager.render_category data x i env st h = (st, h, Returned tt)).
      { unfold Manager.render_category. rewrite get_bind_run, Hx. reflexivity. }
      rewrite (bind_value _ _ _ _ _ _ _ _ Hcat).
      destruct (IH (Datatypes.S i) rest env st h) as (st' & E & Hin & Hout & Hu & Hn).
      { apply Hrest. reflexivity. }
      exists st'. rewrite E, Nat.add_succ_r.
      split; [reflexivity |]. split; [| split; [| auto]].
      * intros id Hid. destruct (in_dec string_dec id before) as [Hb | Hb].
        -- now apply Hin.
        -- destruct Hid as [<- | Hid]; [| contradiction].
           rewrite (Hout x Hb). unfold kids. now rewrite Hx.
      * intros id Hid. apply Hout. intros Hb. apply Hid. now right.
Qed.

(** X11: a snapshot without its [storage] stops the rendering at the first
    slot it comes to.  The categories before that slot's category, each
    without a container on the page or with an empty row, are passed: those
    with a container are left with their heading only.  The category of the
    slot is left with its heading only, no slot is shown, every container
    that is not of these categories keeps what it showed before, the
    variable for the storage used is reset to zero, as the branch for a
    missing storage says, the slot is counted if it holds a sample, and the
    [TypeError] is logged as a failure to fetch. *)
Theorem snapshot_without_storage_renders_nothing :
  forall env st response data before c after slot slots,
    network env [] ShOpz (read_samples "/read-samples") = Returned response ->
    ok response = true ->
    json response = Returned data ->
    or_else (opz_validation_error data) EmptyString = EmptyString ->
    opz_storage data = None ->
    categories data = (before ++ c :: after)%list ->
    (forall k c', nth_error before k = Some c' ->
       Manager.elements st !! c' = None \/ nth_error (sampleData data) k = Some []) ->
    is_Some (Manager.elements st !! c) ->
    nth_error (sampleData data) (length before) = Some (slot :: slots) ->
    is_Some (Manager.elements st !! "validation-error-container") ->
    let r := run Manager.fetchOpzSamples env st in
    result r = Returned tt
    /\ trace r = [Fetched (read_samples "/read-samples");
                  ConsoleError "Failed to fetch OP-Z samples:" type_error]
    /\ (forall id, In id (before ++ [c])%list ->
          kids (Manager.elements (final r)) id
          = kept_heading <$> kids (Manager.elements st) id)
    /\ (forall id, ~ In id (before ++ [c])%list ->
          kids (Manager.elements (final r)) id = kids (Manager.elements st) id)
    /\ Manager.opzStorageUsed (final r) = JsNumber.of_Z 0
    /\ Manager.opzNumSamples (final r) = (if counted slot then 1 else 0).
Proof.
  intros env st response data before c after slot slots
    Hnet Hok Hjson Hval Hs Hcats Hpass [container Hc] Hrow [ec Hec] r.
  set (st0 := Manager.with_opzNumSamples 0
                (Manager.with_opz_storage (JsNumber.of_Z 0) (Manager.OPZ_TOTAL_STORAGE st)
                   (Manager.with_elements (alter (set_hidden false) "opz-file-list")
                      (Manager.with_elements (alter (set_hidden false) "opz-storage-info")
                         (Manager.with_elements
                            (alter (set_hidden true) "validation-error-container") st))))).
  assert (Hkids0 : forall id, kids (Manager.elements st0) id = kids (Manager.elements st) id).
  { intros id. subst st0. cbn. now rewrite !kids_alter_hidden. }
  assert (Hnone0 : forall id,
            Manager.elements st0 !! id = None <-> Manager.elements st !! id = None).
  { intros id. rewrite <- !kids_None. now rewrite Hkids0. }
  destruct (render_categories_pass data before 0 (c :: after) env st0
              [Fetched (read_samples "/read-samples")])
    as (st1 & Epass & Hin1 & Hout1 & Hu1 & Hn1).
  { intros k c' Hk. destruct (Hpass k c' Hk) as [Hnone | Hempty];
      [left; now apply Hnone0 | now right]. }
  cbn [Nat.add] in Epass.
  assert (Hkc : exists container1, Manager.elements st1 !! c = Some container1).
  { destruct (Manager.elements st1 !! c) as [container1 |] eqn:Hc1; [now eexists |].
    exfalso. apply kids_None in Hc1.
    destruct (in_dec string_dec c before) as [Hb | Hb].
    - rewrite (Hin1 c Hb), Hkids0 in Hc1. unfold kids in Hc1. rewrite Hc in Hc1.
      discriminate Hc1.
    - rewrite (Hout1 c Hb), Hkids0 in Hc1. unfold kids in Hc1. rewrite Hc in Hc1.
      discriminate Hc1. }
  destruct Hkc as [container1 Hc1].
  set (st2 := Manager.with_elements
                (alter (set_children (kept_heading (children container1))) c) st1).
  set (st3 := if counted slot
              then Manager.with_opzNumSamples (Manager.opzNumSamples st2 + 1) st2 else st2).
  assert (Hcat : Manager.render_category data c (length before) env st1
                   [Fetched (read_samples "/read-samples")] =
                 (st3, [Fetched (read_samples "/read-samples")], Thrown type_error)).
  { unfold Manager.render_category. rewrite get_bind, Hc1, bind_modify, Hrow.
    unfold forEach. cbn [forEach_from].
    fold (kept_heading (children container1)). fold st2.
    erewrite bind_thrown; [reflexivity |].
    unfold Manager.render_slot, Manager.call_updateStorageDisplay. rewrite Hs.
    unfold_async. subst st3. destruct (counted slot); reflexivity. }
  assert (Hrun : r = (st3, [Fetched (read_samples "/read-samples");
                            ConsoleError "Failed to fetch OP-Z samples:" type_error],
                      Returned tt)).
  { subst r. unfold Manager.fetchOpzSamples, run.
    fold (read_samples "/read-samples").
    unfold try_catch, bind at 1, fetch at 1. rewrite Hnet. cbn [app]. rewrite Hok. cbn [negb].
    unfold bind at 1, lift at 1. rewrite Hjson, Hval. cbn [JsString.truthy].
    unfold Manager.hide_validation_error.
    erewrite bind_value.
    2: { erewrite bind_value by (rewrite hide_required_run, Hec; reflexivity).
         unfold Manager.hide_if_present. rewrite bind_modify. unfold modify. reflexivity. }
    rewrite !bind_modify, Hs, Hcats. unfold forEach.
    match goal with
    | |- context [forEach_from 0 _ _ env ?s _] => change s with st0
    end.
    rewrite Epass.
    cbn [forEach_from]. erewrite bind_thrown by exact Hcat. reflexivity. }
  rewrite Hrun. cbn [fst snd final trace result].
  assert (Hkids3 : forall id,
            kids (Manager.elements st3) id
            = if String.eqb id c
              then (fun _ => kept_heading (children container1))
                     <$> kids (Manager.elements st1) id
              else kids (Manager.elements st1) id).
  { intros id. subst st3 st2. destruct st1.
    destruct (counted slot); apply kids_alter_children. }
  assert (Hu0 : Manager.opzStorageUsed st0 = JsNumber.of_Z 0) by reflexivity.
  assert (Hn0 : Manager.opzNumSamples st0 = 0) by reflexivity.
  clearbody st0.
  split; [reflexivity |]. split; [reflexivity |]. split; [| split].
  - intros id Hid. rewrite Hkids3.
    destruct (String.eqb_spec id c) as [-> | Hne].
    + unfold kids at 1. rewrite Hc1. cbn [fmap option_fmap option_map].
      destruct (in_dec string_dec c before) as [Hb | Hb].
      * pose proof (Hin1 c Hb) as Hk. rewrite Hkids0 in Hk. unfold kids in Hk.
        rewrite Hc1, Hc in Hk. cbn in Hk. injection Hk as Hk.
        unfold kids. rewrite Hc. cbn. now rewrite Hk, kept_heading_twice.
      * pose proof (Hout1 c Hb) as Hk. rewrite Hkids0 in Hk. unfold kids in Hk.
        rewrite Hc1, Hc in Hk. cbn in Hk. injection Hk as Hk.
        unfold kids. rewrite Hc. cbn. now rewrite Hk.
    + apply List.in_app_or in Hid as [Hb | [<- | []]]; [| congruence].
      now rewrite (Hin1 id Hb), Hkids0.
  - intros id Hid. rewrite Hkids3.
    destruct (String.eqb_spec id c) as [-> | Hne].
    + exfalso. apply Hid. apply List.in_or_app. right. now left.
    + rewrite (Hout1 id), Hkids0; [reflexivity |].
      intros Hb. apply Hid. apply List.in_or_app. now left.
  - split; subst st3 st2; destruct (counted slot);
      cbn [Manager.opzStorageUsed Manager.opzNumSamples Manager.with_elements
           Manager.with_opzNumSamples]; rewrite ?Hu1, ?Hn1, ?Hu0, ?Hn0; reflexivity.
Qed.

(** A snapshot that lost its storage, on a page that has no container for
    its first category and whose second category has no slot. *)
Lemma snapshot_without_storage_witness :
  trace (run Manager.fetchOpzSamples (backend true storage_less_snapshot)
           two_containers_state)
  = [Fetched (read_samples "/read-samples");
     ConsoleError "Failed to fetch OP-Z samples:" type_error]
  /\ kids (Manager.elements
            (final (run Manager.fetchOpzSamples (backend true storage_less_snapshot)
           two_containers_state)))
        "snare" = Some [Heading "Snare"]
  /\ kids (Manager.elements
            (final (run Manager.fetchOpzSamples (backend true storage_less_snapshot)
           two_containers_state)))
        "kick" = Some [Heading "Kick"]
  /\ Manager.opzNumSamples
       (final (run Manager.fetchOpzSamples (backend true storage_less_snapshot)
           two_containers_state)) = 1.
Proof.
  destruct (snapshot_without_storage_renders_nothing
              (backend true storage_less_snapshot) two_containers_state
              (Build_response ShOpz true "OK" (Returned storage_less_snapshot))
              storage_less_snapshot ["lead"; "snare"] "kick" []
              (slot_of None (Some "snare.wav") None) []
              eq_refl eq_refl eq_refl eq_refl eq_refl eq_refl)
    as (_ & Htrace & Hin & _ & _ & Hn).
  - intros [| [| k]] c' Hk.
    + left. injection Hk as <-. reflexivity.
    + right. reflexivity.
    + destruct k; discriminate Hk.
  - eexists. reflexivity.
  - reflexivity.
  - eexists. reflexivity.
  - split; [exact Htrace |]. split; [| split].
    + rewrite (Hin "snare"); [reflexivity | right; now left].
    + rewrite (Hin "kick"); [reflexivity | right; right; now left].
    + rewrite Hn. reflexivity.
Defined.
